(** * GEB WhatsApp dashboard backend: a shallow embedding and its properties

    The development follows the Python sources:
    - [PyStr], [Phone], [Json]: the string methods the handlers rely on,
      phone cleaning and validation, parsed JSON values;
    - the records of backend/store.py and the [Store] that holds them;
    - [M], the handlers' monad: state passing with HTTPException;
    - in section [Backend], over an environment [Env] of configuration
      values and oracles: whatsapp_service.py, routes/auth.py,
      routes/users.py, routes/templates.py, routes/messages.py,
      routes/webhooks.py, the seeding of store.py and the routing of
      main.py ([handle], [run], [reachable]);
    - a concrete environment and scenarios; then the properties.

    A Python [str] is modelled by [string]; a character is a code point
    below 256.  Mutable module-level lists become fields of one [Store]
    record that every handler threads through. *)

From stdpp Require Import gmap strings list fin_maps pretty.
From Stdlib Require Import ZArith Ascii String Sorted Permutation.

Set Warnings "-register-all".

Local Open Scope string_scope.
Local Open Scope Z_scope.

(** ** Python string methods *)

Module PyStr.

Definition code (c : ascii) : nat := nat_of_ascii c.

(** [str.isspace] on one character, for code points below 256. *)
Definition is_space (c : ascii) : bool :=
  let n := code c in
  ((9 <=? n) && (n <=? 13))%nat || ((28 <=? n) && (n <=? 32))%nat
  || (n =? 133)%nat || (n =? 160)%nat.

(** A character [str.isdigit] accepts: 0-9 and the superscripts
    U+00B2, U+00B3, U+00B9. *)
Definition is_digit (c : ascii) : bool :=
  let n := code c in
  ((48 <=? n) && (n <=? 57))%nat
  || (n =? 178)%nat || (n =? 179)%nat || (n =? 185)%nat.

Fixpoint lstrip (s : string) : string :=
  match s with
  | EmptyString => EmptyString
  | String c s' => if is_space c then lstrip s' else s
  end.

Fixpoint rstrip (s : string) : string :=
  match s with
  | EmptyString => EmptyString
  | String c s' =>
      match rstrip s' with
      | EmptyString => if is_space c then EmptyString else String c EmptyString
      | r => String c r
      end
  end.

Definition strip (s : string) : string := rstrip (lstrip s).

(** [s.replace(c, empty)] for a one-character [c]. *)
Fixpoint remove_char (c : ascii) (s : string) : string :=
  match s with
  | EmptyString => EmptyString
  | String d s' =>
      if Ascii.eqb c d then remove_char c s' else String d (remove_char c s')
  end.

(** [s.replace(" ", "_")]. *)
Fixpoint replace_char (c r : ascii) (s : string) : string :=
  match s with
  | EmptyString => EmptyString
  | String d s' => String (if Ascii.eqb c d then r else d) (replace_char c r s')
  end.

Fixpoint all_chars (p : ascii -> bool) (s : string) : bool :=
  match s with
  | EmptyString => true
  | String c s' => p c && all_chars p s'
  end.

(** [str.isdigit]: at least one character, and all of them digits. *)
Definition isdigit (s : string) : bool :=
  match s with
  | EmptyString => false
  | _ => all_chars is_digit s
  end.

Definition startswith (s p : string) : bool := String.prefix p s.

Definition lower_char (c : ascii) : ascii :=
  let n := code c in
  if ((65 <=? n) && (n <=? 90))%nat
     || ((192 <=? n) && (n <=? 222) && negb (n =? 215))%nat
  then ascii_of_nat (n + 32) else c.

Fixpoint lower (s : string) : string :=
  match s with
  | EmptyString => EmptyString
  | String c s' => String (lower_char c) (lower s')
  end.

(** [str.upper] on one character.  The sharp s becomes "SS"; the two
    characters whose capital lies above 255 (U+00B5, U+00FF) are kept,
    which is as far from an ASCII capital as their real image. *)
Definition upper_char (c : ascii) : string :=
  let n := code c in
  if (n =? 223)%nat then "SS"
  else if ((97 <=? n) && (n <=? 122))%nat
          || ((224 <=? n) && (n <=? 254) && negb (n =? 247))%nat
  then String (ascii_of_nat (n - 32)) EmptyString
  else String c EmptyString.

Fixpoint upper (s : string) : string :=
  match s with
  | EmptyString => EmptyString
  | String c s' => upper_char c +:+ upper s'
  end.

(** The double quote character, as a string. *)
Definition quote : string := String (ascii_of_nat 34) EmptyString.

(** Truth value of a string: non-empty. *)
Definition truthy (s : string) : bool :=
  match s with EmptyString => false | _ => true end.

(** [s[:n]]. *)
Definition take (n : nat) (s : string) : string := String.substring 0 n s.

Fixpoint contains_char (c : ascii) (s : string) : bool :=
  match s with
  | EmptyString => false
  | String d s' => Ascii.eqb c d || contains_char c s'
  end.

End PyStr.

(** ** backend/whatsapp_service.py: phone handling *)

Module Phone.
Import PyStr.

(** [phone.strip()], then [replace] of " ", "-" and "+" by the empty string *)
Definition cleaned (phone : string) : string :=
  remove_char "+" (remove_char "-" (remove_char " " (strip phone))).

Definition _normalize_phone (phone : string) : string :=
  let c := cleaned phone in
  if negb (startswith c "91") && (String.length c =? 10)%nat
  then "91" +:+ c else c.

Definition validate_phone (phone : string) : bool :=
  let c := cleaned phone in
  isdigit c && (7 <=? String.length c)%nat && (String.length c <=? 15)%nat.

End Phone.

(** ** Parsed JSON values

    What [request.json()] hands to the webhook handler.  Numbers are kept
    as integers; an object is its list of bindings, the first binding of
    a key being the one [get] sees. *)

Module Json.

Inductive json : Type :=
| JNull
| JBool (b : bool)
| JNum (n : Z)
| JStr (s : string)
| JArr (items : list json)
| JObj (fields : list (string * json)).

(** Python truth value. *)
Definition truthy (v : json) : bool :=
  match v with
  | JNull => false
  | JBool b => b
  | JNum n => negb (n =? 0)
  | JStr s => PyStr.truthy s
  | JArr l => match l with [] => false | _ => true end
  | JObj f => match f with [] => false | _ => true end
  end.

Fixpoint lookup_field (k : string) (f : list (string * json)) : option json :=
  match f with
  | [] => None
  | (k', v) :: f' => if String.eqb k k' then Some v else lookup_field k f'
  end.

(** [v.get(k, d)]: [None] stands for the AttributeError raised when [v]
    is not a dict. *)
Definition get (v : json) (k : string) (d : json) : option json :=
  match v with
  | JObj f => Some (default d (lookup_field k f))
  | _ => None
  end.

Definition chars (s : string) : list json :=
  map (fun c => JStr (String c EmptyString)) (list_ascii_of_string s).

(** The items a [for] loop over [v] visits: [None] stands for the
    TypeError raised when [v] is not iterable. *)
Definition iter (v : json) : option (list json) :=
  match v with
  | JArr l => Some l
  | JObj f => Some (map (fun kv => JStr (fst kv)) f)
  | JStr s => Some (chars s)
  | _ => None
  end.

(** [v == s] for a string [s]. *)
Definition eq_str (v : json) (s : string) : bool :=
  match v with JStr s' => String.eqb s' s | _ => false end.

(** [len(v)]: [None] stands for the TypeError raised when [v] has no
    length. *)
Definition len (v : json) : option nat :=
  match v with
  | JArr l => Some (List.length l)
  | JObj f => Some (List.length f)
  | JStr s => Some (String.length s)
  | _ => None
  end.

(** [a == b] on parsed values: [True] and [False] equal 1 and 0, lists
    are compared item by item and dicts binding by binding (the keys of
    a parsed object are distinct). *)
Fixpoint py_eq (a b : json) {struct a} : bool :=
  match a, b with
  | JNull, JNull => true
  | JBool x, JBool y => Bool.eqb x y
  | JBool x, JNum n => (if x then 1 else 0) =? n
  | JNum n, JBool x => n =? (if x then 1 else 0)
  | JNum x, JNum y => x =? y
  | JStr x, JStr y => String.eqb x y
  | JArr x, JArr y =>
      (fix items_eq (x y : list json) {struct x} : bool :=
         match x, y with
         | [], [] => true
         | u :: x', v :: y' => py_eq u v && items_eq x' y'
         | _, _ => false
         end) x y
  | JObj x, JObj y =>
      (List.length x =? List.length y)%nat
      && (fix fields_eq (x : list (string * json)) {struct x} : bool :=
            match x with
            | [] => true
            | (k, u) :: x' =>
                match lookup_field k y with
                | Some v => py_eq u v
                | None => false
                end && fields_eq x'
            end) x
  | _, _ => false
  end.

(** The exceptions that reading a parsed value raises. *)
Inductive py_error : Type :=
| AttributeError (v : json) (attribute : string)
| IndexError
| KeyError (key : Z)
| TypeError (v : json).

(** [v.get(k, d)] *)
Definition attr_get (v : json) (k : string) (d : json) : json + py_error :=
  match get v k d with
  | Some x => inl x
  | None => inr (AttributeError v "get")
  end.

(** [v[0]] *)
Definition index0 (v : json) : json + py_error :=
  match v with
  | JArr (x :: _) => inl x
  | JArr [] => inr IndexError
  | JStr (String c _) => inl (JStr (String c EmptyString))
  | JStr EmptyString => inr IndexError
  | JObj _ => inr (KeyError 0)
  | _ => inr (TypeError v)
  end.

End Json.
Export Json.

(** ** backend/whatsapp_service.py: payloads and results *)

Inductive component : Type :=
| BodyComponent (parameters : list string)
| UrlButton (index : string) (url : string).

Inductive payload : Type :=
| TextPayload (to : string) (text : string)
| TemplatePayload (to : string) (name : string) (language : string)
                  (components : list component).

(** What [httpx.post] followed by [resp.json()] can do, as [_post] tells
    the cases apart: a reply with its status code and its parsed body, a
    timeout, a connection error, or any other exception (a body that is
    not JSON among them) with its [str]. *)
Inductive http_outcome : Type :=
| HttpReply (status_code : Z) (result : json)
| HttpTimeout
| HttpConnectError
| HttpException (message : string).

(** The dict [_post] returns, as its callers read it: [message_id] and
    [error] are what [result.get] gives, null when the key is absent. *)
Record gw_result : Type := {
  success : bool;
  message_id : json;
  error : json;
  simulated : bool;
  note : string
}.

(** The claims [generate_token] signs. *)
Record claims : Type := {
  c_user_id : Z;
  c_username : string;
  c_role : string;
  c_exp : Z;
  c_iat : Z
}.

(** A bearer token: a well-formed JWT carries claims and a signature;
    anything else is only a string. *)
Inductive token : Type :=
| Jwt (body : claims) (signature : string)
| Garbage (s : string).

(** ** backend/config.py and the world outside

    Configuration values, and the outside world as oracles indexed by
    the number of readings made so far ([ticks] of the store). *)

Record Env : Type := {
  SECRET_KEY : string;
  JWT_EXPIRY_HOURS : Z;
  WHATSAPP_PHONE_ID : string;
  WHATSAPP_TOKEN : string;
  WHATSAPP_VERIFY_TOKEN : string;
  ADMIN_USERNAME : string;
  ADMIN_PASSWORD : string;
  ADMIN_NAME : string;
  ADMIN_EMAIL : string;
  (** [datetime.utcnow()], in microseconds since the epoch *)
  utcnow : nat -> Z;
  (** [datetime.isoformat] *)
  isoformat : Z -> string;
  (** the 32 characters [random.choices] draws *)
  random_choices : nat -> string;
  httpx_post : nat -> payload -> http_outcome;
  (** [str(e)] of an exception raised while a reply is read *)
  str_exception : py_error -> string;
  (** [str(v)] of a parsed value that is not a string *)
  str_value : json -> string;
  generate_password_hash : nat -> string -> string;
  check_password_hash : string -> string -> bool;
  (** HMAC-SHA256 of the claims under a key *)
  hs256 : string -> claims -> string
}.

(** ** backend/store.py *)

Record User : Type := {
  u_id : Z;
  u_name : string;
  u_email : string;
  u_username : string;
  u_password_hash : string;
  u_role : string;
  u_is_active : bool;
  u_created_at : string;
  u_last_login : option string
}.

Record Template : Type := {
  t_id : Z;
  t_name : string;
  t_category : string;
  t_language : string;
  t_body : string;
  t_header : option string;
  t_footer : option string;
  t_button_text : option string;
  t_button_url : option string;
  t_status : string;
  t_created_by : Z;
  t_created_at : string
}.

(** [status] and [error_message] hold whatever the webhook handler copies
    out of a payload, [message_id] what the provider's reply carried and
    [recipient_name] what the recipients array of a bulk send carried,
    hence [json] (null for [None]). *)
Record MessageLog : Type := {
  l_id : Z;
  l_message_id : json;
  l_recipient_phone : string;
  l_recipient_name : json;
  l_message_type : string;
  l_template_id : option Z;
  l_template_name : option string;
  l_body_preview : string;
  l_status : json;
  l_error_message : json;
  l_sent_by : Z;
  l_sent_at : string;
  l_delivered_at : option string;
  l_read_at : option string
}.

Record Campaign : Type := {
  c_id : Z;
  c_name : string;
  c_template_id : Z;
  c_template_name : string;
  c_total_recipients : nat;
  c_sent_count : nat;
  c_delivered_count : nat;
  c_read_count : nat;
  c_failed_count : nat;
  c_status : string;
  c_created_by : Z;
  c_created_at : string;
  c_completed_at : option string
}.

Record ActivityLog : Type := {
  a_id : Z;
  a_user_id : Z;
  a_username : string;
  a_action : string;
  a_details : option string;
  a_ip_address : option string;
  a_timestamp : string
}.

(** The module-level state of store.py, the number of oracle readings
    made so far, and (ghost) the payloads handed to [_post]. *)
Record Store : Type := {
  _next_id : gmap string Z;
  users : list User;
  templates : list Template;
  message_logs : list MessageLog;
  campaigns : list Campaign;
  activity_logs : list ActivityLog;
  ticks : nat;
  posted : list payload
}.

Definition with_next_id (m : gmap string Z) (s : Store) : Store :=
  {| _next_id := m; users := users s; templates := templates s;
     message_logs := message_logs s; campaigns := campaigns s;
     activity_logs := activity_logs s; ticks := ticks s; posted := posted s |}.

Definition with_users (x : list User) (s : Store) : Store :=
  {| _next_id := _next_id s; users := x; templates := templates s;
     message_logs := message_logs s; campaigns := campaigns s;
     activity_logs := activity_logs s; ticks := ticks s; posted := posted s |}.

Definition with_templates (x : list Template) (s : Store) : Store :=
  {| _next_id := _next_id s; users := users s; templates := x;
     message_logs := message_logs s; campaigns := campaigns s;
     activity_logs := activity_logs s; ticks := ticks s; posted := posted s |}.

Definition with_message_logs (x : list MessageLog) (s : Store) : Store :=
  {| _next_id := _next_id s; users := users s; templates := templates s;
     message_logs := x; campaigns := campaigns s;
     activity_logs := activity_logs s; ticks := ticks s; posted := posted s |}.

Definition with_campaigns (x : list Campaign) (s : Store) : Store :=
  {| _next_id := _next_id s; users := users s; templates := templates s;
     message_logs := message_logs s; campaigns := x;
     activity_logs := activity_logs s; ticks := ticks s; posted := posted s |}.

Definition with_activity_logs (x : list ActivityLog) (s : Store) : Store :=
  {| _next_id := _next_id s; users := users s; templates := templates s;
     message_logs := message_logs s; campaigns := campaigns s;
     activity_logs := x; ticks := ticks s; posted := posted s |}.

Definition with_ticks (n : nat) (s : Store) : Store :=
  {| _next_id := _next_id s; users := users s; templates := templates s;
     message_logs := message_logs s; campaigns := campaigns s;
     activity_logs := activity_logs s; ticks := n; posted := posted s |}.

Definition with_posted (x : list payload) (s : Store) : Store :=
  {| _next_id := _next_id s; users := users s; templates := templates s;
     message_logs := message_logs s; campaigns := campaigns s;
     activity_logs := activity_logs s; ticks := ticks s; posted := x |}.

(** ** Handlers as state transformers that may raise HTTPException *)

Inductive result (A : Type) : Type :=
| Ok (a : A)
| HTTPException (status_code : Z) (detail : string).
Arguments Ok {A} a.
Arguments HTTPException {A} status_code detail.

Definition M (A : Type) : Type := Store -> result A * Store.

Definition ret {A} (a : A) : M A := fun s => (Ok a, s).

Definition raise {A} (code : Z) (detail : string) : M A :=
  fun s => (HTTPException code detail, s).

Definition bind {A B} (m : M A) (k : A -> M B) : M B :=
  fun s => match m s with
           | (Ok a, s') => k a s'
           | (HTTPException c d, s') => (HTTPException c d, s')
           end.

Definition gets {A} (f : Store -> A) : M A := fun s => (Ok (f s), s).

Definition modify (f : Store -> Store) : M unit := fun s => (Ok tt, f s).

Declare Scope handler_scope.
Delimit Scope handler_scope with handler.
Notation "x <- m ;; k" := (bind m (fun x => k))
  (at level 100, m at next level, right associativity) : handler_scope.
Notation "m ;;; k" := (bind m (fun _ => k))
  (at level 100, right associativity) : handler_scope.
Local Open Scope handler_scope.

(** [next((x for x in l if p(x)), None)] *)
Definition find_first {A} (p : A -> bool) (l : list A) : option A := List.find p l.

(** In-place mutation of the record [find_first] returns: the first
    element satisfying [p] is replaced by its image, the others stay. *)
Fixpoint update_first {A} (p : A -> bool) (f : A -> A) (l : list A) : list A :=
  match l with
  | [] => []
  | x :: l' => if p x then f x :: l' else x :: update_first p f l'
  end.

(** [list.remove(x)] for the record [find_first] returned. *)
Fixpoint remove_first {A} (p : A -> bool) (l : list A) : list A :=
  match l with
  | [] => []
  | x :: l' => if p x then l' else x :: remove_first p l'
  end.

Section Backend.

Variable E : Env.

(** One reading of an oracle. *)
Definition tick : M nat :=
  fun s => (Ok (ticks s), with_ticks (S (ticks s)) s).

Definition now_iso : M string :=
  n <- tick ;; ret (isoformat E (utcnow E n)).

Definition _auto_id (collection : string) : M Z :=
  fun s =>
    let m := match _next_id s !! collection with
             | Some _ => _next_id s
             | None => <[collection := 1]> (_next_id s)
             end in
    let val := default 1 (m !! collection) in
    (Ok val, with_next_id (<[collection := val + 1]> m) s).

Definition log_activity (user_id : Z) (username action : string)
           (details ip_address : option string) : M unit :=
  i <- _auto_id "activity_logs" ;;
  ts <- now_iso ;;
  modify (fun s => with_activity_logs
    (activity_logs s ++
     [{| a_id := i; a_user_id := user_id; a_username := username;
         a_action := action; a_details := details;
         a_ip_address := ip_address; a_timestamp := ts |}]) s).

(** *** Python exceptions, loops and reads of parsed values *)

(** A Python exception other than HTTPException: uncaught in a route it
    ends the request with a 500 answer, the store staying as it is by
    then; inside a [try] it is caught by [except Exception]. *)
Definition py_raise {A} (e : string) : M A := raise 500 e.

(** [try: m  except Exception: print(...)] *)
Definition try_except (m : M unit) : M unit :=
  fun s => (Ok tt, snd (m s)).

Fixpoint for_each {A} (l : list A) (body : A -> M unit) : M unit :=
  match l with
  | [] => ret tt
  | x :: l' => body x ;;; for_each l' body
  end.

Definition get_or_raise (v : json) (k : string) (d : json) : M json :=
  match Json.get v k d with
  | Some x => ret x
  | None => py_raise "AttributeError"
  end.

Definition iter_or_raise (v : json) : M (list json) :=
  match Json.iter v with
  | Some l => ret l
  | None => py_raise "TypeError"
  end.

(** [errors[0]] for a truthy [errors]. *)
Definition first_item (v : json) : M json :=
  match v with
  | JArr (x :: _) => ret x
  | JArr [] => py_raise "IndexError"
  | JStr (String c _) => ret (JStr (String c EmptyString))
  | JStr EmptyString => py_raise "IndexError"
  | JObj _ => py_raise "KeyError"
  | _ => py_raise "TypeError"
  end.

(** [str(v)] *)
Definition py_str (v : json) : string :=
  match v with
  | JStr s => s
  | _ => str_value E v
  end.

(** *** backend/whatsapp_service.py *)

Definition _simulate_response : M gw_result :=
  n <- tick ;;
  ret {| success := true;
         message_id := JStr ("wamid." +:+ random_choices E n);
         error := JNull;
         simulated := true;
         note := "Running in demo mode — configure WHATSAPP_PHONE_ID and WHATSAPP_TOKEN for live sending" |}.

(** [{"success": False, "error": e, ...}] *)
Definition failure (e : json) : gw_result :=
  {| success := false; message_id := JNull; error := e;
     simulated := false; note := EmptyString |}.

(** [{"success": True, "message_id": msg_id, "raw": result}] *)
Definition accepted (msg_id : json) : gw_result :=
  {| success := true; message_id := msg_id; error := JNull;
     simulated := false; note := EmptyString |}.

(** [result.get("messages", [{}])[0].get("id", "unknown")] *)
Definition reply_message_id (result : json) : json + py_error :=
  match attr_get result "messages" (JArr [JObj []]) with
  | inr e => inr e
  | inl messages =>
      match index0 messages with
      | inr e => inr e
      | inl first => attr_get first "id" (JStr "unknown")
      end
  end.

(** [result.get("error", {}).get("message", "Unknown error")] *)
Definition reply_error (result : json) : json + py_error :=
  match attr_get result "error" (JObj []) with
  | inr e => inr e
  | inl err => attr_get err "message" (JStr "Unknown error")
  end.

(** The body of the [try] of [_post], once the reply is there; an
    exception raised on the way is caught by [except Exception]. *)
Definition read_reply (status_code : Z) (result : json) : gw_result :=
  if status_code =? 200 then
    match reply_message_id result with
    | inl msg_id => accepted msg_id
    | inr e => failure (JStr (str_exception E e))
    end
  else
    match reply_error result with
    | inl error => failure error
    | inr e => failure (JStr (str_exception E e))
    end.

Definition _post (p : payload) : M gw_result :=
  modify (fun s => with_posted (posted s ++ [p]) s) ;;;
  if negb (PyStr.truthy (WHATSAPP_PHONE_ID E))
     || negb (PyStr.truthy (WHATSAPP_TOKEN E))
  then _simulate_response
  else
    n <- tick ;;
    ret (match httpx_post E n p with
         | HttpReply status_code result => read_reply status_code result
         | HttpTimeout => failure (JStr "Request timed out")
         | HttpConnectError => failure (JStr "Connection error — check network")
         | HttpException e => failure (JStr e)
         end).

Definition send_text_message (to_phone text : string) : M gw_result :=
  let phone := Phone._normalize_phone to_phone in
  _post (TextPayload phone text).

Definition send_template_message (to_phone template_name language_code : string)
           (components : list component) : M gw_result :=
  let phone := Phone._normalize_phone to_phone in
  _post (TemplatePayload phone template_name language_code components).

(** The [components] list [send_template_with_variables] builds. *)
Definition build_components (variables : list string)
           (button_url : option string) : list component :=
  (match variables with
   | [] => []
   | _ => [BodyComponent variables]
   end)
  ++
  (match button_url with
   | Some u => if PyStr.truthy u then [UrlButton "0" u] else []
   | None => []
   end).

(** The texts of the body parameters: [str(v) for v in variables] when
    [variables] is truthy, a TypeError when it cannot be iterated. *)
Definition variable_texts (variables : json) : M (list string) :=
  if Json.truthy variables then
    vs <- iter_or_raise variables ;;
    ret (map py_str vs)
  else ret [].

Definition send_template_with_variables (to_phone template_name : string)
           (variables : json) (language_code : string)
           (button_url : option string) : M gw_result :=
  let phone := Phone._normalize_phone to_phone in
  texts <- variable_texts variables ;;
  let components := build_components texts button_url in
  _post (TemplatePayload phone template_name language_code components).

(** *** backend/routes/auth.py *)

(** What [_decode_token] returns and every handler receives as
    [current_user]. *)
Record identity : Type := {
  user_id : Z;
  username : string;
  role : string
}.

Definition seconds (us : Z) : Z := us / 1000000.

(** [jwt.encode(payload, key, algorithm="HS256")]: datetimes become
    whole seconds. *)
Definition jwt_encode (c : claims) (key : string) : token :=
  Jwt c (hs256 E key c).

Inductive jwt_error : Type := ExpiredSignatureError | InvalidTokenError.

(** [jwt.decode(token, key, algorithms=["HS256"])] at time [now]
    (microseconds): the signature, then the claims [iat] and [exp]. *)
Definition jwt_decode (tok : token) (key : string) (now : Z)
  : claims + jwt_error :=
  match tok with
  | Garbage _ => inr InvalidTokenError
  | Jwt c sig =>
      if negb (String.eqb sig (hs256 E key c)) then inr InvalidTokenError
      else if now <? c_iat c * 1000000 then inr InvalidTokenError
      else if c_exp c * 1000000 <=? now then inr ExpiredSignatureError
      else inl c
  end.

Definition generate_token (uid : Z) (uname urole : string) : M token :=
  n1 <- tick ;;
  n2 <- tick ;;
  let p := {| c_user_id := uid; c_username := uname; c_role := urole;
              c_exp := seconds (utcnow E n1 + JWT_EXPIRY_HOURS E * 3600 * 1000000);
              c_iat := seconds (utcnow E n2) |} in
  ret (jwt_encode p (SECRET_KEY E)).

Definition _decode_token (tok : token) : M identity :=
  n <- tick ;;
  match jwt_decode tok (SECRET_KEY E) (utcnow E n) with
  | inl data =>
      ret {| user_id := c_user_id data; username := c_username data;
             role := c_role data |}
  | inr ExpiredSignatureError =>
      raise 401 "Token expired. Please log in again."
  | inr InvalidTokenError => raise 401 "Invalid token"
  end.

Definition token_truthy (t : token) : bool :=
  match t with Jwt _ _ => true | Garbage s => PyStr.truthy s end.

(** [credentials]: the Authorization header's bearer token;
    [cookie]: the [auth_token] cookie. *)
Definition get_current_user (credentials cookie : option token) : M identity :=
  let tok := match credentials with
             | Some t => if token_truthy t then Some t else cookie
             | None => cookie
             end in
  match tok with
  | Some t => if token_truthy t then _decode_token t
              else raise 401 "Authentication token required"
  | None => raise 401 "Authentication token required"
  end.

Definition get_admin_user (current_user : identity) : M identity :=
  if negb (String.eqb (role current_user) "admin")
  then raise 403 "Admin access required"
  else ret current_user.

Record LoginRequest : Type := {
  lr_username : string;
  lr_password : string
}.

(** The [user] object of the login response. *)
Record login_user : Type := {
  lu_id : Z; lu_name : string; lu_username : string;
  lu_email : string; lu_role : string
}.

(** One entry of the [results] list of a bulk send; [None] for a key
    the entry does not have. *)
Record bulk_item : Type := {
  b_phone : string;
  b_name : option json;
  b_status : string;
  b_error : option string;
  b_message_id : option json
}.

Inductive response : Type :=
| RLogin (tok : token) (u : login_user)
| RMessage (message : string)
| RCreated (id : Z) (message : string)
| RSend (ok : bool) (msg_id : json) (status : string)
        (sim : bool) (note : string)
| RBulk (campaign_id : Z) (total sent failed : nat)
        (results : list bulk_item)
| RCampaign (c : Campaign) (logs : list MessageLog)
| RWebhook (status : string).

Definition set_last_login (ts : string) (u : User) : User :=
  {| u_id := u_id u; u_name := u_name u; u_email := u_email u;
     u_username := u_username u; u_password_hash := u_password_hash u;
     u_role := u_role u; u_is_active := u_is_active u;
     u_created_at := u_created_at u; u_last_login := Some ts |}.

Definition login_match (uname : string) (u : User) : bool :=
  String.eqb (u_username u) uname && u_is_active u.

Definition login (body : LoginRequest) (host : string) : M response :=
  let uname := PyStr.strip (lr_username body) in
  let password := lr_password body in
  if negb (PyStr.truthy uname) || negb (PyStr.truthy password)
  then raise 400 "Username and password required"
  else
    found <- gets (fun s => find_first (login_match uname) (users s)) ;;
    match found with
    | None => raise 401 "Invalid credentials"
    | Some user =>
        if negb (check_password_hash E (u_password_hash user) password)
        then raise 401 "Invalid credentials"
        else
          ts <- now_iso ;;
          modify (fun s => with_users
            (update_first (login_match uname) (set_last_login ts) (users s)) s) ;;;
          tok <- generate_token (u_id user) (u_username user) (u_role user) ;;
          log_activity (u_id user) (u_username user) "LOGIN"
                       (Some ("Login from " +:+ host)) (Some host) ;;;
          ret (RLogin tok {| lu_id := u_id user; lu_name := u_name user;
                             lu_username := u_username user;
                             lu_email := u_email user;
                             lu_role := u_role user |})
    end.

Definition logout (host : string) (current_user : identity) : M response :=
  log_activity (user_id current_user) (username current_user) "LOGOUT"
               None (Some host) ;;;
  ret (RMessage "Logged out successfully").

Record ChangePasswordRequest : Type := {
  cp_current_password : string;
  cp_new_password : string
}.

Definition set_password_hash (h : string) (u : User) : User :=
  {| u_id := u_id u; u_name := u_name u; u_email := u_email u;
     u_username := u_username u; u_password_hash := h;
     u_role := u_role u; u_is_active := u_is_active u;
     u_created_at := u_created_at u; u_last_login := u_last_login u |}.

Definition has_id (i : Z) (u : User) : bool := u_id u =? i.

Definition change_password (body : ChangePasswordRequest) (host : string)
           (current_user : identity) : M response :=
  if negb (PyStr.truthy (cp_current_password body))
     || negb (PyStr.truthy (cp_new_password body))
  then raise 400 "Both current and new password required"
  else if (String.length (cp_new_password body) <? 6)%nat
  then raise 400 "New password must be at least 6 characters"
  else
    found <- gets (fun s => find_first (has_id (user_id current_user)) (users s)) ;;
    match found with
    | None => raise 400 "Current password is incorrect"
    | Some user =>
        if negb (check_password_hash E (u_password_hash user)
                                     (cp_current_password body))
        then raise 400 "Current password is incorrect"
        else
          n <- tick ;;
          modify (fun s => with_users
            (update_first (has_id (user_id current_user))
               (set_password_hash
                  (generate_password_hash E n (cp_new_password body)))
               (users s)) s) ;;;
          log_activity (user_id current_user) (username current_user)
                       "PASSWORD_CHANGE" None (Some host) ;;;
          ret (RMessage "Password changed successfully")
    end.

(** *** backend/routes/users.py *)

Definition MAX_USERS : nat := 6.

Record CreateUserRequest : Type := {
  cu_name : string;
  cu_email : string;
  cu_username : string;
  cu_password : string;
  cu_role : string
}.

Record UpdateUserRequest : Type := {
  uu_name : option string;
  uu_email : option string;
  uu_role : option string;
  uu_is_active : option bool
}.

(** [sum(1 for u in users if u["is_active"])] *)
Definition active_count (us : list User) : nat :=
  List.length (List.filter u_is_active us).

Definition create_user (body : CreateUserRequest) (host : string)
           (current_user : identity) : M response :=
  let name := PyStr.strip (cu_name body) in
  let email := PyStr.lower (PyStr.strip (cu_email body)) in
  let uname := PyStr.lower (PyStr.strip (cu_username body)) in
  let password := cu_password body in
  let urole := cu_role body in
  if negb (PyStr.truthy name && PyStr.truthy email
           && PyStr.truthy uname && PyStr.truthy password)
  then raise 400 "Name, email, username, and password are required"
  else if (String.length password <? 6)%nat
  then raise 400 "Password must be at least 6 characters"
  else if negb (String.eqb urole "admin" || String.eqb urole "operator"
                || String.eqb urole "viewer")
  then raise 400 "Role must be admin, operator, or viewer"
  else
    us <- gets users ;;
    if (MAX_USERS <=? active_count us)%nat
    then raise 400 ("Maximum " +:+ pretty MAX_USERS
                    +:+ " users allowed per the license")
    else if existsb (fun u => String.eqb (u_username u) uname) us
    then raise 409 "Username already exists"
    else if existsb (fun u => String.eqb (u_email u) email) us
    then raise 409 "Email already exists"
    else
      now <- now_iso ;;
      uid <- _auto_id "users" ;;
      n <- tick ;;
      modify (fun s => with_users
        (users s ++
         [{| u_id := uid; u_name := name; u_email := email;
             u_username := uname;
             u_password_hash := generate_password_hash E n password;
             u_role := urole; u_is_active := true;
             u_created_at := now; u_last_login := None |}]) s) ;;;
      log_activity (user_id current_user) (username current_user)
        "CREATE_USER"
        (Some ("Created user: " +:+ uname +:+ " (" +:+ urole +:+ ")"))
        (Some host) ;;;
      ret (RCreated uid "User created successfully").

Definition apply_user_update (body : UpdateUserRequest) (u : User) : User :=
  {| u_id := u_id u;
     u_name := default (u_name u) (uu_name body);
     u_email := default (u_email u) (uu_email body);
     u_username := u_username u;
     u_password_hash := u_password_hash u;
     u_role := default (u_role u) (uu_role body);
     u_is_active := default (u_is_active u) (uu_is_active body);
     u_created_at := u_created_at u;
     u_last_login := u_last_login u |}.

Definition update_user (uid : Z) (body : UpdateUserRequest) (host : string)
           (current_user : identity) : M response :=
  found <- gets (fun s => find_first (has_id uid) (users s)) ;;
  match found with
  | None => raise 404 "User not found"
  | Some _ =>
      modify (fun s => with_users
        (update_first (has_id uid) (apply_user_update body) (users s)) s) ;;;
      log_activity (user_id current_user) (username current_user)
        "UPDATE_USER" (Some ("Updated user ID: " +:+ pretty uid)) (Some host) ;;;
      ret (RMessage "User updated")
  end.

Definition deactivate (u : User) : User :=
  {| u_id := u_id u; u_name := u_name u; u_email := u_email u;
     u_username := u_username u; u_password_hash := u_password_hash u;
     u_role := u_role u; u_is_active := false;
     u_created_at := u_created_at u; u_last_login := u_last_login u |}.

Definition delete_user (uid : Z) (host : string)
           (current_user : identity) : M response :=
  if uid =? user_id current_user
  then raise 400 "Cannot delete your own account"
  else
    found <- gets (fun s => find_first (has_id uid) (users s)) ;;
    match found with
    | None => raise 404 "User not found"
    | Some _ =>
        modify (fun s => with_users
          (update_first (has_id uid) deactivate (users s)) s) ;;;
        log_activity (user_id current_user) (username current_user)
          "DEACTIVATE_USER" (Some ("Deactivated user ID: " +:+ pretty uid))
          (Some host) ;;;
        ret (RMessage "User deactivated")
    end.

(** *** backend/routes/templates.py *)

Record CreateTemplateRequest : Type := {
  ct_name : string;
  ct_category : string;
  ct_language : string;
  ct_body : string;
  ct_header : string;
  ct_footer : string;
  ct_button_text : string;
  ct_button_url : string
}.

Record UpdateTemplateRequest : Type := {
  ut_body : option string;
  ut_header : option string;
  ut_footer : option string;
  ut_button_text : option string;
  ut_button_url : option string;
  ut_status : option string
}.

(** [s or None] *)
Definition or_none (s : string) : option string :=
  if PyStr.truthy s then Some s else None.

Definition tmpl_has_id (i : Z) (t : Template) : bool := t_id t =? i.

Definition create_template (body : CreateTemplateRequest) (host : string)
           (current_user : identity) : M response :=
  let name := PyStr.replace_char " " "_"
                (PyStr.lower (PyStr.strip (ct_name body))) in
  let category := PyStr.upper (ct_category body) in
  let language := ct_language body in
  let tmpl_body := PyStr.strip (ct_body body) in
  let header := or_none (PyStr.strip (ct_header body)) in
  let footer := or_none (PyStr.strip (ct_footer body)) in
  let button_text := or_none (PyStr.strip (ct_button_text body)) in
  let button_url := or_none (PyStr.strip (ct_button_url body)) in
  if negb (PyStr.truthy name) || negb (PyStr.truthy tmpl_body)
  then raise 400 "Template name and body are required"
  else if negb (String.eqb category "UTILITY"
                || String.eqb category "MARKETING"
                || String.eqb category "AUTHENTICATION")
  then raise 400 "Category must be UTILITY, MARKETING, or AUTHENTICATION"
  else
    ts <- gets templates ;;
    if existsb (fun t => String.eqb (t_name t) name) ts
    then (* the detail string, without the quotes around the name *)
      raise 409 ("Template with name " +:+ PyStr.quote +:+ name
                 +:+ PyStr.quote +:+ " already exists")
    else
      now <- now_iso ;;
      tmpl_id <- _auto_id "templates" ;;
      modify (fun s => with_templates
        (templates s ++
         [{| t_id := tmpl_id; t_name := name; t_category := category;
             t_language := language; t_body := tmpl_body;
             t_header := header; t_footer := footer;
             t_button_text := button_text; t_button_url := button_url;
             t_status := "pending";
             t_created_by := user_id current_user;
             t_created_at := now |}]) s) ;;;
      log_activity (user_id current_user) (username current_user)
        "CREATE_TEMPLATE" (Some ("Template: " +:+ name)) (Some host) ;;;
      ret (RCreated tmpl_id "Template created (pending approval)").

(** [x = new or None] when [new is not None]. *)
Definition set_opt (new : option string) (old : option string) : option string :=
  match new with
  | Some v => or_none v
  | None => old
  end.

Definition apply_template_update (body : UpdateTemplateRequest)
           (t : Template) : Template :=
  {| t_id := t_id t; t_name := t_name t; t_category := t_category t;
     t_language := t_language t;
     t_body := default (t_body t) (ut_body body);
     t_header := set_opt (ut_header body) (t_header t);
     t_footer := set_opt (ut_footer body) (t_footer t);
     t_button_text := set_opt (ut_button_text body) (t_button_text t);
     t_button_url := set_opt (ut_button_url body) (t_button_url t);
     t_status := default (t_status t) (ut_status body);
     t_created_by := t_created_by t; t_created_at := t_created_at t |}.

Definition update_template (tid : Z) (body : UpdateTemplateRequest)
           (host : string) (current_user : identity) : M response :=
  found <- gets (fun s => find_first (tmpl_has_id tid) (templates s)) ;;
  match found with
  | None => raise 404 "Template not found"
  | Some _ =>
      modify (fun s => with_templates
        (update_first (tmpl_has_id tid) (apply_template_update body)
                      (templates s)) s) ;;;
      log_activity (user_id current_user) (username current_user)
        "UPDATE_TEMPLATE" (Some ("Template ID: " +:+ pretty tid)) (Some host) ;;;
      ret (RMessage "Template updated")
  end.

Definition delete_template (tid : Z) (host : string)
           (current_user : identity) : M response :=
  found <- gets (fun s => find_first (tmpl_has_id tid) (templates s)) ;;
  match found with
  | None => raise 404 "Template not found"
  | Some tmpl =>
      modify (fun s => with_templates
        (remove_first (tmpl_has_id tid) (templates s)) s) ;;;
      log_activity (user_id current_user) (username current_user)
        "DELETE_TEMPLATE" (Some ("Template: " +:+ t_name tmpl)) (Some host) ;;;
      ret (RMessage "Template deleted")
  end.

Definition set_status (st : string) (t : Template) : Template :=
  {| t_id := t_id t; t_name := t_name t; t_category := t_category t;
     t_language := t_language t; t_body := t_body t;
     t_header := t_header t; t_footer := t_footer t;
     t_button_text := t_button_text t; t_button_url := t_button_url t;
     t_status := st;
     t_created_by := t_created_by t; t_created_at := t_created_at t |}.

Definition approve_template (tid : Z) (host : string)
           (current_user : identity) : M response :=
  found <- gets (fun s => find_first (tmpl_has_id tid) (templates s)) ;;
  match found with
  | None => raise 404 "Template not found"
  | Some _ =>
      modify (fun s => with_templates
        (update_first (tmpl_has_id tid) (set_status "approved")
                      (templates s)) s) ;;;
      log_activity (user_id current_user) (username current_user)
        "APPROVE_TEMPLATE" (Some ("Template ID: " +:+ pretty tid)) (Some host) ;;;
      ret (RMessage "Template approved")
  end.

(** *** backend/routes/messages.py *)

Record SendMessageRequest : Type := {
  sm_phone : string;
  sm_name : string;
  sm_type : string;
  sm_template_id : option Z;
  sm_variables : list json;
  sm_text : string
}.

Definition status_of (r : gw_result) : string :=
  if success r then "sent" else "failed".

Definition opt_json (o : option string) : json :=
  match o with Some s => JStr s | None => JNull end.

(** [s or None] *)
Definition or_null (s : string) : json :=
  if PyStr.truthy s then JStr s else JNull.

(** The tail of [send_single_message], once the gateway has answered. *)
Definition record_single (phone name message_type : string)
           (template_id : option Z) (template_name : option string)
           (body_preview : string) (res : gw_result) (host : string)
           (current_user : identity) : M response :=
  let status := status_of res in
  now <- now_iso ;;
  i <- _auto_id "message_logs" ;;
  modify (fun s => with_message_logs
    (message_logs s ++
     [{| l_id := i; l_message_id := message_id res;
         l_recipient_phone := phone; l_recipient_name := or_null name;
         l_message_type := message_type; l_template_id := template_id;
         l_template_name := template_name; l_body_preview := body_preview;
         l_status := JStr status; l_error_message := error res;
         l_sent_by := user_id current_user; l_sent_at := now;
         l_delivered_at := None; l_read_at := None |}]) s) ;;;
  log_activity (user_id current_user) (username current_user) "SEND_MESSAGE"
    (Some ("To: " +:+ phone +:+ " | Status: " +:+ status)) (Some host) ;;;
  ret (RSend (success res) (message_id res) status (simulated res) (note res)).

Definition id_truthy (i : option Z) : bool :=
  match i with Some z => negb (z =? 0) | None => false end.

Definition send_single_message (body : SendMessageRequest) (host : string)
           (current_user : identity) : M response :=
  let phone := PyStr.strip (sm_phone body) in
  let name := PyStr.strip (sm_name body) in
  let message_type := sm_type body in
  let template_id := sm_template_id body in
  let variables := sm_variables body in
  let text_body := sm_text body in
  if negb (PyStr.truthy phone) then raise 400 "Phone number required"
  else if negb (Phone.validate_phone phone)
  then raise 400 ("Invalid phone number: " +:+ phone)
  else
    let body_preview :=
      if PyStr.truthy text_body then PyStr.take 100 text_body else EmptyString in
    if String.eqb message_type "template" && id_truthy template_id then
      found <- gets (fun s =>
                 find_first (tmpl_has_id (default 0 template_id)) (templates s)) ;;
      match found with
      | None => raise 404 "Template not found"
      | Some tmpl =>
          res <- send_template_with_variables phone (t_name tmpl)
                   (JArr variables) (t_language tmpl) (t_button_url tmpl) ;;
          record_single phone name message_type template_id
            (Some (t_name tmpl)) (PyStr.take 100 (t_body tmpl)) res
            host current_user
      end
    else if String.eqb message_type "text" && PyStr.truthy text_body then
      res <- send_text_message phone text_body ;;
      record_single phone name message_type template_id None body_preview
        res host current_user
    else raise 400 "Provide template_id or text body".

(** A recipient dict as the CSV upload builds it. *)
Record recipient : Type := {
  r_phone : string;
  r_name : string;
  r_variables : list string
}.

(** [{"phone": phone, "name": r_name, "variables": [...]}] *)
Definition recipient_json (r : recipient) : json :=
  JObj [("phone", JStr (r_phone r)); ("name", JStr (r_name r));
        ("variables", JArr (map JStr (r_variables r)))].

(** The form of [send_bulk_message]: [bk_template_id] is the form field
    after [int(...)] ([None] for the empty string), [bk_recipients] what
    [json.loads] makes of the recipients field, any JSON value ([None]
    when it does not parse), [bk_csv] the rows [csv.DictReader] yields
    when a file was uploaded. *)
Record BulkRequest : Type := {
  bk_campaign_name : string;
  bk_template_id : option Z;
  bk_recipients : option json;
  bk_csv : option (list (gmap string string))
}.

(** [(row.get(a) or row.get(b) or ... or empty)] *)
Fixpoint first_truthy (row : gmap string string) (keys : list string) : string :=
  match keys with
  | [] => EmptyString
  | k :: ks =>
      match row !! k with
      | Some v => if PyStr.truthy v then v else first_truthy row ks
      | None => first_truthy row ks
      end
  end.

Definition recipients_of_csv (rows : list (gmap string string)) : list recipient :=
  omap (fun row =>
    let phone := PyStr.strip (first_truthy row ["phone"; "Phone"; "PHONE"]) in
    let r_nm := PyStr.strip (first_truthy row ["name"; "Name"; "NAME"]) in
    let var1 := PyStr.strip (first_truthy row ["var1"; "variable1"]) in
    let var2 := PyStr.strip (first_truthy row ["var2"; "variable2"]) in
    let var3 := PyStr.strip (first_truthy row ["var3"; "variable3"]) in
    if PyStr.truthy phone
    then Some {| r_phone := phone; r_name := r_nm;
                 r_variables := List.filter PyStr.truthy [var1; var2; var3] |}
    else None) rows.

(** [v.strip()]: an AttributeError when [v] is not a string. *)
Definition strip_or_raise (v : json) : M string :=
  match v with
  | JStr s => ret (PyStr.strip s)
  | _ => py_raise "AttributeError"
  end.

(** [len(v)] *)
Definition len_or_raise (v : json) : M nat :=
  match Json.len v with
  | Some n => ret n
  | None => py_raise "TypeError"
  end.

(** The [for rec in recs] loop, with its three accumulators.  Nothing
    catches what reading a recipient raises: the loop, and the request,
    end there. *)
Fixpoint bulk_loop (tmpl : Template) (tid : Z) (current_user : identity)
         (recs : list json) (sent_count failed_count : nat)
         (results : list bulk_item) : M (nat * nat * list bulk_item) :=
  match recs with
  | [] => ret (sent_count, failed_count, results)
  | rec :: rest =>
      phone_field <- get_or_raise rec "phone" (JStr EmptyString) ;;
      phone <- strip_or_raise phone_field ;;
      r_name <- get_or_raise rec "name" (JStr EmptyString) ;;
      r_vars <- get_or_raise rec "variables" (JArr []) ;;
      if negb (PyStr.truthy phone) || negb (Phone.validate_phone phone) then
        bulk_loop tmpl tid current_user rest sent_count (S failed_count)
          (results ++ [{| b_phone := phone; b_name := None;
                          b_status := "failed";
                          b_error := Some "Invalid phone";
                          b_message_id := None |}])
      else
        res <- send_template_with_variables phone (t_name tmpl)
                 r_vars (t_language tmpl) None ;;
        let status := status_of res in
        i <- _auto_id "message_logs" ;;
        ts <- now_iso ;;
        modify (fun s => with_message_logs
          (message_logs s ++
           [{| l_id := i; l_message_id := message_id res;
               l_recipient_phone := phone;
               l_recipient_name := r_name;
               l_message_type := "bulk"; l_template_id := Some tid;
               l_template_name := Some (t_name tmpl);
               l_body_preview := PyStr.take 100 (t_body tmpl);
               l_status := JStr status;
               l_error_message := error res;
               l_sent_by := user_id current_user; l_sent_at := ts;
               l_delivered_at := None; l_read_at := None |}]) s) ;;;
        bulk_loop tmpl tid current_user rest
          (if success res then S sent_count else sent_count)
          (if success res then failed_count else S failed_count)
          (results ++ [{| b_phone := phone; b_name := Some r_name;
                          b_status := status; b_error := None;
                          b_message_id := Some (message_id res) |}])
  end.

Definition complete (sent failed : nat) (ts : string) (c : Campaign) : Campaign :=
  {| c_id := c_id c; c_name := c_name c; c_template_id := c_template_id c;
     c_template_name := c_template_name c;
     c_total_recipients := c_total_recipients c;
     c_sent_count := sent; c_delivered_count := c_delivered_count c;
     c_read_count := c_read_count c; c_failed_count := failed;
     c_status := "completed"; c_created_by := c_created_by c;
     c_created_at := c_created_at c; c_completed_at := Some ts |}.

(** The recipients the handler works on: the parsed field, replaced by
    the rows of the CSV file when one was uploaded; [None] when the
    field does not parse. *)
Definition resolve_recipients (form : BulkRequest) : option json :=
  match bk_recipients form with
  | None => None
  | Some parsed =>
      Some (match bk_csv form with
            | Some rows => JArr (map recipient_json (recipients_of_csv rows))
            | None => parsed
            end)
  end.

Definition new_campaign (campaign_id : Z) (name : string) (tid : Z)
           (tmpl : Template) (total : nat) (current_user : identity)
           (now : string) : Campaign :=
  {| c_id := campaign_id; c_name := name;
     c_template_id := tid; c_template_name := t_name tmpl;
     c_total_recipients := total;
     c_sent_count := 0; c_delivered_count := 0;
     c_read_count := 0; c_failed_count := 0;
     c_status := "running";
     c_created_by := user_id current_user;
     c_created_at := now; c_completed_at := None |}.

Definition send_bulk_message (form : BulkRequest) (host : string)
           (current_user : identity) : M response :=
  let tid := bk_template_id form in
  match resolve_recipients form with
  | None => raise 400 "Invalid recipients format"
  | Some recs =>
      if negb (Json.truthy recs)
      then raise 400 "No valid recipients found"
      else if negb (id_truthy tid)
      then raise 400 "Template ID required for bulk messaging"
      else
        let tid := default 0 tid in
        found <- gets (fun s => find_first (tmpl_has_id tid) (templates s)) ;;
        match found with
        | None => raise 404 "Template not found"
        | Some tmpl =>
            now <- now_iso ;;
            campaign_id <- _auto_id "campaigns" ;;
            total <- len_or_raise recs ;;
            (* the campaign dict is appended now and mutated after
               the loop: it is the element at this index *)
            idx <- gets (fun s => List.length (campaigns s)) ;;
            modify (fun s => with_campaigns
              (campaigns s ++
               [new_campaign campaign_id (bk_campaign_name form) tid tmpl
                  total current_user now]) s) ;;;
            items <- iter_or_raise recs ;;
            out <- bulk_loop tmpl tid current_user items 0 0 [] ;;
            let '(sent_count, failed_count, results) := out in
            ts <- now_iso ;;
            modify (fun s => with_campaigns
              (alter (complete sent_count failed_count ts) idx
                     (campaigns s)) s) ;;;
            log_activity (user_id current_user) (username current_user)
              "BULK_SEND"
              (Some ("Campaign: " +:+ bk_campaign_name form
                     +:+ " | Sent: " +:+ pretty sent_count
                     +:+ " | Failed: " +:+ pretty failed_count))
              (Some host) ;;;
            ret (RBulk campaign_id total sent_count failed_count results)
        end
  end.

(** Stable sort on [sent_at], largest first: what
    [logs.sort(key=lambda l: l["sent_at"], reverse=True)] leaves. *)
Fixpoint insert_desc (x : MessageLog) (l : list MessageLog) : list MessageLog :=
  match l with
  | [] => [x]
  | y :: l' =>
      if String.ltb (l_sent_at x) (l_sent_at y)
      then y :: insert_desc x l'
      else x :: y :: l'
  end.

Definition sort_desc (l : list MessageLog) : list MessageLog :=
  foldr insert_desc [] l.

Definition same_template (name : string) (l : MessageLog) : bool :=
  match l_template_name l with
  | Some n => String.eqb n name
  | None => false
  end.

Definition camp_has_id (i : Z) (c : Campaign) : bool := c_id c =? i.

Definition get_campaign_detail (campaign_id : Z)
           (current_user : identity) : M response :=
  found <- gets (fun s => find_first (camp_has_id campaign_id) (campaigns s)) ;;
  match found with
  | None => raise 404 "Campaign not found"
  | Some campaign =>
      all_logs <- gets message_logs ;;
      let logs := List.filter (same_template (c_template_name campaign)) all_logs in
      let logs := sort_desc logs in
      ret (RCampaign campaign (firstn 100 logs))
  end.

(** *** backend/routes/webhooks.py *)

(** [l.get("message_id") == msg_id] *)
Definition has_message_id (msg_id : json) (l : MessageLog) : bool :=
  Json.py_eq (l_message_id l) msg_id.

Definition set_log_status (v : json) (l : MessageLog) : MessageLog :=
  {| l_id := l_id l; l_message_id := l_message_id l;
     l_recipient_phone := l_recipient_phone l;
     l_recipient_name := l_recipient_name l;
     l_message_type := l_message_type l; l_template_id := l_template_id l;
     l_template_name := l_template_name l;
     l_body_preview := l_body_preview l;
     l_status := v; l_error_message := l_error_message l;
     l_sent_by := l_sent_by l; l_sent_at := l_sent_at l;
     l_delivered_at := l_delivered_at l; l_read_at := l_read_at l |}.

Definition set_delivered_at (ts : string) (l : MessageLog) : MessageLog :=
  {| l_id := l_id l; l_message_id := l_message_id l;
     l_recipient_phone := l_recipient_phone l;
     l_recipient_name := l_recipient_name l;
     l_message_type := l_message_type l; l_template_id := l_template_id l;
     l_template_name := l_template_name l;
     l_body_preview := l_body_preview l;
     l_status := l_status l; l_error_message := l_error_message l;
     l_sent_by := l_sent_by l; l_sent_at := l_sent_at l;
     l_delivered_at := Some ts; l_read_at := l_read_at l |}.

Definition set_read_at (ts : string) (l : MessageLog) : MessageLog :=
  {| l_id := l_id l; l_message_id := l_message_id l;
     l_recipient_phone := l_recipient_phone l;
     l_recipient_name := l_recipient_name l;
     l_message_type := l_message_type l; l_template_id := l_template_id l;
     l_template_name := l_template_name l;
     l_body_preview := l_body_preview l;
     l_status := l_status l; l_error_message := l_error_message l;
     l_sent_by := l_sent_by l; l_sent_at := l_sent_at l;
     l_delivered_at := l_delivered_at l; l_read_at := Some ts |}.

Definition set_error_message (v : json) (l : MessageLog) : MessageLog :=
  {| l_id := l_id l; l_message_id := l_message_id l;
     l_recipient_phone := l_recipient_phone l;
     l_recipient_name := l_recipient_name l;
     l_message_type := l_message_type l; l_template_id := l_template_id l;
     l_template_name := l_template_name l;
     l_body_preview := l_body_preview l;
     l_status := l_status l; l_error_message := v;
     l_sent_by := l_sent_by l; l_sent_at := l_sent_at l;
     l_delivered_at := l_delivered_at l; l_read_at := l_read_at l |}.

(** Mutation of the log object bound to [log]. *)
Definition mutate_log (msg_id : json) (f : MessageLog -> MessageLog) : M unit :=
  modify (fun s => with_message_logs
    (update_first (has_message_id msg_id) f (message_logs s)) s).

(** The body of [for status_update in statuses]. *)
Definition process_status_update (status_update : json) : M unit :=
  msg_id <- get_or_raise status_update "id" JNull ;;
  status <- get_or_raise status_update "status" JNull ;;
  if Json.truthy msg_id && Json.truthy status then
    ts <- now_iso ;;
    log <- gets (fun s => find_first (has_message_id msg_id) (message_logs s)) ;;
    match log with
    | None => ret tt
    | Some _ =>
        mutate_log msg_id (set_log_status status) ;;;
        if Json.eq_str status "delivered" then
          mutate_log msg_id (set_delivered_at ts)
        else if Json.eq_str status "read" then
          mutate_log msg_id (set_read_at ts)
        else if Json.eq_str status "failed" then
          errors <- get_or_raise status_update "errors" (JArr [JObj []]) ;;
          err_msg <- (if Json.truthy errors
                      then e0 <- first_item errors ;;
                           get_or_raise e0 "title" (JStr "Unknown error")
                      else ret (JStr "Failed")) ;;
          mutate_log msg_id (set_error_message err_msg)
        else ret tt
    end
  else ret tt.

Definition process_change (change : json) : M unit :=
  value <- get_or_raise change "value" (JObj []) ;;
  statuses <- get_or_raise value "statuses" (JArr []) ;;
  l <- iter_or_raise statuses ;;
  for_each l process_status_update.

Definition process_entry (entry : json) : M unit :=
  changes <- get_or_raise entry "changes" (JArr []) ;;
  l <- iter_or_raise changes ;;
  for_each l process_change.

(** [body]: the request body, [None] when it is not JSON. *)
Definition receive_webhook (body : option json) : M response :=
  match body with
  | None => ret (RWebhook "ok")
  | Some data =>
      if negb (Json.truthy data) then ret (RWebhook "ok")
      else
        try_except
          (entries <- get_or_raise data "entry" (JArr []) ;;
           l <- iter_or_raise entries ;;
           for_each l process_entry) ;;;
        ret (RWebhook "ok")
  end.

(** [hub.mode], [hub.verify_token], [hub.challenge] *)
Definition verify_webhook (hub_mode hub_token hub_challenge : string)
  : string + string :=
  if String.eqb hub_mode "subscribe"
     && String.eqb hub_token (WHATSAPP_VERIFY_TOKEN E)
  then inl hub_challenge
  else inr "Verification failed".

(** *** Seeding (store.py, on import) *)

Definition empty_store : Store :=
  {| _next_id := ∅; users := []; templates := []; message_logs := [];
     campaigns := []; activity_logs := []; ticks := 0%nat; posted := [] |}.

Definition _seed_admin : M unit :=
  us <- gets users ;;
  if existsb (fun u => String.eqb (u_username u) (ADMIN_USERNAME E)) us
  then ret tt
  else
    i <- _auto_id "users" ;;
    n <- tick ;;
    now <- now_iso ;;
    modify (fun s => with_users
      (users s ++
       [{| u_id := i; u_name := ADMIN_NAME E; u_email := ADMIN_EMAIL E;
           u_username := ADMIN_USERNAME E;
           u_password_hash := generate_password_hash E n (ADMIN_PASSWORD E);
           u_role := "admin"; u_is_active := true;
           u_created_at := now; u_last_login := None |}]) s).

(** A sample template, before its id is assigned. *)
Definition sample (name category body : string)
           (header footer button_text button_url : option string)
           (now : string) (i : Z) : Template :=
  {| t_id := i; t_name := name; t_category := category; t_language := "en";
     t_body := body; t_header := header; t_footer := footer;
     t_button_text := button_text; t_button_url := button_url;
     t_status := "approved"; t_created_by := 1; t_created_at := now |}.

Definition samples (now : string) : list (Z -> Template) :=
  [ sample "service_update" "UTILITY"
      "Important update regarding your service request {{1}}: {{2}}"
      (Some "GEB Service Update") (Some "Thank you for choosing GEB")
      None None now;
    sample "group_invite" "UTILITY"
      "Hi {{1}}, you are invited to join the GEB group. Click below to join."
      (Some "GEB Group Invitation") None
      (Some "Join Group") (Some "https://chat.whatsapp.com/example") now;
    sample "payment_reminder" "UTILITY"
      "Dear {{1}}, your payment of ₹{{2}} is due on {{3}}. Please pay to avoid interruption."
      (Some "Payment Reminder") (Some "GEB Billing") None None now;
    sample "welcome_message" "MARKETING"
      "Welcome to GEB, {{1}}! We are excited to have you on board. Your account is now active."
      (Some "Welcome to GEB") None None None now ].

Definition _seed_templates : M unit :=
  ts <- gets templates ;;
  match ts with
  | _ :: _ => ret tt
  | [] =>
      now <- now_iso ;;
      for_each (samples now) (fun mk =>
        i <- _auto_id "templates" ;;
        modify (fun s => with_templates (templates s ++ [mk i]) s))
  end.

(** The store once [backend.store] has been imported. *)
Definition init : Store := snd ((_seed_admin ;;; _seed_templates) empty_store).

(** *** The routes (main.py) *)

Inductive route : Type :=
| PostLogin (body : LoginRequest)
| PostLogout
| PostChangePassword (body : ChangePasswordRequest)
| PostUser (body : CreateUserRequest)
| PutUser (id : Z) (body : UpdateUserRequest)
| DeleteUser (id : Z)
| PostTemplate (body : CreateTemplateRequest)
| PutTemplate (id : Z) (body : UpdateTemplateRequest)
| DeleteTemplate (id : Z)
| PostApprove (id : Z)
| PostSend (body : SendMessageRequest)
| PostBulk (form : BulkRequest)
| GetCampaign (id : Z)
| PostWebhook (body : option json).

Record request : Type := {
  credentials : option token;
  cookie : option token;
  host : string;
  target : route
}.

(** [Depends(get_current_user)] *)
Definition authenticated (r : request) (h : identity -> M response) : M response :=
  cu <- get_current_user (credentials r) (cookie r) ;;
  h cu.

(** [Depends(get_admin_user)] *)
Definition admin_only (r : request) (h : identity -> M response) : M response :=
  cu <- get_current_user (credentials r) (cookie r) ;;
  adm <- get_admin_user cu ;;
  h adm.

Definition handle (r : request) : M response :=
  match target r with
  | PostLogin body => login body (host r)
  | PostLogout => authenticated r (logout (host r))
  | PostChangePassword body => authenticated r (change_password body (host r))
  | PostUser body => admin_only r (create_user body (host r))
  | PutUser id body => admin_only r (update_user id body (host r))
  | DeleteUser id => admin_only r (delete_user id (host r))
  | PostTemplate body => authenticated r (create_template body (host r))
  | PutTemplate id body => authenticated r (update_template id body (host r))
  | DeleteTemplate id => admin_only r (delete_template id (host r))
  | PostApprove id => admin_only r (approve_template id (host r))
  | PostSend body => authenticated r (send_single_message body (host r))
  | PostBulk form => authenticated r (send_bulk_message form (host r))
  | GetCampaign id => authenticated r (get_campaign_detail id)
  | PostWebhook body => receive_webhook body
  end.

(** The store after a sequence of requests. *)
Definition run (rs : list request) (s : Store) : Store :=
  fold_left (fun s r => snd (handle r s)) rs s.

Definition responses (rs : list request) (s : Store) : list (result response) :=
  snd (fold_left (fun acc r =>
                    let '(s, out) := acc in
                    let '(x, s') := handle r s in (s', (out ++ [x])%list))
                 rs (s, [])).

Inductive reachable : Store -> Prop :=
| reach_init : reachable init
| reach_step r s : reachable s -> reachable (snd (handle r s)).

End Backend.

(** ** A concrete environment

    Demo mode (no provider credentials), a clock that advances one
    second per reading, and toy hash functions. *)

Definition demo_env : Env :=
  {| SECRET_KEY := "geb-secret-key-change-in-production";
     JWT_EXPIRY_HOURS := 8;
     WHATSAPP_PHONE_ID := EmptyString;
     WHATSAPP_TOKEN := EmptyString;
     WHATSAPP_VERIFY_TOKEN := "geb_verify_token";
     ADMIN_USERNAME := "admin";
     ADMIN_PASSWORD := "admin123";
     ADMIN_NAME := "GEB Admin";
     ADMIN_EMAIL := "admin@geb.com";
     utcnow := fun n => Z.of_nat n * 1000000;
     isoformat := fun us => "t" +:+ pretty (us / 1000000);
     random_choices := fun n => pretty n;
     httpx_post := fun _ _ => HttpTimeout;
     str_exception := fun _ => "error";
     str_value := fun _ => "value";
     generate_password_hash := fun _ pw => "hash:" +:+ pw;
     check_password_hash := fun h pw => String.eqb h ("hash:" +:+ pw);
     hs256 := fun key c =>
       key +:+ "/" +:+ pretty (c_user_id c) +:+ "/" +:+ c_username c
           +:+ "/" +:+ c_role c +:+ "/" +:+ pretty (c_exp c)
           +:+ "/" +:+ pretty (c_iat c) |}.

(** The same with provider credentials configured and a provider that
    accepts every message. *)
Definition live_env : Env :=
  {| SECRET_KEY := SECRET_KEY demo_env;
     JWT_EXPIRY_HOURS := 8;
     WHATSAPP_PHONE_ID := "1234567890";
     WHATSAPP_TOKEN := "token";
     WHATSAPP_VERIFY_TOKEN := "geb_verify_token";
     ADMIN_USERNAME := "admin";
     ADMIN_PASSWORD := "admin123";
     ADMIN_NAME := "GEB Admin";
     ADMIN_EMAIL := "admin@geb.com";
     utcnow := utcnow demo_env;
     isoformat := isoformat demo_env;
     random_choices := random_choices demo_env;
     httpx_post := fun n _ =>
       HttpReply 200
         (JObj [("messages", JArr [JObj [("id", JStr ("wamid.live" +:+ pretty n))]])]);
     str_exception := str_exception demo_env;
     str_value := str_value demo_env;
     generate_password_hash := generate_password_hash demo_env;
     check_password_hash := check_password_hash demo_env;
     hs256 := hs256 demo_env |}.

(** A token the demo environment accepts for the given identity. *)
Definition demo_token (uid : Z) (uname urole : string) : token :=
  jwt_encode demo_env
    {| c_user_id := uid; c_username := uname; c_role := urole;
       c_exp := 1000000; c_iat := 0 |}
    (SECRET_KEY demo_env).

Definition as_user (uid : Z) (uname urole : string) (t : route) : request :=
  {| credentials := Some (demo_token uid uname urole); cookie := None;
     host := "127.0.0.1"; target := t |}.

Definition as_admin : route -> request := as_user 1 "admin" "admin".

(** ** Phone normalization as the specification words it *)

Module PhoneSpec.
Import PyStr.

(** "exactly 10 digits" *)
Definition ten_digits (s : string) : bool :=
  (String.length s =? 10)%nat && isdigit s.

(** "for every input whose stripped form is exactly 10 digits, returns
    that string prefixed with 91; for every other input the stripped
    string unchanged" *)
Definition normalize_as_specified (phone : string) : string :=
  let c := Phone.cleaned phone in
  if ten_digits c then "91" +:+ c else c.

(** The amended wording, read on its own.

    "strips surrounding whitespace": what is left of the characters once
    the whitespace at the front, and then the whitespace at the back, is
    dropped. *)
Fixpoint skip_spaces (l : list ascii) : list ascii :=
  match l with
  | [] => []
  | c :: l' => if is_space c then skip_spaces l' else l
  end.

Definition surrounding_stripped (l : list ascii) : list ascii :=
  rev (skip_spaces (rev (skip_spaces l))).

(** "and every space, dash and plus sign" *)
Definition separator (c : ascii) : bool :=
  Ascii.eqb c " " || Ascii.eqb c "-" || Ascii.eqb c "+".

Definition stripped_form (phone : string) : string :=
  string_of_list_ascii
    (List.filter (fun c => negb (separator c))
                 (surrounding_stripped (list_ascii_of_string phone))).

(** "for every input whose stripped form has exactly 10 characters and
    does not already start with 91, returns that string prefixed with
    91; for every other input it returns the stripped string unchanged" *)
Definition normalize_as_amended (phone : string) : string :=
  let c := stripped_form phone in
  if (String.length c =? 10)%nat && negb (String.prefix "91" c)
  then "91" +:+ c else c.

End PhoneSpec.

(** ** Scenarios: users *)

Definition new_user (uname : string) : route :=
  PostUser {| cu_name := uname; cu_email := uname +:+ "@geb.com";
              cu_username := uname; cu_password := "secret1";
              cu_role := "operator" |}.

Definition only_active (b : bool) : UpdateUserRequest :=
  {| uu_name := None; uu_email := None; uu_role := None;
     uu_is_active := Some b |}.

Definition only_email (e : string) : UpdateUserRequest :=
  {| uu_name := None; uu_email := Some e; uu_role := None;
     uu_is_active := None |}.

(** Five operators are created (six active users), one is deactivated,
    a sixth operator is created in the freed slot, and the deactivated
    one is switched back on through [update_user]. *)
Definition seven_active_trace : list request :=
  map as_admin
    [ new_user "u2"; new_user "u3"; new_user "u4"; new_user "u5";
      new_user "u6";
      DeleteUser 2;
      new_user "u7";
      PutUser 2 (only_active true) ].

(** The user [bob] is created and then given the admin's email address
    through [update_user]. *)
Definition shared_email_trace : list request :=
  map as_admin [ new_user "bob"; PutUser 2 (only_email "admin@geb.com") ].

(** ** Scenarios: templates *)

Definition promo : CreateTemplateRequest :=
  {| ct_name := "Promo Offer"; ct_category := "marketing";
     ct_language := "en"; ct_body := "Hello {{1}}";
     ct_header := EmptyString; ct_footer := EmptyString;
     ct_button_text := EmptyString; ct_button_url := EmptyString |}.

Definition only_status (st : string) : UpdateTemplateRequest :=
  {| ut_body := None; ut_header := None; ut_footer := None;
     ut_button_text := None; ut_button_url := None; ut_status := Some st |}.

(** The admin creates the operator [bob]; [bob] creates a template. *)
Definition pending_trace : list request :=
  [ as_admin (new_user "bob");
    as_user 2 "bob" "operator" (PostTemplate promo) ].

(** [bob], an operator, sets the status of his template himself. *)
Definition self_approval : request :=
  as_user 2 "bob" "operator" (PutTemplate 5 (only_status "approved")).

(** ** Vocabulary of the statements about sending *)

(** A log as the send handlers write it. *)
Definition sent_or_failed (l : MessageLog) : Prop :=
  l_status l = JStr "sent" \/ l_status l = JStr "failed".

(** The items of [v], none when it is not iterable. *)
Definition items (v : json) : list json := default [] (Json.iter v).

(** The field [k] of [v] with default [d]; null when [v] is not an object. *)
Definition field (v : json) (k : string) (d : json) : json :=
  default JNull (Json.get v k d).

(** The stripped phone of an element of the recipients array; none when
    the element is not a dict or its phone is not a string. *)
Definition item_phone (rec : json) : option string :=
  match Json.get rec "phone" (JStr EmptyString) with
  | Some (JStr s) => Some (PyStr.strip s)
  | _ => None
  end.

(** The element has a phone that passes validation. *)
Definition phone_ok (rec : json) : bool :=
  match item_phone rec with
  | Some p => PyStr.truthy p && Phone.validate_phone p
  | None => false
  end.

(** The stripped phone of an element, empty when it has none. *)
Definition phone_of (rec : json) : string :=
  default EmptyString (item_phone rec).

(** The texts of the body parameters for [variables]; none when
    [variables] is truthy and cannot be iterated. *)
Definition texts_of (E : Env) (variables : json) : option (list string) :=
  if Json.truthy variables
  then option_map (map (py_str E)) (Json.iter variables)
  else Some [].

(** The texts of the variables of an element. *)
Definition item_texts (E : Env) (rec : json) : option (list string) :=
  texts_of E (field rec "variables" (JArr [])).

(** The loop reads the element without raising: it is a dict, its phone
    is a string and, when the phone is valid, its variables are falsy or
    can be iterated. *)
Definition well_formed (E : Env) (rec : json) : bool :=
  match item_phone rec with
  | Some _ =>
      negb (phone_ok rec)
      || match item_texts E rec with Some _ => true | None => false end
  | None => false
  end.

(** The elements the loop gets through: those before the first one that
    is not well formed. *)
Fixpoint readable (E : Env) (recs : list json) : list json :=
  match recs with
  | [] => []
  | rec :: rest => if well_formed E rec then rec :: readable E rest else []
  end.

(** The payload the bulk loop builds for one recipient. *)
Definition bulk_payload (E : Env) (tmpl : Template) (rec : json) : payload :=
  TemplatePayload (Phone._normalize_phone (phone_of rec))
    (t_name tmpl) (t_language tmpl)
    (build_components (default [] (item_texts E rec)) None).

(** The number of entries of the results list with the given status. *)
Definition count_status (st : string) (items : list bulk_item) : nat :=
  List.length (List.filter (fun it => String.eqb (b_status it) st) items).

(** An entry for a recipient whose phone did not pass. *)
Definition refused_item (it : bulk_item) : Prop :=
  b_status it = "failed" /\ b_error it = Some "Invalid phone"
  /\ b_name it = None /\ b_message_id it = None.

(** An entry for a recipient whose phone passed: sent or failed, as the
    gateway answered. *)
Definition attempted_item (it : bulk_item) : Prop :=
  (b_status it = "sent" \/ b_status it = "failed") /\ b_error it = None
  /\ b_name it <> None /\ b_message_id it <> None.

(** A campaign as it is appended before the loop. *)
Definition campaign_running (c : Campaign) : Prop :=
  c_status c = "running" /\ c_sent_count c = 0%nat
  /\ c_failed_count c = 0%nat /\ c_completed_at c = None.

Definition is_url_button (c : component) : bool :=
  match c with UrlButton _ _ => true | BodyComponent _ => false end.

(** The payload carries a URL-button component. *)
Definition has_url_button (p : payload) : bool :=
  match p with
  | TemplatePayload _ _ _ cs => existsb is_url_button cs
  | TextPayload _ _ => false
  end.

(** ** Scenarios: sending *)

Definition rcpt (phone name : string) : json :=
  JObj [("phone", JStr phone); ("name", JStr name);
        ("variables", JArr [JStr name])].

(** Three recipients, the second with a phone that is not a number. *)
Definition three_recipients : BulkRequest :=
  {| bk_campaign_name := "Bulk Campaign";
     bk_template_id := Some 2;
     bk_recipients := Some (JArr [ rcpt "+91 98765-43210" "Asha";
                                   rcpt "not-a-phone" "Bela";
                                   rcpt "9876543211" "Chitra" ]);
     bk_csv := None |}.

(** ** Vocabulary of the statements about webhooks *)

(** The status updates of a webhook body: entries, their changes, the
    statuses of each change's value. *)
Definition status_updates (data : json) : list json :=
  flat_map (fun entry =>
    flat_map (fun change =>
      items (field (field change "value" (JObj [])) "statuses" (JArr [])))
      (items (field entry "changes" (JArr []))))
    (items (field data "entry" (JArr []))).

(** No status update of [data] carries the message id of a log of [logs]. *)
Definition unknown_ids (data : json) (logs : list MessageLog) : Prop :=
  forall su l,
    In su (status_updates data) -> In l logs ->
    Json.py_eq (l_message_id l) (field su "id" JNull) = false.

(** The status update [su] carries the message id of no log of [s0]. *)
Definition unknown_update (s0 : Store) (su : json) : Prop :=
  forall l, In l (message_logs s0) ->
            Json.py_eq (l_message_id l) (field su "id" JNull) = false.

(** [v] is a status value that a status update of [data] carries. *)
Definition webhook_status (data : json) (v : json) : Prop :=
  exists su, In su (status_updates data)
             /\ field su "status" JNull = v /\ Json.truthy v = true.

(** The webhook bodies among a sequence of requests. *)
Definition webhook_payloads (rs : list request) : list json :=
  omap (fun r => match target r with
                 | PostWebhook (Some data) => Some data
                 | _ => None
                 end) rs.

Definition is_webhook (r : request) : bool :=
  match target r with PostWebhook _ => true | _ => false end.

(** The four status values the specification lists. *)
Definition listed_status (v : json) : Prop :=
  v = JStr "sent" \/ v = JStr "failed" \/ v = JStr "delivered" \/ v = JStr "read".

(** ** Invariants of handlers *)

(** Running [m] keeps the property [I] of the store, whether [m] returns
    or raises. *)
Definition keeps (I : Store -> Prop) {A} (m : M A) : Prop :=
  forall s, I s -> I (snd (m s)).

(** The stores [s] and [s0] differ at most in the number of oracle
    readings. *)
Definition same_data (s0 s : Store) : Prop := with_ticks 0 s = with_ticks 0 s0.

(** A status is explained by the webhook bodies [W] when the send
    handlers wrote it, or a status update of one of the bodies carried
    it. *)
Definition explained_status (W : list json) (v : json) : Prop :=
  v = JStr "sent" \/ v = JStr "failed"
  \/ exists data, In data W /\ webhook_status data v.

Definition logs_explained (W : list json) (s : Store) : Prop :=
  Forall (fun l => explained_status W (l_status l)) (message_logs s).

(** ** Scenarios: webhooks *)

Definition invite (phone name : string) : SendMessageRequest :=
  {| sm_phone := phone; sm_name := name; sm_type := "template";
     sm_template_id := Some 2; sm_variables := [JStr name];
     sm_text := EmptyString |}.

(** A webhook body with one status update. *)
Definition status_event (msg_id : string) (status : json) : json :=
  JObj [("entry",
         JArr [JObj [("changes",
           JArr [JObj [("value",
             JObj [("statuses",
               JArr [JObj [("id", JStr msg_id); ("status", status)]])])]])]])].

Definition webhook (data : json) : request :=
  {| credentials := None; cookie := None; host := "157.240.0.1";
     target := PostWebhook (Some data) |}.

(** One message is sent to Asha. *)
Definition one_send : list request :=
  [ as_admin (PostSend (invite "+91 98765-43210" "Asha")) ].

(** The provider reports the message to Asha as deleted. *)
Definition deleted_trace : list request :=
  one_send ++ [ webhook (status_event "wamid.4" (JStr "deleted")) ].

(** The provider reports the message to Asha as delivered. *)
Definition delivered_trace : list request :=
  one_send ++ [ webhook (status_event "wamid.4" (JStr "delivered")) ].

(** The log of the message to Asha once it is reported delivered. *)
Definition delivered_log : MessageLog :=
  {| l_id := 1; l_message_id := JStr "wamid.4";
     l_recipient_phone := "+91 98765-43210"; l_recipient_name := JStr "Asha";
     l_message_type := "template"; l_template_id := Some 2;
     l_template_name := Some "group_invite";
     l_body_preview :=
       "Hi {{1}}, you are invited to join the GEB group. Click below to join.";
     l_status := JStr "delivered"; l_error_message := JNull;
     l_sent_by := 1; l_sent_at := "t5";
     l_delivered_at := Some "t7"; l_read_at := None |}.

(** A status update for a message this instance never sent. *)
Definition stray_event : json := status_event "wamid.stray" (JStr "read").

(** The log of the message to Asha as [send_single_message] writes it. *)
Definition sent_log : MessageLog :=
  {| l_id := 1; l_message_id := JStr "wamid.4";
     l_recipient_phone := "+91 98765-43210"; l_recipient_name := JStr "Asha";
     l_message_type := "template"; l_template_id := Some 2;
     l_template_name := Some "group_invite";
     l_body_preview :=
       "Hi {{1}}, you are invited to join the GEB group. Click below to join.";
     l_status := JStr "sent"; l_error_message := JNull;
     l_sent_by := 1; l_sent_at := "t5";
     l_delivered_at := None; l_read_at := None |}.

(** ** Vocabulary of the statements about tokens *)

(** The token is within its validity at the clock reading [now]
    (microseconds): not before it was issued, and before it expires. *)
Definition valid_at (tok : token) (now : Z) : Prop :=
  match tok with
  | Jwt c _ => c_iat c * 1000000 <= now /\ now < c_exp c * 1000000
  | Garbage _ => False
  end.

(** The identity a login response shows. *)
Definition identity_of (u : login_user) : identity :=
  {| user_id := lu_id u; username := lu_username u; role := lu_role u |}.

Definition admin_login : LoginRequest :=
  {| lr_username := " admin "; lr_password := "admin123" |}.

(** The outcome of the admin's login on the seeded store. *)
Definition admin_login_outcome : result response * Store :=
  Eval vm_compute in login demo_env admin_login "127.0.0.1" (init demo_env).

(** The payload a single template send builds. *)
Definition single_payload (E : Env) (tmpl : Template)
           (body : SendMessageRequest) : payload :=
  TemplatePayload (Phone._normalize_phone (PyStr.strip (sm_phone body)))
    (t_name tmpl) (t_language tmpl)
    (build_components (map (py_str E) (sm_variables body))
                      (t_button_url tmpl)).

(** A button URL, when set, is not the empty string. *)
Definition url_set_or_none (t : Template) : Prop :=
  t_button_url t <> Some EmptyString.

(** The seeded template with a button URL, as the demo store holds it. *)
Definition group_invite : Template :=
  sample "group_invite" "UTILITY"
    "Hi {{1}}, you are invited to join the GEB group. Click below to join."
    (Some "GEB Group Invitation") None
    (Some "Join Group") (Some "https://chat.whatsapp.com/example") "t2" 2.

Definition admin_identity : identity :=
  {| user_id := 1; username := "admin"; role := "admin" |}.

(** ** Vocabulary of the statements about the campaign detail *)



(** ** Scenarios: campaigns *)

(** A single send of the template [group_invite], then a bulk campaign
    with the same template. *)
Definition mixed_trace : list request :=
  one_send ++ [ as_admin (PostBulk three_recipients) ].

Definition mixed_store : Store :=
  Eval vm_compute in run demo_env mixed_trace (init demo_env).

(** No two user records share a username. *)
Definition usernames_unique (s : Store) : Prop :=
  NoDup (map u_username (users s)).

(** * The remaining routes and their vocabulary *)

(** ** Tokens a request presents *)

(** The token [get_current_user] takes from a request: the bearer token
    when it is non-empty, else the cookie. *)
Definition presented (r : request) : option token :=
  match credentials r with
  | Some t => if token_truthy t then Some t else cookie r
  | None => cookie r
  end.

(** The token is absent, empty, not a JWT, signed with another key (or
    altered after signing), not yet issued, or expired at the clock
    reading [now]. *)
Definition rejected (E : Env) (tok : option token) (now : Z) : Prop :=
  match tok with
  | None => True
  | Some (Garbage _) => True
  | Some (Jwt c sig) =>
      sig <> hs256 E (SECRET_KEY E) c
      \/ now < c_iat c * 1000000
      \/ c_exp c * 1000000 <= now
  end.

(** The routes behind [Depends(get_current_user)] or
    [Depends(get_admin_user)]. *)
Definition needs_token (t : route) : bool :=
  match t with
  | PostLogin _ | PostWebhook _ => false
  | _ => true
  end.

(** The routes behind [Depends(get_admin_user)]. *)
Definition needs_admin (t : route) : bool :=
  match t with
  | PostUser _ | PutUser _ _ | DeleteUser _ | DeleteTemplate _
  | PostApprove _ => true
  | _ => false
  end.

(** Provider credentials are configured ([_post] goes to the network). *)
Definition live (E : Env) : bool :=
  PyStr.truthy (WHATSAPP_PHONE_ID E) && PyStr.truthy (WHATSAPP_TOKEN E).

(** ** Scenarios: guards *)

(** A token for the admin whose signature was replaced. *)
Definition forged_token : token :=
  Jwt {| c_user_id := 1; c_username := "admin"; c_role := "admin";
         c_exp := 1000000; c_iat := 0 |} "forged".

Definition forged_logout : request :=
  {| credentials := Some forged_token; cookie := None;
     host := "10.0.0.9"; target := PostLogout |}.

(** The operator [bob] asks for the deletion of template 1. *)
Definition operator_delete : request :=
  as_user 2 "bob" "operator" (DeleteTemplate 1).

Definition operator_delete_auth : result identity * Store :=
  Eval vm_compute in
    get_current_user demo_env (credentials operator_delete)
      (cookie operator_delete) (init demo_env).

(** ** Identifiers *)

(** The id [_auto_id] would hand out next for a collection. *)
Definition next_of (c : string) (s : Store) : Z :=
  default 1 (_next_id s !! c).

(** The ids [ids s] of a collection are pairwise distinct, positive and
    below the collection's counter. *)
Definition fresh (c : string) (ids : Store -> list Z) (s : Store) : Prop :=
  NoDup (ids s)
  /\ Forall (fun i => 0 < i < next_of c s) (ids s)
  /\ 0 < next_of c s.

(** The same, with the id [v] handed out but not yet stored. *)
Definition reserved (c : string) (ids : Store -> list Z) (v : Z)
           (s : Store) : Prop :=
  NoDup (ids s)
  /\ Forall (fun i => 0 < i < v) (ids s)
  /\ 0 < v < next_of c s.

(** Running [m] from a store with [P] ends, returning or raising, in a
    store with [Q]. *)
Definition leads (P : Store -> Prop) {A} (m : M A) (Q : Store -> Prop) : Prop :=
  forall s, P s -> Q (snd (m s)).

Definition user_ids (s : Store) : list Z := map u_id (users s).
Definition template_ids (s : Store) : list Z := map t_id (templates s).
Definition log_ids (s : Store) : list Z := map l_id (message_logs s).
Definition campaign_ids (s : Store) : list Z := map c_id (campaigns s).

(** The counter of the collection [c] has reached [v]. *)
Definition at_least (c : string) (v : Z) (s : Store) : Prop :=
  v <= next_of c s.

(** No two templates share a name. *)
Definition template_names_unique (s : Store) : Prop :=
  NoDup (map t_name (templates s)).

(** The name [create_template] stores for the requested name. *)
Definition normal_name (name : string) : string :=
  PyStr.replace_char " " "_" (PyStr.lower (PyStr.strip name)).

(** The category test of [create_template]. *)
Definition valid_category (c : string) : bool :=
  String.eqb c "UTILITY" || String.eqb c "MARKETING"
  || String.eqb c "AUTHENTICATION".

(** A second template named like the seeded [group_invite], up to case
    and spaces. *)
Definition invite_again : CreateTemplateRequest :=
  {| ct_name := " Group Invite "; ct_category := "utility";
     ct_language := "en"; ct_body := "Join us";
     ct_header := EmptyString; ct_footer := EmptyString;
     ct_button_text := EmptyString; ct_button_url := EmptyString |}.

(** ** Vocabulary of the statements about users *)

(** What identifies a user record for good. *)
Definition user_key (u : User) : Z * string := (u_id u, u_username u).

(** The user records of [s0] are still there in [s], in the same order,
    possibly followed by new ones. *)
Definition users_kept (s0 s : Store) : Prop :=
  exists more, map user_key (users s) = (map user_key (users s0) ++ more)%list.

(** The request switches the account [uid] on again: an update of that
    user with [is_active] true. *)
Definition reactivates (uid : Z) (t : route) : bool :=
  match t with
  | PutUser id body => (id =? uid) && default false (uu_is_active body)
  | _ => false
  end.

(** The username [uname] is taken, by the account [uid] only, and that
    account is switched off. *)
Definition switched_off (uid : Z) (uname : string) (s : Store) : Prop :=
  In uname (map u_username (users s))
  /\ Forall (fun v => u_username v = uname ->
                      u_id v = uid /\ u_is_active v = false) (users s).

(** [check_password_hash] accepts what [generate_password_hash] made. *)
Definition hash_contract (E : Env) : Prop :=
  forall n pw, check_password_hash E (generate_password_hash E n pw) pw = true.

Definition bob_password : ChangePasswordRequest :=
  {| cp_current_password := "secret1"; cp_new_password := "secret22" |}.

Definition bob_identity : identity :=
  {| user_id := 2; username := "bob"; role := "operator" |}.

(** The store once the admin has created the operator [bob]. *)
Definition bob_store : Store :=
  Eval vm_compute in run demo_env [as_admin (new_user "bob")] (init demo_env).

(** The record of [bob] in [bob_store]. *)
Definition bob_user : User :=
  {| u_id := 2; u_name := "bob"; u_email := "bob@geb.com";
     u_username := "bob"; u_password_hash := "hash:secret1";
     u_role := "operator"; u_is_active := true;
     u_created_at := "t4"; u_last_login := None |}.

Definition bob_login : LoginRequest :=
  {| lr_username := "bob"; lr_password := "secret1" |}.

(** ** Vocabulary of further statements about webhooks *)

(** The fields of a message log the webhook handler never writes. *)
Definition log_core (l : MessageLog)
  : Z * json * string * json * string * option Z
    * option string * string * Z * string :=
  (l_id l, l_message_id l, l_recipient_phone l, l_recipient_name l,
   l_message_type l, l_template_id l, l_template_name l, l_body_preview l,
   l_sent_by l, l_sent_at l).

(** Everything but the message logs and the clock is the same in [s0]
    and [s], and the logs agree on the fields of [log_core]. *)
Definition logs_touched_only (s0 s : Store) : Prop :=
  with_message_logs [] (with_ticks 0 s) = with_message_logs [] (with_ticks 0 s0)
  /\ map log_core (message_logs s) = map log_core (message_logs s0).

(** What a status update without an [errors] field does to the log it
    matches, at the time [ts]. *)
Definition reported (status ts : string) (l : MessageLog) : MessageLog :=
  let l1 := set_log_status (JStr status) l in
  if String.eqb status "delivered" then set_delivered_at ts l1
  else if String.eqb status "read" then set_read_at ts l1
  else if String.eqb status "failed"
       then set_error_message (JStr "Unknown error") l1
  else l1.

(** The store once the message to Asha has been sent. *)
Definition sent_store : Store :=
  Eval vm_compute in run demo_env one_send (init demo_env).

(** A message log as the send handlers leave it: the phone passed
    validation, and the preview has at most 100 characters. *)
Definition log_well_formed (l : MessageLog) : Prop :=
  Phone.validate_phone (l_recipient_phone l) = true
  /\ (String.length (l_body_preview l) <= 100)%nat.

(** ** Vocabulary of the statements about the CSV upload *)

(** The phone a CSV row gives, stripped. *)
Definition row_phone (row : gmap string string) : string :=
  PyStr.strip (first_truthy row ["phone"; "Phone"; "PHONE"]).

(** A recipient as the CSV upload yields it. *)
Definition csv_recipient (r : recipient) : Prop :=
  PyStr.truthy (r_phone r) = true
  /\ PyStr.strip (r_phone r) = r_phone r
  /\ PyStr.strip (r_name r) = r_name r
  /\ (List.length (r_variables r) <= 3)%nat
  /\ Forall (fun v => PyStr.truthy v = true /\ PyStr.strip v = v)
            (r_variables r).

(** ** backend/routes/messages.py: the log listing *)








(** ** Vocabulary of the statements about the activity log *)

(** The action a route hands to [log_activity] when it succeeds; none for
    the routes that never call it. *)
Definition action_of (t : route) : option string :=
  match t with
  | PostLogin _ => Some "LOGIN"
  | PostLogout => Some "LOGOUT"
  | PostChangePassword _ => Some "PASSWORD_CHANGE"
  | PostUser _ => Some "CREATE_USER"
  | PutUser _ _ => Some "UPDATE_USER"
  | DeleteUser _ => Some "DEACTIVATE_USER"
  | PostTemplate _ => Some "CREATE_TEMPLATE"
  | PutTemplate _ _ => Some "UPDATE_TEMPLATE"
  | DeleteTemplate _ => Some "DELETE_TEMPLATE"
  | PostApprove _ => Some "APPROVE_TEMPLATE"
  | PostSend _ => Some "SEND_MESSAGE"
  | PostBulk _ => Some "BULK_SEND"
  | GetCampaign _ => None
  | PostWebhook _ => None
  end.

(** The activity log is [L] and the next activity id is [n]. *)
Definition trail_is (L : list ActivityLog) (n : Z) (s : Store) : Prop :=
  activity_logs s = L /\ next_of "activity_logs" s = n.

(** The outcome [out] of a step from the store [s]: when it returned and
    [act] is an action, the activity log has exactly one more entry, at
    its end, with the next activity id, that action and the address [ip];
    otherwise the activity log and its counter are as they were. *)
Definition recorded (ip : string) (act : option string) (s : Store) {A}
           (out : result A * Store) : Prop :=
  match fst out, act with
  | Ok _, Some a =>
      exists e,
        activity_logs (snd out) = (activity_logs s ++ [e])%list
        /\ a_id e = next_of "activity_logs" s
        /\ a_action e = a
        /\ a_ip_address e = Some ip
        /\ next_of "activity_logs" (snd out) = next_of "activity_logs" s + 1
  | _, _ => trail_is (activity_logs s) (next_of "activity_logs" s) (snd out)
  end.

Definition audited (ip : string) (act : option string) {A} (m : M A) : Prop :=
  forall s, recorded ip act s (m s).

(** The ids 1, 2, ..., [n]. *)
Definition count_to (n : nat) : list Z := map Z.of_nat (seq 1 n).

(** ** Vocabulary and scenario: logging in after the creation of a user *)

(** The login form with the given username and the password of the
    creation request. *)
Definition credentials_of (uname : string) (body : CreateUserRequest)
  : LoginRequest :=
  {| lr_username := uname; lr_password := cu_password body |}.

(** The user record [create_user] stores for [body]. *)
Definition created_record (E : Env) (body : CreateUserRequest) (uid : Z)
           (n : nat) (now : string) : User :=
  {| u_id := uid; u_name := PyStr.strip (cu_name body);
     u_email := PyStr.lower (PyStr.strip (cu_email body));
     u_username := PyStr.lower (PyStr.strip (cu_username body));
     u_password_hash := generate_password_hash E n (cu_password body);
     u_role := cu_role body; u_is_active := true;
     u_created_at := now; u_last_login := None |}.

(** The admin creates a viewer and types her username with a capital. *)
Definition carol_request : CreateUserRequest :=
  {| cu_name := "Carol"; cu_email := "Carol@geb.com";
     cu_username := " Carol "; cu_password := "secret1";
     cu_role := "viewer" |}.

Definition carol_created : Store :=
  Eval vm_compute in
    snd (create_user demo_env carol_request "127.0.0.1" admin_identity
                     (init demo_env)).

(** ** Scenario: a deleted template *)

(** The store once the admin has deleted template 1. *)
Definition deleted_store : Store :=
  Eval vm_compute in
    snd (delete_template demo_env 1 "127.0.0.1" admin_identity
                         (init demo_env)).

(** A template message that names template 1. *)
Definition late_invite : SendMessageRequest :=
  {| sm_phone := "9876543210"; sm_name := "Asha"; sm_type := "template";
     sm_template_id := Some 1; sm_variables := []; sm_text := EmptyString |}.

(** ** Vocabulary of the statements about stored password hashes *)

(** A user's id, username and password hash. *)
Definition user_secret (u : User) : Z * string * string :=
  (u_id u, u_username u, u_password_hash u).

(** The users of [s0] are still there in [s], in order and each with the
    password hash it had, possibly followed by new ones. *)
Definition secrets_kept (s0 s : Store) : Prop :=
  exists more,
    map user_secret (users s) = (map user_secret (users s0) ++ more)%list.

(** The route is the change of a password. *)
Definition sets_password (t : route) : bool :=
  match t with
  | PostChangePassword _ => true
  | _ => false
  end.

(** The accounts with another id than [uid]. *)
Definition others (uid : Z) (us : list User) : list User :=
  List.filter (fun u => negb (has_id uid u)) us.

(** An admin edits every field [update_user] accepts. *)
Definition full_update : UpdateUserRequest :=
  {| uu_name := Some "Robert"; uu_email := Some "robert@geb.com";
     uu_role := Some "admin"; uu_is_active := Some false |}.

Definition admin_edits : list request :=
  [as_admin (new_user "bob"); as_admin (PutUser 2 full_update);
   as_admin (DeleteUser 2)].

(** ** Vocabulary of the statements about the gateway *)

(** The [to] field of a payload. *)
Definition payload_to (p : payload) : string :=
  match p with
  | TextPayload to _ => to
  | TemplatePayload to _ _ _ => to
  end.

(** The number the gateway is given for a message log. *)
Definition log_address (l : MessageLog) : string :=
  Phone._normalize_phone (l_recipient_phone l).

(** The payloads handed to the gateway and the message logs go by pairs:
    as many of each, in the same order, each payload addressed to the
    normalised phone of its log. *)
Definition posts_match_logs (s : Store) : Prop :=
  map payload_to (posted s) = map log_address (message_logs s).

(** ** Vocabulary of the statements about campaigns *)

(** A campaign as a bulk send that answers leaves it: completed, every
    recipient counted as sent or failed. *)
Definition campaign_completed (c : Campaign) : Prop :=
  c_status c = "completed"
  /\ (c_sent_count c + c_failed_count c = c_total_recipients c)%nat
  /\ c_completed_at c <> None.

(** A campaign at rest: the delivered and read counters are at zero, and
    it is either completed or still as it was appended, "running" with
    no count, its request having ended with an exception in the loop. *)
Definition campaign_settled (c : Campaign) : Prop :=
  c_delivered_count c = 0%nat /\ c_read_count c = 0%nat
  /\ (campaign_completed c \/ campaign_running c).

(** The store once the admin has sent the bulk invitation. *)
Definition bulk_store : Store :=
  Eval vm_compute in
    run demo_env [as_admin (PostBulk three_recipients)] (init demo_env).

(** Two recipients, the second a bare string where a dict is expected. *)
Definition broken_recipients : BulkRequest :=
  {| bk_campaign_name := "Bulk Campaign";
     bk_template_id := Some 2;
     bk_recipients := Some (JArr [ rcpt "+91 98765-43210" "Asha";
                                   JStr "9876543211" ]);
     bk_csv := None |}.

(** The store once the admin has sent the broken list: the first
    recipient is served, the request ends at the second. *)
Definition crashed_store : Store :=
  Eval vm_compute in
    run demo_env [as_admin (PostBulk broken_recipients)] (init demo_env).

(** * Properties *)

Local Open Scope list_scope.

(** ** Phone normalization *)

Example validate_phone_ex1 : Phone.validate_phone "+91 98765-43210" = true.
Proof. reflexivity. Qed.

Example validate_phone_ex2 : Phone.validate_phone "abc" = false.
Proof. reflexivity. Qed.

Lemma contains_remove_same c s :
  PyStr.contains_char c (PyStr.remove_char c s) = false.
Proof.
  induction s as [|d s IH]; simpl; [reflexivity|].
  destruct (Ascii.eqb c d) eqn:Hcd; simpl; [exact IH|].
  rewrite Hcd. exact IH.
Qed.

Lemma contains_remove_other c d s :
  PyStr.contains_char d s = false ->
  PyStr.contains_char d (PyStr.remove_char c s) = false.
Proof.
  induction s as [|x s IH]; simpl; [reflexivity|].
  intros H. apply orb_false_iff in H as [Hx Hs].
  destruct (Ascii.eqb c x); simpl; [auto|].
  rewrite Hx. simpl. auto.
Qed.

Lemma cleaned_has_no_separator phone :
  PyStr.contains_char " " (Phone.cleaned phone) = false
  /\ PyStr.contains_char "-" (Phone.cleaned phone) = false
  /\ PyStr.contains_char "+" (Phone.cleaned phone) = false.
Proof.
  unfold Phone.cleaned. repeat split.
  - do 2 apply contains_remove_other. apply contains_remove_same.
  - apply contains_remove_other. apply contains_remove_same.
  - apply contains_remove_same.
Qed.

(** C4, as stated, fails: a ten-digit number that already starts with 91
    is returned without a prefix, and a ten-character string that is not
    a number gets one. *)
Lemma normalize_phone_not_as_specified :
  Phone._normalize_phone "9123456789" = "9123456789"
  /\ PhoneSpec.normalize_as_specified "9123456789" = "919123456789"
  /\ Phone._normalize_phone "abcdefghij" = "91abcdefghij"
  /\ PhoneSpec.normalize_as_specified "abcdefghij" = "abcdefghij"
  /\ ~ (forall phone,
          Phone._normalize_phone phone = PhoneSpec.normalize_as_specified phone).
Proof.
  repeat split; try reflexivity.
  intros H. specialize (H "9123456789"). vm_compute in H. discriminate H.
Qed.

(** The code's stripping, character by character. *)
Lemma lstrip_as_list s :
  list_ascii_of_string (PyStr.lstrip s)
  = PhoneSpec.skip_spaces (list_ascii_of_string s).
Proof.
  induction s as [|c s IH]; cbn; [reflexivity|].
  destruct (PyStr.is_space c); [exact IH|reflexivity].
Qed.

Lemma skip_spaces_snoc l c :
  PhoneSpec.skip_spaces (l ++ [c])
  = match PhoneSpec.skip_spaces l with
    | [] => if PyStr.is_space c then [] else [c]
    | r => r ++ [c]
    end.
Proof.
  induction l as [|x l IH]; cbn; [reflexivity|].
  destruct (PyStr.is_space x); [exact IH|reflexivity].
Qed.

Lemma rstrip_as_list s :
  list_ascii_of_string (PyStr.rstrip s)
  = rev (PhoneSpec.skip_spaces (rev (list_ascii_of_string s))).
Proof.
  induction s as [|c s IH]; [reflexivity|].
  cbn [list_ascii_of_string rev PyStr.rstrip].
  rewrite skip_spaces_snoc.
  destruct (PyStr.rstrip s) as [|d r] eqn:Hr; cbn [list_ascii_of_string] in IH.
  - symmetry in IH. apply (f_equal (@rev _)) in IH.
    rewrite rev_involutive in IH. cbn in IH. rewrite IH.
    destruct (PyStr.is_space c); reflexivity.
  - destruct (PhoneSpec.skip_spaces (rev (list_ascii_of_string s)))
      as [|a r'] eqn:Hs; [discriminate IH|].
    rewrite rev_app_distr, <- IH. reflexivity.
Qed.

Lemma strip_as_list s :
  list_ascii_of_string (PyStr.strip s)
  = PhoneSpec.surrounding_stripped (list_ascii_of_string s).
Proof.
  unfold PyStr.strip, PhoneSpec.surrounding_stripped.
  rewrite rstrip_as_list, lstrip_as_list. reflexivity.
Qed.

Lemma remove_char_as_list c s :
  list_ascii_of_string (PyStr.remove_char c s)
  = List.filter (fun d => negb (Ascii.eqb c d)) (list_ascii_of_string s).
Proof.
  induction s as [|d s IH]; cbn; [reflexivity|].
  destruct (Ascii.eqb c d); cbn; rewrite IH; reflexivity.
Qed.

Lemma filter_filter {A} (p q : A -> bool) (l : list A) :
  List.filter p (List.filter q l) = List.filter (fun x => q x && p x) l.
Proof.
  induction l as [|x l IH]; cbn; [reflexivity|].
  destruct (q x); cbn; [destruct (p x)|]; rewrite IH; reflexivity.
Qed.

(** What the code strips is the stripped form of the amended wording. *)
Lemma cleaned_stripped_form phone :
  Phone.cleaned phone = PhoneSpec.stripped_form phone.
Proof.
  unfold Phone.cleaned, PhoneSpec.stripped_form.
  rewrite <- (string_of_list_ascii_of_string
                (PyStr.remove_char "+"
                   (PyStr.remove_char "-"
                      (PyStr.remove_char " " (PyStr.strip phone))))).
  f_equal. rewrite !remove_char_as_list, strip_as_list, !filter_filter.
  apply filter_ext. intros c. unfold PhoneSpec.separator.
  rewrite (Ascii.eqb_sym c " "), (Ascii.eqb_sym c "-"), (Ascii.eqb_sym c "+").
  destruct (Ascii.eqb " " c), (Ascii.eqb "-" c), (Ascii.eqb "+" c);
    reflexivity.
Qed.

(** C4 (amended): normalization computes what the amended wording says:
    it drops the whitespace around the input and then every space, dash
    and plus sign; when what is left has exactly 10 characters and does
    not already start with 91 the result is that string prefixed with
    91, and in every other case it is that string unchanged.  The
    stripped form holds no space, dash or plus sign. *)
Theorem normalize_phone_amended (phone : string) :
  Phone._normalize_phone phone = PhoneSpec.normalize_as_amended phone
  /\ let c := PhoneSpec.stripped_form phone in
     (PyStr.contains_char " " c = false
      /\ PyStr.contains_char "-" c = false
      /\ PyStr.contains_char "+" c = false)
     /\ (String.length c = 10%nat -> String.prefix "91" c = false ->
         Phone._normalize_phone phone = "91" +:+ c)
     /\ (String.length c <> 10%nat \/ String.prefix "91" c = true ->
         Phone._normalize_phone phone = c).
Proof.
  assert (Heq : Phone._normalize_phone phone
                = PhoneSpec.normalize_as_amended phone).
  { unfold Phone._normalize_phone, PhoneSpec.normalize_as_amended,
      PyStr.startswith.
    rewrite cleaned_stripped_form.
    destruct (String.prefix "91" (PhoneSpec.stripped_form phone));
      cbn [negb andb]; [rewrite andb_false_r|rewrite andb_true_r];
      reflexivity. }
  split; [exact Heq|]. intros c. split.
  { unfold c. rewrite <- cleaned_stripped_form.
    apply cleaned_has_no_separator. }
  rewrite Heq. unfold PhoneSpec.normalize_as_amended. fold c. split.
  - intros Hlen Hpre. rewrite Hpre, Hlen. reflexivity.
  - intros [Hlen | Hpre].
    + apply Nat.eqb_neq in Hlen. rewrite Hlen. reflexivity.
    + rewrite Hpre, andb_false_r. reflexivity.
Qed.

Lemma normalize_phone_amended_witness :
  Phone._normalize_phone "+98765 43210" = "919876543210"
  /\ Phone._normalize_phone "91-2345-6789" = "9123456789"
  /\ Phone._normalize_phone " 12345 " = "12345".
Proof.
  split; [|split].
  - apply (proj1 (proj2 (proj2 (normalize_phone_amended "+98765 43210"))));
      reflexivity.
  - apply (proj2 (proj2 (proj2 (normalize_phone_amended "91-2345-6789")))).
    right. reflexivity.
  - apply (proj2 (proj2 (proj2 (normalize_phone_amended " 12345 ")))).
    left. vm_compute. lia.
Defined.

(** ** Reachable stores *)

Lemma run_reachable E rs s : reachable E s -> reachable E (run E rs s).
Proof.
  revert s. induction rs as [|r rs IH]; intros s Hs; simpl; [exact Hs|].
  apply IH. constructor. exact Hs.
Qed.

Lemma run_app E rs1 rs2 s : run E (rs1 ++ rs2) s = run E rs2 (run E rs1 s).
Proof. unfold run. apply fold_left_app. Qed.

(** ** Users: the licence limit and uniqueness *)

(** With six active users [create_user] raises 400 and changes nothing. *)
Lemma create_user_at_limit E body h cu s :
  (MAX_USERS <= active_count (users s))%nat ->
  exists detail, create_user E body h cu s = (HTTPException 400 detail, s).
Proof.
  intros Hmax. unfold create_user.
  repeat match goal with
         | |- context [if ?b then _ else _] =>
             lazymatch b with
             | (MAX_USERS <=? _)%nat => fail
             | _ => destruct b
             end
         end; try (eexists; reflexivity).
  unfold bind, gets. apply Nat.leb_le in Hmax. rewrite Hmax.
  eexists; reflexivity.
Qed.

(** C2: the limit of six active users is enforced by [create_user] only;
    [update_user] switches a deactivated user back on without counting,
    and seven users are active at once. *)
Theorem active_users_exceed_maximum :
  let s := run demo_env seven_active_trace (init demo_env) in
  reachable demo_env s
  /\ map u_id (users s) = [1; 2; 3; 4; 5; 6; 7]
  /\ active_count (users s) = 7%nat
  /\ (MAX_USERS < active_count (users s))%nat.
Proof.
  split; [apply run_reachable; constructor|].
  vm_compute. repeat split; lia.
Qed.

(** C5: [create_user] refuses a taken email, [update_user] stores the new
    email unchecked, and two user records share one email. *)
Theorem emails_not_unique :
  let s := run demo_env shared_email_trace (init demo_env) in
  reachable demo_env s
  /\ map u_username (users s) = ["admin"; "bob"]
  /\ map u_email (users s) = ["admin@geb.com"; "admin@geb.com"]
  /\ ~ NoDup (map u_email (users s)).
Proof.
  intros s.
  assert (Hmail : map u_email (users s) = ["admin@geb.com"; "admin@geb.com"])
    by (vm_compute; reflexivity).
  split; [apply run_reachable; constructor|].
  split; [vm_compute; reflexivity|].
  split; [exact Hmail|].
  rewrite Hmail. intros H. inversion H as [|x l Hnotin _]; subst.
  apply Hnotin. left.
Qed.

(** ** Templates: who may change the approval status *)

(** C3: [approve_template] is for admins only, yet [update_template]
    accepts a [status] field from any authenticated user: an operator
    turns a pending template into an approved one. *)
Theorem status_changed_by_operator :
  let s := run demo_env pending_trace (init demo_env) in
  let '(resp, s') := handle demo_env self_approval s in
  reachable demo_env s
  /\ (t_status <$> find_first (tmpl_has_id 5) (templates s)) = Some "pending"
  /\ resp = Ok (RMessage "Template updated")
  /\ (t_status <$> find_first (tmpl_has_id 5) (templates s')) = Some "approved"
  /\ (exists d, fst (handle demo_env
                     (as_user 2 "bob" "operator" (PostApprove 5)) s)
               = HTTPException 403 d).
Proof.
  vm_compute handle.
  split; [apply run_reachable; constructor|].
  vm_compute. repeat split; eauto.
Qed.

(** ** The gateway client *)

Lemma bind_ret_l {A B} (a : A) (k : A -> M B) : bind (ret a) k = k a.
Proof. reflexivity. Qed.

Lemma bind_raise_l {A B} c d (k : A -> M B) : bind (raise c d) k = raise c d.
Proof. reflexivity. Qed.

Lemma bind_run {A B} (m : M A) (k : A -> M B) s a s1 :
  m s = (Ok a, s1) -> bind m k s = k a s1.
Proof. intros H. unfold bind. rewrite H. reflexivity. Qed.

Lemma bind_fail {A B} (m : M A) (k : A -> M B) s c d s1 :
  m s = (HTTPException c d, s1) -> bind m k s = (HTTPException c d, s1).
Proof. intros H. unfold bind. rewrite H. reflexivity. Qed.

Lemma get_or_raise_obj f k d :
  get_or_raise (JObj f) k d = ret (field (JObj f) k d).
Proof. reflexivity. Qed.

Section Gateway.
Variable E : Env.

Lemma _post_run p s :
  exists res,
    _post E p s
    = (Ok res, with_ticks (S (ticks s)) (with_posted (posted s ++ [p]) s)).
Proof.
  unfold _post, _simulate_response, bind, modify, tick, ret.
  destruct (negb (PyStr.truthy (WHATSAPP_PHONE_ID E))
            || negb (PyStr.truthy (WHATSAPP_TOKEN E)));
    simpl; eexists; reflexivity.
Qed.

(** [send_template_with_variables] hands one payload to the gateway, or
    raises before it does when the variables cannot be iterated. *)
Lemma send_template_with_variables_run phone name vars lang url s :
  match texts_of E vars with
  | Some texts =>
      exists res,
        send_template_with_variables E phone name vars lang url s
        = (Ok res,
           with_ticks (S (ticks s))
             (with_posted
                (posted s ++ [TemplatePayload (Phone._normalize_phone phone)
                                name lang (build_components texts url)]) s))
  | None =>
      send_template_with_variables E phone name vars lang url s
      = (HTTPException 500 "TypeError", s)
  end.
Proof.
  unfold send_template_with_variables, variable_texts, texts_of,
    iter_or_raise.
  destruct (Json.truthy vars).
  - destruct (Json.iter vars) as [l|]; cbn [option_map].
    + rewrite !bind_ret_l. apply _post_run.
    + reflexivity.
  - rewrite bind_ret_l. apply _post_run.
Qed.

(** A list of variables can always be iterated. *)
Lemma texts_of_list vs : texts_of E (JArr vs) = Some (map (py_str E) vs).
Proof. unfold texts_of. destruct vs; reflexivity. Qed.

Lemma send_template_run phone name vs lang url s :
  exists res,
    send_template_with_variables E phone name (JArr vs) lang url s
    = (Ok res,
       with_ticks (S (ticks s))
         (with_posted
            (posted s ++ [TemplatePayload (Phone._normalize_phone phone)
                            name lang
                            (build_components (map (py_str E) vs) url)]) s)).
Proof.
  pose proof (send_template_with_variables_run phone name (JArr vs) lang url s)
    as H.
  rewrite texts_of_list in H. exact H.
Qed.

Lemma send_text_message_run phone text s :
  exists res,
    send_text_message E phone text s
    = (Ok res,
       with_ticks (S (ticks s))
         (with_posted
            (posted s ++ [TextPayload (Phone._normalize_phone phone) text]) s)).
Proof. unfold send_text_message. apply _post_run. Qed.

End Gateway.

(** ** Bulk sending *)

Lemma alter_last {A} (f : A -> A) (l : list A) (x : A) :
  alter f (List.length l) (l ++ [x]) = l ++ [f x].
Proof.
  replace (List.length l) with (List.length l + 0)%nat by lia.
  rewrite alter_app_r. reflexivity.
Qed.

Lemma item_phone_inv rec p :
  item_phone rec = Some p ->
  exists f ps,
    rec = JObj f /\ field rec "phone" (JStr EmptyString) = JStr ps
    /\ p = PyStr.strip ps.
Proof.
  unfold item_phone. destruct rec as [| | | |l|f]; try discriminate.
  change (Json.get (JObj f) "phone" (JStr EmptyString))
    with (Some (field (JObj f) "phone" (JStr EmptyString))).
  destruct (field (JObj f) "phone" (JStr EmptyString))
    as [| | |ps| |] eqn:Hp; try discriminate.
  intros [= <-]. exists f, ps. repeat split.
Qed.

Lemma count_status_app st a b :
  count_status st (a ++ b) = (count_status st a + count_status st b)%nat.
Proof.
  unfold count_status. rewrite List.filter_app, length_app. reflexivity.
Qed.

Lemma readable_all E recs :
  forallb (well_formed E) recs = true -> readable E recs = recs.
Proof.
  induction recs as [|r rs IH]; [reflexivity|].
  cbn. intros H. apply andb_true_iff in H as [-> Hrs].
  rewrite (IH Hrs). reflexivity.
Qed.

Lemma readable_short E recs :
  forallb (well_formed E) recs = false ->
  (List.length (readable E recs) < List.length recs)%nat.
Proof.
  induction recs as [|r rs IH]; [discriminate|].
  cbn. destruct (well_formed E r); cbn; [|lia].
  intros H. specialize (IH H). lia.
Qed.

Lemma count_status_cons st x l :
  count_status st (x :: l)
  = ((if String.eqb (b_status x) st then 1 else 0) + count_status st l)%nat.
Proof.
  unfold count_status. cbn [List.filter].
  destruct (String.eqb (b_status x) st); reflexivity.
Qed.

Section Bulk.
Variable E : Env.

Lemma status_of_cases res :
  status_of res = "sent" \/ status_of res = "failed".
Proof. unfold status_of. destruct (success res); auto. Qed.

(** The loop ends the request at an element that is not well formed,
    leaving the store as it is. *)
Lemma bulk_loop_malformed tmpl tid cu rec rest a b c s :
  well_formed E rec = false ->
  exists d,
    bulk_loop E tmpl tid cu (rec :: rest) a b c s = (HTTPException 500 d, s).
Proof.
  unfold well_formed, phone_ok. intros Hwf.
  destruct (item_phone rec) as [p|] eqn:Hp.
  - destruct (item_phone_inv rec p Hp) as (f & ps & -> & Hps & ->).
    apply orb_false_iff in Hwf as [Hok Htx]. apply negb_false_iff in Hok.
    destruct (item_texts E (JObj f)) as [texts|] eqn:Ht; [discriminate|].
    cbn [bulk_loop]. rewrite !get_or_raise_obj, bind_ret_l, Hps.
    cbn [strip_or_raise]. rewrite !bind_ret_l.
    apply andb_true_iff in Hok as [Htr Hval]. rewrite Htr, Hval.
    cbn [negb orb]. unfold bind at 1.
    pose proof (send_template_with_variables_run E (PyStr.strip ps)
                  (t_name tmpl) (field (JObj f) "variables" (JArr []))
                  (t_language tmpl) None s) as Hrun.
    unfold item_texts in Ht. rewrite Ht in Hrun. rewrite Hrun. eauto.
  - clear Hwf. cbn [bulk_loop].
    unfold item_phone in Hp.
    destruct rec as [| | | |l|f];
      try (eexists; reflexivity).
    rewrite !get_or_raise_obj, bind_ret_l.
    change (Json.get (JObj f) "phone" (JStr EmptyString))
      with (Some (field (JObj f) "phone" (JStr EmptyString))) in Hp.
    revert Hp.
    destruct (field (JObj f) "phone" (JStr EmptyString)); intros Hp;
      try (eexists; reflexivity). discriminate Hp.
Qed.

(** An element with an invalid phone is counted and reported as failed,
    and nothing else happens. *)
Lemma bulk_loop_invalid tmpl tid cu rec rest a b c s p :
  item_phone rec = Some p -> phone_ok rec = false ->
  bulk_loop E tmpl tid cu (rec :: rest) a b c s
  = bulk_loop E tmpl tid cu rest a (S b)
      (c ++ [{| b_phone := p; b_name := None; b_status := "failed";
                b_error := Some "Invalid phone"; b_message_id := None |}]) s.
Proof.
  intros Hp Hok. unfold phone_ok in Hok. rewrite Hp in Hok.
  destruct (item_phone_inv rec p Hp) as (f & ps & -> & Hps & ->).
  cbn [bulk_loop]. rewrite !get_or_raise_obj, bind_ret_l, Hps.
  cbn [strip_or_raise]. rewrite !bind_ret_l.
  replace (negb (PyStr.truthy (PyStr.strip ps))
           || negb (Phone.validate_phone (PyStr.strip ps))) with true.
  - reflexivity.
  - destruct (PyStr.truthy (PyStr.strip ps)),
      (Phone.validate_phone (PyStr.strip ps)); try reflexivity.
    discriminate Hok.
Qed.

(** An element with a valid phone and readable variables: one payload,
    one log, one entry of the results. *)
Lemma bulk_loop_valid tmpl tid cu rec rest a b c s p :
  item_phone rec = Some p -> phone_ok rec = true ->
  well_formed E rec = true ->
  exists res l s1,
    bulk_loop E tmpl tid cu (rec :: rest) a b c s
    = bulk_loop E tmpl tid cu rest
        (if success res then S a else a)
        (if success res then b else S b)
        (c ++ [{| b_phone := p;
                  b_name := Some (field rec "name" (JStr EmptyString));
                  b_status := status_of res; b_error := None;
                  b_message_id := Some (message_id res) |}]) s1
    /\ message_logs s1 = message_logs s ++ [l]
    /\ posted s1 = posted s ++ [bulk_payload E tmpl rec]
    /\ l_id l = default 1 (_next_id s !! "message_logs")
    /\ l_recipient_phone l = p
    /\ l_recipient_name l = field rec "name" (JStr EmptyString)
    /\ l_message_id l = message_id res
    /\ l_status l = JStr (status_of res)
    /\ l_template_name l = Some (t_name tmpl)
    /\ l_body_preview l = PyStr.take 100 (t_body tmpl)
    /\ users s1 = users s /\ templates s1 = templates s
    /\ campaigns s1 = campaigns s /\ activity_logs s1 = activity_logs s.
Proof.
  intros Hp Hok Hwf. unfold well_formed in Hwf. rewrite Hp, Hok in Hwf.
  cbn [negb orb] in Hwf.
  destruct (item_texts E rec) as [texts|] eqn:Ht; [clear Hwf|discriminate].
  unfold phone_ok in Hok. rewrite Hp in Hok.
  destruct (item_phone_inv rec p Hp) as (f & ps & -> & Hps & ->).
  apply andb_true_iff in Hok as [Htr Hval].
  cbn [bulk_loop]. rewrite !get_or_raise_obj, bind_ret_l, Hps.
  cbn [strip_or_raise]. rewrite !bind_ret_l, Htr, Hval. cbn [negb orb].
  unfold bind at 1.
  pose proof (send_template_with_variables_run E (PyStr.strip ps)
                (t_name tmpl) (field (JObj f) "variables" (JArr []))
                (t_language tmpl) None s) as Hrun.
  unfold item_texts in Ht. rewrite Ht in Hrun. destruct Hrun as [res ->].
  unfold bind, _auto_id, now_iso, tick, modify, ret.
  cbn -[bulk_loop PyStr.strip PyStr.take Phone._normalize_phone field].
  eexists res, _, _. split; [reflexivity|].
  cbn -[PyStr.strip PyStr.take Phone._normalize_phone field].
  unfold bulk_payload, phone_of, item_texts. rewrite Hp, Ht.
  repeat split.
  destruct (_next_id s !! "message_logs") eqn:Hn; cbn; [rewrite Hn|];
    try reflexivity.
  rewrite lookup_insert_eq. reflexivity.
Qed.

(** What the recipient loop does to the store and, when every element
    is well formed, what it returns. *)
Lemma bulk_loop_run tmpl tid cu recs :
  forall sent failed results s,
  exists news items s',
    snd (bulk_loop E tmpl tid cu recs sent failed results s) = s'
    /\ message_logs s' = message_logs s ++ news
    /\ map l_recipient_phone news
       = map phone_of (List.filter phone_ok (readable E recs))
    /\ Forall sent_or_failed news
    /\ Forall (fun l => l_template_name l = Some (t_name tmpl)) news
    /\ posted s'
       = posted s ++ map (bulk_payload E tmpl)
                         (List.filter phone_ok (readable E recs))
    /\ users s' = users s /\ templates s' = templates s
    /\ campaigns s' = campaigns s /\ activity_logs s' = activity_logs s
    /\ (forallb (well_formed E) recs = true ->
        exists sent' failed',
          fst (bulk_loop E tmpl tid cu recs sent failed results s)
          = Ok (sent', failed', results ++ items)
          /\ sent' = (sent + count_status "sent" items)%nat
          /\ failed' = (failed + count_status "failed" items)%nat
          /\ (sent' + failed' = sent + failed + List.length recs)%nat
          /\ (failed + (List.length recs
                        - List.length (List.filter phone_ok recs))
              <= failed')%nat
          /\ map b_phone items = map phone_of recs
          /\ Forall2 (fun r it => phone_ok r = false -> refused_item it)
                     recs items
          /\ Forall2 (fun r it => phone_ok r = true -> attempted_item it)
                     recs items)
    /\ (forallb (well_formed E) recs = false ->
        exists d,
          fst (bulk_loop E tmpl tid cu recs sent failed results s)
          = HTTPException 500 d).
Proof.
  induction recs as [|rec rest IH]; intros sent failed results s.
  - exists [], [], s. cbn. rewrite !app_nil_r.
    repeat split; auto; try discriminate.
    intros _. exists sent, failed. unfold count_status. cbn.
    repeat split; auto; try lia.
  - destruct (well_formed E rec) eqn:Hwf.
    2:{ destruct (bulk_loop_malformed tmpl tid cu rec rest sent failed
                    results s Hwf) as [d Hrun].
        exists [], [], s. rewrite Hrun. cbn [readable]. rewrite Hwf.
        cbn [fst snd map List.filter forallb]. rewrite !app_nil_r, Hwf.
        repeat (split; [try reflexivity; constructor|]).
        split; [discriminate|]. intros _. eauto. }
    assert (Hp : exists p, item_phone rec = Some p).
    { unfold well_formed in Hwf. destruct (item_phone rec); [eauto|discriminate]. }
    destruct Hp as [p Hp].
    assert (Hpo : phone_of rec = p) by (unfold phone_of; rewrite Hp; reflexivity).
    cbn [readable forallb List.filter]. rewrite Hwf. cbn [andb List.filter].
    destruct (phone_ok rec) eqn:Hok.
    + destruct (bulk_loop_valid tmpl tid cu rec rest sent failed results s p
                  Hp Hok Hwf)
        as (res & l & s1 & -> & Hlogs & Hpost & _ & Hlp & _ & _ & Hst & Htn
            & _ & Hu & Ht & Hc & Ha).
      match goal with
      | |- context [bulk_loop E tmpl tid cu rest ?a ?b ?c s1] =>
          destruct (IH a b c s1)
            as (news & items & s' & Hs' & Hlogs' & Hph & Hsf & Htn' & Hpost'
                & Hu' & Ht' & Hc' & Ha' & Hokr & Hbad);
          set (item := c) in *
      end.
      exists (l :: news).
      eexists (_ :: items), s'.
      split; [exact Hs'|].
      split; [rewrite Hlogs', Hlogs, <- app_assoc; reflexivity|].
      split; [cbn [map]; rewrite Hlp, Hph, Hpo; reflexivity|].
      split.
      { constructor; [|exact Hsf]. unfold sent_or_failed. rewrite Hst.
        destruct (status_of_cases res) as [-> | ->]; auto. }
      split; [constructor; assumption|].
      split; [rewrite Hpost', Hpost, <- app_assoc; reflexivity|].
      split; [congruence|]. split; [congruence|]. split; [congruence|].
      split; [congruence|].
      split.
      * intros Hall. destruct (Hokr Hall)
          as (s2 & f2 & Hfst & Hs2 & Hf2 & Hsum & Hfail & Hphones & Hr & Hg).
        exists s2, f2. subst item. rewrite <- app_assoc in Hfst.
        split; [exact Hfst|].
        rewrite !count_status_cons. cbn [b_status map b_phone].
        unfold status_of in *.
        destruct (success res); cbn [String.eqb Ascii.eqb Bool.eqb];
          cbn [List.length] in *;
          (split; [lia|]); (split; [lia|]); (split; [lia|]); (split; [lia|]);
          (split; [rewrite Hphones, Hpo; reflexivity|]);
          (split; constructor; try assumption; intros Hx;
           [congruence|unfold attempted_item; cbn; repeat split;
                       auto; discriminate]).
      * intros Hall. exact (Hbad Hall).
    + rewrite (bulk_loop_invalid tmpl tid cu rec rest sent failed results s p
                 Hp Hok).
      match goal with
      | |- context [bulk_loop E tmpl tid cu rest ?a ?b ?c s] =>
          destruct (IH a b c s)
            as (news & items & s' & Hs' & Hlogs' & Hph & Hsf & Htn' & Hpost'
                & Hu' & Ht' & Hc' & Ha' & Hokr & Hbad);
          set (item := c) in *
      end.
      exists news. eexists (_ :: items), s'.
      repeat (split; [assumption|]).
      split.
      * intros Hall. destruct (Hokr Hall)
          as (s2 & f2 & Hfst & Hs2 & Hf2 & Hsum & Hfail & Hphones & Hr & Hg).
        exists s2, f2. subst item. rewrite <- app_assoc in Hfst.
        split; [exact Hfst|].
        rewrite !count_status_cons.
        cbn [b_status map b_phone String.eqb Ascii.eqb Bool.eqb].
        pose proof (List.filter_length_le phone_ok rest).
        cbn [List.length] in *.
        (split; [lia|]); (split; [lia|]); (split; [lia|]); (split; [lia|]).
        split; [rewrite Hphones, Hpo; reflexivity|].
        split; constructor; try assumption; intros Hx; [|congruence].
        unfold refused_item. cbn. repeat split.
      * intros Hall. exact (Hbad Hall).
Qed.

(** What a bulk send that passes its checks does: the campaign is
    appended, the loop runs up to the first element that is not well
    formed and, when there is none, the campaign is completed and the
    response built. *)
Lemma send_bulk_message_run form h cu s recs tid tmpl :
  resolve_recipients form = Some (JArr recs) ->
  recs <> [] ->
  bk_template_id form = Some tid ->
  tid <> 0 ->
  find_first (tmpl_has_id tid) (templates s) = Some tmpl ->
  exists news items s',
    snd (send_bulk_message E form h cu s) = s'
    /\ message_logs s' = message_logs s ++ news
    /\ map l_recipient_phone news
       = map phone_of (List.filter phone_ok (readable E recs))
    /\ Forall sent_or_failed news
    /\ Forall (fun l => l_template_name l = Some (t_name tmpl)) news
    /\ posted s'
       = posted s ++ map (bulk_payload E tmpl)
                         (List.filter phone_ok (readable E recs))
    /\ users s' = users s /\ templates s' = templates s
    /\ (forallb (well_formed E) recs = true ->
        exists sent failed ts,
          fst (send_bulk_message E form h cu s)
          = Ok (RBulk (default 1 (_next_id s !! "campaigns"))
                      (List.length recs) sent failed items)
          /\ campaigns s'
             = campaigns s
               ++ [complete sent failed ts
                     (new_campaign (default 1 (_next_id s !! "campaigns"))
                        (bk_campaign_name form) tid tmpl (List.length recs)
                        cu (isoformat E (utcnow E (ticks s))))]
          /\ sent = count_status "sent" items
          /\ failed = count_status "failed" items
          /\ (sent + failed = List.length recs)%nat
          /\ (List.length recs - List.length (List.filter phone_ok recs)
              <= failed)%nat
          /\ map b_phone items = map phone_of recs
          /\ Forall2 (fun r it => phone_ok r = false -> refused_item it)
                     recs items
          /\ Forall2 (fun r it => phone_ok r = true -> attempted_item it)
                     recs items
          /\ List.length (activity_logs s')
             = S (List.length (activity_logs s)))
    /\ (forallb (well_formed E) recs = false ->
        exists d,
          fst (send_bulk_message E form h cu s) = HTTPException 500 d
          /\ campaigns s'
             = campaigns s
               ++ [new_campaign (default 1 (_next_id s !! "campaigns"))
                     (bk_campaign_name form) tid tmpl (List.length recs)
                     cu (isoformat E (utcnow E (ticks s)))]
          /\ activity_logs s' = activity_logs s).
Proof.
  intros Hres Hne Htid Hnz Hfind.
  remember (send_bulk_message E form h cu s) as out eqn:Hout.
  unfold send_bulk_message in Hout. rewrite Hres in Hout.
  replace (Json.truthy (JArr recs)) with true in Hout
    by (destruct recs; [congruence|reflexivity]).
  rewrite Htid in Hout. unfold id_truthy in Hout.
  apply Z.eqb_neq in Hnz. rewrite Hnz in Hout.
  cbn [negb default from_option id] in Hout.
  unfold bind at 1 in Hout. unfold gets at 1 in Hout. cbv beta in Hout.
  rewrite Hfind in Hout.
  set (sA := with_ticks (S (ticks s)) s) in *.
  assert (Hid : _auto_id "campaigns" sA
                = (Ok (default 1 (_next_id s !! "campaigns")),
                   snd (_auto_id "campaigns" sA))).
  { unfold _auto_id. cbn [fst snd _next_id with_ticks sA]. f_equal. f_equal.
    destruct (_next_id s !! "campaigns") eqn:Hn; [rewrite Hn; reflexivity|].
    rewrite lookup_insert_eq. reflexivity. }
  set (s0 := snd (_auto_id "campaigns" sA)) in *.
  assert (Hs0 : users s0 = users s /\ templates s0 = templates s
                /\ message_logs s0 = message_logs s
                /\ campaigns s0 = campaigns s /\ posted s0 = posted s
                /\ activity_logs s0 = activity_logs s)
    by (repeat split).
  destruct Hs0 as (Hu0 & Ht0 & Hl0 & Hc0 & Hp0 & Ha0).
  clearbody s0.
  rewrite (bind_run (now_iso E) _ s (isoformat E (utcnow E (ticks s))) sA)
    in Hout by reflexivity.
  rewrite (bind_run _ _ sA _ s0 Hid) in Hout.
  rewrite (bind_run (len_or_raise (JArr recs)) _ s0 (List.length recs) s0)
    in Hout by reflexivity.
  rewrite (bind_run (gets _) _ s0 (List.length (campaigns s0)) s0)
    in Hout by reflexivity.
  set (c0 := new_campaign _ _ _ _ _ _ _) in Hout.
  set (s1 := with_campaigns (campaigns s0 ++ [c0]) s0).
  rewrite (bind_run (modify _) _ s0 tt s1) in Hout by reflexivity.
  rewrite (bind_run (iter_or_raise (JArr recs)) _ s1 recs s1) in Hout
    by reflexivity.
  destruct (bulk_loop_run tmpl tid cu recs 0 0 [] s1)
    as (news & items & s2 & Hs2 & Hlogs & Hph & Hsf & Htn & Hpost
        & Hu & Ht & Hc & Ha & Hokr & Hbad).
  cbn [message_logs posted users templates campaigns activity_logs
       with_campaigns s1] in Hlogs, Hpost, Hu, Ht, Hc, Ha.
  destruct (forallb (well_formed E) recs) eqn:Hall.
  - destruct (Hokr eq_refl)
      as (sent & failed & Hfst & Hsent & Hfailed & Hsum & Hfail & Hphones
          & Hr & Hg).
    clear Hokr Hbad.
    assert (Hloop : bulk_loop E tmpl tid cu recs 0 0 [] s1
                    = (Ok (sent, failed, items), s2)).
    { rewrite (surjective_pairing (bulk_loop E tmpl tid cu recs 0 0 [] s1)),
        Hfst, Hs2. reflexivity. }
    rewrite (bind_run _ _ s1 _ s2 Hloop) in Hout. cbv beta iota in Hout.
    unfold now_iso, bind, tick, ret, modify, log_activity, _auto_id in Hout.
    cbn -[pretty alter List.filter List.length well_formed readable
          phone_ok phone_of count_status complete new_campaign c0] in Hout.
    rewrite Hc, Hc0, alter_last in Hout. subst out.
    exists news, items. eexists. split; [reflexivity|].
    cbn [fst snd message_logs posted users templates campaigns
         activity_logs with_activity_logs with_ticks with_next_id
         with_campaigns].
    split; [congruence|]. split; [exact Hph|]. split; [exact Hsf|].
    split; [exact Htn|]. split; [congruence|]. split; [congruence|].
    split; [congruence|].
    split; [|discriminate].
    intros _. exists sent, failed. eexists.
    split; [reflexivity|]. split; [reflexivity|].
    cbn [List.length] in *.
    repeat (split; [first [assumption|lia]|]).
    rewrite Ha, Ha0, length_app. cbn [List.length]. lia.
  - destruct (Hbad eq_refl) as (d & Hfst).
    clear Hokr Hbad.
    assert (Hloop : bulk_loop E tmpl tid cu recs 0 0 [] s1
                    = (HTTPException 500 d, s2)).
    { rewrite (surjective_pairing (bulk_loop E tmpl tid cu recs 0 0 [] s1)),
        Hfst, Hs2. reflexivity. }
    rewrite (bind_fail _ _ s1 _ _ s2 Hloop) in Hout. subst out.
    exists news, items, s2. cbn [fst snd].
    split; [reflexivity|]. split; [congruence|]. split; [exact Hph|].
    split; [exact Hsf|]. split; [exact Htn|]. split; [congruence|].
    split; [congruence|]. split; [congruence|].
    split; [discriminate|].
    intros _. exists d. split; [reflexivity|].
    split; [rewrite Hc, Hc0; reflexivity|congruence].
Qed.

(** C1 (amended): a bulk send whose recipients are all well formed
    appends one MessageLog for every recipient whose phone is valid,
    whatever the gateway answers, and none for a recipient whose phone
    is invalid: such a recipient is counted as failed and listed in the
    response as failed with the error "Invalid phone".  The campaign
    records all recipients in [total_recipients], and [failed_count] is
    at least the number of invalid phones.  When an element of the
    array is not well formed the request ends there with a 500 answer:
    logs exist for the valid recipients before that element only, and
    the campaign stays running with both counts at zero. *)
Theorem bulk_send_logs_valid_recipients form h cu s recs tid tmpl :
  resolve_recipients form = Some (JArr recs) ->
  recs <> [] ->
  bk_template_id form = Some tid ->
  tid <> 0 ->
  find_first (tmpl_has_id tid) (templates s) = Some tmpl ->
  exists news c s',
    snd (send_bulk_message E form h cu s) = s'
    /\ message_logs s' = message_logs s ++ news
    /\ map l_recipient_phone news
       = map phone_of (List.filter phone_ok (readable E recs))
    /\ List.length news = List.length (List.filter phone_ok (readable E recs))
    /\ Forall sent_or_failed news
    /\ campaigns s' = campaigns s ++ [c]
    /\ c_total_recipients c = List.length recs
    /\ (forallb (well_formed E) recs = true ->
        readable E recs = recs
        /\ exists cid sent failed results,
             fst (send_bulk_message E form h cu s)
             = Ok (RBulk cid (List.length recs) sent failed results)
             /\ c_sent_count c = sent /\ c_failed_count c = failed
             /\ c_status c = "completed"
             /\ (sent + failed = List.length recs)%nat
             /\ (List.length recs - List.length (List.filter phone_ok recs)
                 <= failed)%nat
             /\ failed = count_status "failed" results
             /\ map b_phone results = map phone_of recs
             /\ Forall2 (fun r it => phone_ok r = false -> refused_item it)
                        recs results)
    /\ (forallb (well_formed E) recs = false ->
        (List.length (readable E recs) < List.length recs)%nat
        /\ campaign_running c
        /\ exists d,
             fst (send_bulk_message E form h cu s) = HTTPException 500 d).
Proof.
  intros Hres Hne Htid Hnz Hfind.
  destruct (send_bulk_message_run form h cu s recs tid tmpl
              Hres Hne Htid Hnz Hfind)
    as (news & items & s' & Hs' & Hlogs & Hph & Hsf & _ & _ & _ & _
        & Hokr & Hbad).
  assert (Hlen : List.length news
                 = List.length (List.filter phone_ok (readable E recs))).
  { rewrite <- (length_map l_recipient_phone), Hph, length_map. reflexivity. }
  destruct (forallb (well_formed E) recs) eqn:Hall.
  - destruct (Hokr eq_refl)
      as (sent & failed & ts & Hfst & Hc & Hsent & Hfailed & Hsum & Hfail
          & Hphones & Hr & _).
    eexists news, _, s'. split; [exact Hs'|]. split; [exact Hlogs|].
    split; [exact Hph|]. split; [exact Hlen|]. split; [exact Hsf|].
    split; [exact Hc|]. split; [reflexivity|].
    split; [|discriminate]. intros _. split; [apply readable_all, Hall|].
    exists (default 1 (_next_id s !! "campaigns")), sent, failed, items.
    split; [exact Hfst|]. cbn [complete c_sent_count c_failed_count c_status].
    repeat (split; [first [reflexivity|assumption]|]). exact Hr.
  - destruct (Hbad eq_refl) as (d & Hfst & Hc & _).
    eexists news, _, s'. split; [exact Hs'|]. split; [exact Hlogs|].
    split; [exact Hph|]. split; [exact Hlen|]. split; [exact Hsf|].
    split; [exact Hc|]. split; [reflexivity|].
    split; [discriminate|]. intros _. split; [apply readable_short, Hall|].
    split; [repeat split|]. eauto.
Qed.

End Bulk.

(** C1, as stated, fails: of three recipients, the one with an invalid
    phone is counted as failed but gets no MessageLog; two logs are
    appended, not three. *)
Lemma invalid_phone_not_logged :
  let '(resp, s') := handle demo_env (as_admin (PostBulk three_recipients))
                            (init demo_env) in
  (exists results, resp = Ok (RBulk 1 3 2 1 results))
  /\ map c_total_recipients (campaigns s') = [3%nat]
  /\ map c_failed_count (campaigns s') = [1%nat]
  /\ message_logs (init demo_env) = []
  /\ map l_recipient_phone (message_logs s') = ["+91 98765-43210"; "9876543211"]
  /\ List.length (message_logs s') <> 3%nat.
Proof.
  vm_compute. repeat split; eauto. discriminate.
Qed.

Lemma bulk_send_logs_valid_recipients_witness :
  exists news c s' cid sent failed results,
    send_bulk_message demo_env three_recipients "127.0.0.1" admin_identity
      (init demo_env)
    = (Ok (RBulk cid 3 sent failed results), s')
    /\ message_logs s' = message_logs (init demo_env) ++ news
    /\ List.length news = 2%nat
    /\ Forall sent_or_failed news
    /\ campaigns s' = campaigns (init demo_env) ++ [c]
    /\ c_total_recipients c = 3%nat
    /\ c_status c = "completed"
    /\ (1 <= failed)%nat.
Proof.
  destruct (bulk_send_logs_valid_recipients demo_env three_recipients
              "127.0.0.1" admin_identity (init demo_env)
              [ rcpt "+91 98765-43210" "Asha"; rcpt "not-a-phone" "Bela";
                rcpt "9876543211" "Chitra" ]
              2 group_invite)
    as (news & c & s' & Hs' & Hlogs & _ & Hlen & Hst & Hc & Htot & Hok & _);
    [reflexivity | discriminate | reflexivity | lia | reflexivity |].
  destruct (Hok eq_refl)
    as (_ & cid & sent & failed & results & Hfst & _ & _ & Hstatus & _
        & Hfail & _).
  exists news, c, s', cid, sent, failed, results.
  split.
  { rewrite (surjective_pairing
               (send_bulk_message demo_env three_recipients "127.0.0.1"
                                  admin_identity (init demo_env))),
      Hfst, Hs'. reflexivity. }
  repeat split; assumption.
Defined.

(** ** Invariants through the handler monad *)

Section Keeps.
Variable I : Store -> Prop.

Lemma keeps_ret {A} (a : A) : keeps I (ret a).
Proof. intros s H. exact H. Qed.

Lemma keeps_raise {A} c d : keeps I (@raise A c d).
Proof. intros s H. exact H. Qed.

Lemma keeps_py_raise {A} e : keeps I (@py_raise A e).
Proof. intros s H. exact H. Qed.

Lemma keeps_gets {A} (f : Store -> A) : keeps I (gets f).
Proof. intros s H. exact H. Qed.

Lemma keeps_modify (g : Store -> Store) :
  (forall s, I s -> I (g s)) -> keeps I (modify g).
Proof. intros Hg s H. apply Hg, H. Qed.

Lemma keeps_bind {A B} (m : M A) (k : A -> M B) :
  keeps I m -> (forall a, keeps I (k a)) -> keeps I (bind m k).
Proof.
  intros Hm Hk s H. unfold bind. specialize (Hm s H).
  destruct (m s) as [[a|c d] s1]; simpl in *; [apply Hk|]; exact Hm.
Qed.

Lemma keeps_bind_ret {A B} (a : A) (k : A -> M B) :
  keeps I (k a) -> keeps I (bind (ret a) k).
Proof. intros Hk s H. apply Hk, H. Qed.

Lemma keeps_bind_raise {A B} c d (k : A -> M B) :
  keeps I (bind (raise c d) k).
Proof. intros s H. exact H. Qed.

Lemma keeps_get_or_raise v k d : keeps I (get_or_raise v k d).
Proof. intros s H. unfold get_or_raise. destruct (Json.get v k d); exact H. Qed.

Lemma keeps_iter_or_raise v : keeps I (iter_or_raise v).
Proof. intros s H. unfold iter_or_raise. destruct (Json.iter v); exact H. Qed.

Lemma keeps_strip_or_raise v : keeps I (strip_or_raise v).
Proof. intros s H. destruct v; exact H. Qed.

Lemma keeps_len_or_raise v : keeps I (len_or_raise v).
Proof. intros s H. unfold len_or_raise. destruct (Json.len v); exact H. Qed.

Lemma keeps_variable_texts E v : keeps I (variable_texts E v).
Proof.
  intros s H. unfold variable_texts, iter_or_raise.
  destruct (Json.truthy v); [destruct (Json.iter v)|]; exact H.
Qed.

Lemma keeps_try_except (m : M unit) : keeps I m -> keeps I (try_except m).
Proof. intros Hm s H. apply Hm, H. Qed.

Lemma keeps_for_each {A} (l : list A) (body : A -> M unit) :
  (forall x, In x l -> keeps I (body x)) -> keeps I (for_each l body).
Proof.
  induction l as [|x l IH]; intros Hb; simpl.
  - apply keeps_ret.
  - apply keeps_bind; [apply Hb; left; reflexivity|].
    intros _. apply IH. intros y Hy. apply Hb. right. exact Hy.
Qed.

End Keeps.

(** A property that does not look at the clock, the id counters, the
    activity log or the record of posted payloads is kept by the
    oracles, the id generator and the gateway. *)
Section KeepsData.
Variable E : Env.
Variable I : Store -> Prop.
Hypothesis I_ticks : forall s n, I s -> I (with_ticks n s).
Hypothesis I_next_id : forall s m, I s -> I (with_next_id m s).
Hypothesis I_activity : forall s a, I s -> I (with_activity_logs a s).
Hypothesis I_posted : forall s p, I s -> I (with_posted p s).

Lemma keeps_tick : keeps I tick.
Proof. intros s H. apply I_ticks, H. Qed.

Lemma keeps_now_iso : keeps I (now_iso E).
Proof. intros s H. apply I_ticks, H. Qed.

Lemma keeps_auto_id c : keeps I (_auto_id c).
Proof. intros s H. apply I_next_id, H. Qed.

Lemma keeps_log_activity u n a d ip : keeps I (log_activity E u n a d ip).
Proof. intros s H. apply I_activity, I_ticks, I_next_id, H. Qed.

Lemma keeps_post p : keeps I (_post E p).
Proof.
  intros s H. destruct (_post_run E p s) as [res ->].
  apply I_ticks, I_posted, H.
Qed.

Lemma keeps_send_template a b c d e :
  keeps I (send_template_with_variables E a b c d e).
Proof.
  unfold send_template_with_variables.
  apply keeps_bind; [apply keeps_variable_texts|intros texts].
  apply keeps_post.
Qed.

Lemma keeps_send_text a b : keeps I (send_text_message E a b).
Proof. apply keeps_post. Qed.

Lemma keeps_generate_token u n r : keeps I (generate_token E u n r).
Proof. intros s H. apply I_ticks, I_ticks, H. Qed.

Lemma keeps_get_current_user c k : keeps I (get_current_user E c k).
Proof.
  intros s H. unfold get_current_user, _decode_token, bind, tick.
  repeat match goal with
         | |- context [match ?x with _ => _ end] => destruct x; simpl
         end; try exact H; apply I_ticks, H.
Qed.

Lemma keeps_get_admin_user cu : keeps I (get_admin_user cu).
Proof.
  intros s H. unfold get_admin_user. destruct (negb _); exact H.
Qed.

End KeepsData.

(** One step of a proof that a handler keeps a property. *)
Ltac keeps_side := intros; simpl in *; assumption.

Ltac keeps_step :=
  first
    [ apply keeps_ret | apply keeps_raise | apply keeps_py_raise
    | apply keeps_gets
    | apply keeps_get_or_raise | apply keeps_iter_or_raise
    | apply keeps_strip_or_raise | apply keeps_len_or_raise
    | apply keeps_tick; keeps_side
    | apply keeps_now_iso; keeps_side
    | apply keeps_auto_id; keeps_side
    | apply keeps_log_activity; keeps_side
    | apply keeps_send_template; keeps_side
    | apply keeps_send_text; keeps_side
    | apply keeps_generate_token; keeps_side
    | apply keeps_get_current_user; keeps_side
    | apply keeps_get_admin_user
    | apply keeps_bind; [|intros ?]
    | apply keeps_modify; keeps_side
    | match goal with
      | |- keeps _ (if ?b then _ else _) => destruct b
      | |- keeps _ (match ?x with _ => _ end) => destruct x
      end ].

Ltac keeps_auto := repeat keeps_step.

(** The four reads at the head of the recipient loop. *)
Ltac loop_head :=
  do 4 (apply keeps_bind;
        [first [apply keeps_get_or_raise | apply keeps_strip_or_raise]
        |intros ?]).

(** *** Handlers that leave the message logs alone *)

Section KeepsLogs.
Variable E : Env.
Variable Q : list MessageLog -> Prop.
Let I (s : Store) : Prop := Q (message_logs s).

Lemma login_keeps_logs b h : keeps I (login E b h).
Proof. unfold login. keeps_auto. Qed.

Lemma logout_keeps_logs h cu : keeps I (logout E h cu).
Proof. unfold logout. keeps_auto. Qed.

Lemma change_password_keeps_logs b h cu : keeps I (change_password E b h cu).
Proof. unfold change_password. keeps_auto. Qed.

Lemma create_user_keeps_logs b h cu : keeps I (create_user E b h cu).
Proof. unfold create_user. keeps_auto. Qed.

Lemma update_user_keeps_logs i b h cu : keeps I (update_user E i b h cu).
Proof. unfold update_user. keeps_auto. Qed.

Lemma delete_user_keeps_logs i h cu : keeps I (delete_user E i h cu).
Proof. unfold delete_user. keeps_auto. Qed.

Lemma create_template_keeps_logs b h cu : keeps I (create_template E b h cu).
Proof. unfold create_template. keeps_auto. Qed.

Lemma update_template_keeps_logs i b h cu : keeps I (update_template E i b h cu).
Proof. unfold update_template. keeps_auto. Qed.

Lemma delete_template_keeps_logs i h cu : keeps I (delete_template E i h cu).
Proof. unfold delete_template. keeps_auto. Qed.

Lemma approve_template_keeps_logs i h cu : keeps I (approve_template E i h cu).
Proof. unfold approve_template. keeps_auto. Qed.

Lemma get_campaign_detail_keeps_logs i cu : keeps I (get_campaign_detail i cu).
Proof. unfold get_campaign_detail. keeps_auto. Qed.

End KeepsLogs.

(** ** The webhook handler *)

Lemma find_first_none {A} (p : A -> bool) (l : list A) :
  (forall x, In x l -> p x = false) -> find_first p l = None.
Proof.
  induction l as [|x l IH]; intros H; simpl; [reflexivity|].
  rewrite (H x (or_introl eq_refl)). apply IH.
  intros y Hy. apply H. right. exact Hy.
Qed.

Lemma same_data_logs s0 s : same_data s0 s -> message_logs s = message_logs s0.
Proof. intros H. apply (f_equal message_logs) in H. exact H. Qed.

Lemma in_items_status_updates data entry change su :
  In entry (items (field data "entry" (JArr []))) ->
  In change (items (field entry "changes" (JArr []))) ->
  In su (items (field (field change "value" (JObj [])) "statuses" (JArr []))) ->
  In su (status_updates data).
Proof.
  intros He Hc Hs. unfold status_updates.
  apply in_flat_map. exists entry. split; [exact He|].
  apply in_flat_map. exists change. split; [exact Hc|exact Hs].
Qed.

Section Webhook.
Variable E : Env.

(** An id that no log carries finds no log. *)
Lemma unknown_id_finds_nothing su logs :
  (forall l, In l logs ->
             Json.py_eq (l_message_id l) (field su "id" JNull) = false) ->
  find_first (has_message_id (field su "id" JNull)) logs = None.
Proof.
  intros Hun. apply find_first_none. intros l Hl.
  unfold has_message_id. exact (Hun l Hl).
Qed.

Lemma process_status_update_unknown s0 su :
  unknown_update s0 su ->
  keeps (same_data s0) (process_status_update E su).
Proof.
  intros Hun s Hs. unfold process_status_update, get_or_raise.
  destruct su as [| | | | |f]; try exact Hs.
  cbn [Json.get]. unfold bind at 1. cbn [ret].
  unfold bind at 1. cbn [ret].
  destruct (Json.truthy (default JNull (lookup_field "id" f))) eqn:Hid;
    [|exact Hs].
  destruct (Json.truthy (default JNull (lookup_field "status" f)));
    [|exact Hs].
  cbn [andb]. unfold bind at 1, now_iso, bind at 1, tick, ret, gets.
  cbn -[has_message_id].
  rewrite (same_data_logs _ _ Hs).
  replace (find (has_message_id (default JNull (lookup_field "id" f)))
                (message_logs s0))
    with (@None MessageLog)
    by (symmetry;
        exact (unknown_id_finds_nothing (JObj f) (message_logs s0) Hun)).
  unfold same_data in *. simpl in *. exact Hs.
Qed.

(** The walk over the envelope keeps what the processing of each of
    its status updates keeps. *)
Lemma process_change_keeps I change :
  (forall su,
     In su (items (field (field change "value" (JObj [])) "statuses" (JArr []))) ->
     keeps I (process_status_update E su)) ->
  keeps I (process_change E change).
Proof.
  intros H. unfold process_change, get_or_raise, iter_or_raise.
  unfold field, items in H.
  destruct (Json.get change "value" (JObj [])) as [value|] eqn:Hv;
    [apply keeps_bind_ret|apply keeps_bind_raise].
  destruct (Json.get value "statuses" (JArr [])) as [statuses|] eqn:Hst;
    [apply keeps_bind_ret|apply keeps_bind_raise].
  destruct (Json.iter statuses) as [l|] eqn:Hit;
    [apply keeps_bind_ret|apply keeps_bind_raise].
  apply keeps_for_each. intros su Hsu. apply H.
  simpl. rewrite Hst. simpl. rewrite Hit. exact Hsu.
Qed.

Lemma process_entry_keeps I entry :
  (forall change su,
     In change (items (field entry "changes" (JArr []))) ->
     In su (items (field (field change "value" (JObj [])) "statuses" (JArr []))) ->
     keeps I (process_status_update E su)) ->
  keeps I (process_entry E entry).
Proof.
  intros H. unfold process_entry, get_or_raise, iter_or_raise.
  unfold field at 1, items at 1 in H.
  destruct (Json.get entry "changes" (JArr [])) as [changes|] eqn:Hch;
    [apply keeps_bind_ret|apply keeps_bind_raise].
  destruct (Json.iter changes) as [l|] eqn:Hit;
    [apply keeps_bind_ret|apply keeps_bind_raise].
  apply keeps_for_each. intros change Hc.
  apply process_change_keeps. intros su. apply H.
  simpl. rewrite Hit. exact Hc.
Qed.

Lemma receive_webhook_keeps I body :
  (forall data su, body = Some data -> In su (status_updates data) ->
                   keeps I (process_status_update E su)) ->
  keeps I (receive_webhook E body).
Proof.
  intros H. unfold receive_webhook.
  destruct body as [data|]; [|apply keeps_ret].
  destruct (negb (Json.truthy data)); [apply keeps_ret|].
  apply keeps_bind; [|intros; apply keeps_ret].
  apply keeps_try_except. unfold get_or_raise, iter_or_raise.
  assert (He : forall entry change su,
             In entry (items (field data "entry" (JArr []))) ->
             In change (items (field entry "changes" (JArr []))) ->
             In su (items (field (field change "value" (JObj []))
                                 "statuses" (JArr []))) ->
             keeps I (process_status_update E su)).
  { intros entry change su He Hc Hs.
    exact (H data su eq_refl (in_items_status_updates _ _ _ _ He Hc Hs)). }
  unfold field at 1, items at 1 in He.
  destruct (Json.get data "entry" (JArr [])) as [entries|] eqn:Hen;
    [apply keeps_bind_ret|apply keeps_bind_raise].
  destruct (Json.iter entries) as [l|] eqn:Hit;
    [apply keeps_bind_ret|apply keeps_bind_raise].
  apply keeps_for_each. intros entry Hentry.
  apply process_entry_keeps. intros change su. apply He.
  simpl. rewrite Hit. exact Hentry.
Qed.

Lemma receive_webhook_ok body s :
  fst (receive_webhook E body s) = Ok (RWebhook "ok").
Proof.
  unfold receive_webhook. destruct body as [data|]; [|reflexivity].
  destruct (negb (Json.truthy data)); reflexivity.
Qed.

(** C7: a webhook POST whose status updates all carry message ids that
    no MessageLog has leaves every log as it was (and with the logs the
    users, templates and campaigns), and answers [{status: "ok"}]. *)
Theorem webhook_unknown_ids_change_nothing (body : option json) (s : Store) :
  (forall data, body = Some data -> unknown_ids data (message_logs s)) ->
  let '(resp, s') := receive_webhook E body s in
  resp = Ok (RWebhook "ok")
  /\ message_logs s' = message_logs s
  /\ users s' = users s /\ templates s' = templates s
  /\ campaigns s' = campaigns s.
Proof.
  intros H.
  pose proof (receive_webhook_ok body s) as Hok.
  assert (Hs : same_data s s) by reflexivity.
  apply (receive_webhook_keeps (same_data s) body) in Hs.
  2:{ intros data su Hb Hsu. apply process_status_update_unknown.
      intros l Hl. exact (H data Hb su l Hsu Hl). }
  destruct (receive_webhook E body s) as [resp s']. simpl in *.
  split; [exact Hok|]. unfold same_data in Hs.
  repeat split.
  - exact (f_equal message_logs Hs).
  - exact (f_equal users Hs).
  - exact (f_equal templates Hs).
  - exact (f_equal campaigns Hs).
Qed.

End Webhook.

(** ** The status of a message log *)

Lemma Forall_update_first {A} (P : A -> Prop) p f (l : list A) :
  (forall x, P x -> P (f x)) -> Forall P l -> Forall P (update_first p f l).
Proof.
  intros Hf. induction 1 as [|x l Hx Hl IH]; simpl; [constructor|].
  destruct (p x); constructor; auto.
Qed.

Section Statuses.
Variable E : Env.
Variable A : json -> Prop.
Hypothesis A_sent : A (JStr "sent").
Hypothesis A_failed : A (JStr "failed").

Let I (s : Store) : Prop :=
  Forall (fun l => A (l_status l)) (message_logs s).

Lemma A_status_of res : A (JStr (status_of res)).
Proof. unfold status_of. destruct (success res); assumption. Qed.

Lemma mutate_log_keeps_status msg_id f :
  (forall l, l_status (f l) = l_status l) -> keeps I (mutate_log msg_id f).
Proof.
  intros Hf. apply keeps_modify. intros s Hs. unfold I in *. simpl.
  apply Forall_update_first; [|exact Hs].
  intros l Hl. rewrite Hf. exact Hl.
Qed.

Lemma mutate_log_sets_status msg_id v :
  A v -> keeps I (mutate_log msg_id (set_log_status v)).
Proof.
  intros Hv. apply keeps_modify. intros s Hs. unfold I in *. simpl.
  apply Forall_update_first; [|exact Hs].
  intros l _. exact Hv.
Qed.

(** The webhook handler writes the status value of the update, and
    only when that value is truthy. *)
Lemma process_status_update_statuses su :
  (Json.truthy (field su "status" JNull) = true ->
   A (field su "status" JNull)) ->
  keeps I (process_status_update E su).
Proof.
  intros Hsu. unfold process_status_update.
  destruct su as [| | | | |f]; try apply keeps_bind_raise.
  unfold get_or_raise at 1 2. cbn [Json.get].
  do 2 apply keeps_bind_ret.
  destruct (Json.truthy (default JNull (lookup_field "id" f)));
    [|apply keeps_ret].
  destruct (Json.truthy (default JNull (lookup_field "status" f))) eqn:Hst;
    [|apply keeps_ret].
  cbn [andb].
  apply keeps_bind; [apply keeps_now_iso; keeps_side|intros ts].
  apply keeps_bind; [apply keeps_gets|intros [log|]]; [|apply keeps_ret].
  apply keeps_bind; [apply mutate_log_sets_status, Hsu, Hst|intros _].
  unfold get_or_raise, first_item.
  repeat first
    [ apply mutate_log_keeps_status; reflexivity
    | keeps_step ].
Qed.

Lemma record_single_statuses a b c d e f res h cu :
  keeps I (record_single E a b c d e f res h cu).
Proof.
  unfold record_single. keeps_auto.
  apply keeps_modify. intros s Hs. unfold I in *. simpl.
  apply Forall_app. split; [exact Hs|].
  constructor; [apply A_status_of|constructor].
Qed.

Lemma send_single_statuses b h cu : keeps I (send_single_message E b h cu).
Proof.
  unfold send_single_message.
  repeat first [ apply record_single_statuses | keeps_step ].
Qed.

Lemma bulk_loop_statuses tmpl tid cu recs a b c :
  keeps I (bulk_loop E tmpl tid cu recs a b c).
Proof.
  intros s Hs.
  destruct (bulk_loop_run E tmpl tid cu recs a b c s)
    as (news & items & s' & Hrun & Hlogs & _ & Hst & _).
  rewrite Hrun. unfold I in *. rewrite Hlogs.
  apply Forall_app. split; [exact Hs|].
  eapply Forall_impl; [exact Hst|].
  intros l [-> | ->]; assumption.
Qed.

Lemma send_bulk_statuses f h cu : keeps I (send_bulk_message E f h cu).
Proof.
  unfold send_bulk_message.
  repeat first [ apply bulk_loop_statuses | keeps_step ].
Qed.

Lemma handle_statuses r :
  (forall data su,
     target r = PostWebhook (Some data) -> In su (status_updates data) ->
     Json.truthy (field su "status" JNull) = true ->
     A (field su "status" JNull)) ->
  keeps I (handle E r).
Proof.
  intros Hw. unfold handle, authenticated, admin_only.
  destruct (target r) eqn:Ht.
  all: try (apply keeps_bind;
            [apply keeps_get_current_user; keeps_side|intros cu]).
  all: try (apply keeps_bind; [apply keeps_get_admin_user|intros adm]).
  - apply (login_keeps_logs E (Forall (fun l => A (l_status l)))).
  - apply (logout_keeps_logs E (Forall (fun l => A (l_status l)))).
  - apply (change_password_keeps_logs E (Forall (fun l => A (l_status l)))).
  - apply (create_user_keeps_logs E (Forall (fun l => A (l_status l)))).
  - apply (update_user_keeps_logs E (Forall (fun l => A (l_status l)))).
  - apply (delete_user_keeps_logs E (Forall (fun l => A (l_status l)))).
  - apply (create_template_keeps_logs E (Forall (fun l => A (l_status l)))).
  - apply (update_template_keeps_logs E (Forall (fun l => A (l_status l)))).
  - apply (delete_template_keeps_logs E (Forall (fun l => A (l_status l)))).
  - apply (approve_template_keeps_logs E (Forall (fun l => A (l_status l)))).
  - apply send_single_statuses.
  - apply send_bulk_statuses.
  - apply (get_campaign_detail_keeps_logs (Forall (fun l => A (l_status l)))).
  - apply receive_webhook_keeps. intros data su -> Hsu.
    apply process_status_update_statuses. apply (Hw data su eq_refl Hsu).
Qed.

End Statuses.

Lemma webhook_payloads_cons r rs :
  webhook_payloads (r :: rs) = webhook_payloads [r] ++ webhook_payloads rs.
Proof.
  unfold webhook_payloads. simpl.
  destruct (target r) as [| | | | | | | | | | | | |[data|]]; reflexivity.
Qed.

Lemma explained_status_mono W W' v :
  (forall d, In d W -> In d W') ->
  explained_status W v -> explained_status W' v.
Proof.
  intros HW [H | [H | (d & Hd & Hv)]]; unfold explained_status; auto.
  right. right. exists d. auto.
Qed.

Lemma handle_explained E W r s :
  logs_explained W s ->
  logs_explained (W ++ webhook_payloads [r]) (snd (handle E r s)).
Proof.
  intros Hs.
  apply (handle_statuses E (explained_status (W ++ webhook_payloads [r]))).
  - left. reflexivity.
  - right. left. reflexivity.
  - intros data su Ht Hsu Htr. right. right. exists data. split.
    + apply in_or_app. right. unfold webhook_payloads. simpl. rewrite Ht.
      left. reflexivity.
    + exists su. auto.
  - eapply Forall_impl; [exact Hs|]. intros l.
    apply explained_status_mono. intros d Hd. apply in_or_app. left. exact Hd.
Qed.

Lemma run_explained E rs :
  forall W s,
    logs_explained W s ->
    logs_explained (W ++ webhook_payloads rs) (run E rs s).
Proof.
  induction rs as [|r rs IH]; intros W s Hs.
  - simpl. rewrite app_nil_r. exact Hs.
  - rewrite webhook_payloads_cons, app_assoc. simpl.
    apply IH. apply handle_explained. exact Hs.
Qed.

Lemma init_has_no_logs E : message_logs (init E) = [].
Proof. reflexivity. Qed.

(** C6, as stated, fails: the webhook handler stores whatever status the
    provider reports, here "deleted", which is none of the four listed
    values. *)
Lemma status_outside_listed_values :
  let s := run demo_env deleted_trace (init demo_env) in
  reachable demo_env s
  /\ map l_status (message_logs s) = [JStr "deleted"]
  /\ ~ Forall (fun l => listed_status (l_status l)) (message_logs s).
Proof.
  intros s.
  assert (Hst : map l_status (message_logs s) = [JStr "deleted"])
    by (vm_compute; reflexivity).
  split; [apply run_reachable; constructor|].
  split; [exact Hst|].
  intros H. apply (List.Forall_map l_status listed_status) in H.
  rewrite Hst in H. inversion H as [|x l Hx _]; subst.
  destruct Hx as [Hx | [Hx | [Hx | Hx]]]; discriminate Hx.
Qed.

(** C6 (amended): in every store reached from the seeded one, the status
    of a MessageLog is sent or failed, as the send handlers write it, or
    a non-empty status value that a status update of a received webhook
    body carried: delivered and read are written by the webhook handler
    only, but the webhook handler is not limited to them.  Without a
    webhook body every status is sent or failed. *)
Theorem status_written_by_send_or_webhook E rs l :
  In l (message_logs (run E rs (init E))) ->
  (sent_or_failed l
   \/ exists data, In data (webhook_payloads rs)
                   /\ webhook_status data (l_status l))
  /\ (webhook_payloads rs = [] -> sent_or_failed l).
Proof.
  intros Hl.
  assert (H0 : logs_explained [] (init E)).
  { unfold logs_explained. rewrite init_has_no_logs. constructor. }
  pose proof (run_explained E rs [] (init E) H0) as H. simpl in H.
  unfold logs_explained in H. rewrite List.Forall_forall in H.
  specialize (H l Hl).
  assert (Hmain : sent_or_failed l
                  \/ exists data, In data (webhook_payloads rs)
                                  /\ webhook_status data (l_status l)).
  { destruct H as [H | [H | H]]; [left; left; exact H|left; right; exact H|].
    right. exact H. }
  split; [exact Hmain|].
  intros Hnil. destruct Hmain as [H1 | (d & Hd & _)]; [exact H1|].
  rewrite Hnil in Hd. destruct Hd.
Qed.

Lemma status_written_by_send_or_webhook_witness :
  (sent_or_failed delivered_log
   \/ exists data, In data (webhook_payloads delivered_trace)
                   /\ webhook_status data (l_status delivered_log))
  /\ (webhook_payloads delivered_trace = [] -> sent_or_failed delivered_log).
Proof.
  apply (status_written_by_send_or_webhook demo_env delivered_trace delivered_log).
  vm_compute. left. reflexivity.
Defined.

Lemma one_send_logs :
  message_logs (run demo_env one_send (init demo_env)) = [sent_log].
Proof. vm_compute. reflexivity. Qed.

Lemma webhook_unknown_ids_change_nothing_witness :
  let s := run demo_env one_send (init demo_env) in
  let '(resp, s') := receive_webhook demo_env (Some stray_event) s in
  resp = Ok (RWebhook "ok")
  /\ message_logs s' = message_logs s
  /\ users s' = users s /\ templates s' = templates s
  /\ campaigns s' = campaigns s.
Proof.
  apply (webhook_unknown_ids_change_nothing demo_env (Some stray_event)
           (run demo_env one_send (init demo_env))).
  intros data [= <-] su l Hsu Hl.
  rewrite one_send_logs in Hl.
  destruct Hsu as [<- | []]. destruct Hl as [<- | []].
  reflexivity.
Defined.

(** ** Tokens *)

Section Tokens.
Variable E : Env.

Lemma jwt_decode_encode c now :
  c_iat c * 1000000 <= now -> now < c_exp c * 1000000 ->
  jwt_decode E (jwt_encode E c (SECRET_KEY E)) (SECRET_KEY E) now = inl c.
Proof.
  intros Hiat Hexp. unfold jwt_decode, jwt_encode.
  rewrite String.eqb_refl. cbn [negb].
  destruct (Z.ltb_spec now (c_iat c * 1000000)); [lia|].
  destruct (Z.leb_spec (c_exp c * 1000000) now); [lia|].
  reflexivity.
Qed.

Lemma decode_token_valid c s :
  valid_at (jwt_encode E c (SECRET_KEY E)) (utcnow E (ticks s)) ->
  fst (_decode_token E (jwt_encode E c (SECRET_KEY E)) s)
  = Ok {| user_id := c_user_id c; username := c_username c; role := c_role c |}.
Proof.
  intros [Hiat Hexp]. unfold _decode_token, bind, tick. cbn [fst snd].
  rewrite (jwt_decode_encode c _ Hiat Hexp). reflexivity.
Qed.

Lemma get_current_user_valid c cookie s :
  valid_at (jwt_encode E c (SECRET_KEY E)) (utcnow E (ticks s)) ->
  fst (get_current_user E (Some (jwt_encode E c (SECRET_KEY E))) cookie s)
  = Ok {| user_id := c_user_id c; username := c_username c; role := c_role c |}.
Proof.
  intros H. unfold get_current_user. cbn [jwt_encode token_truthy].
  apply (decode_token_valid c s H).
Qed.

Lemma generate_token_run uid uname urole s :
  exists c,
    generate_token E uid uname urole s
    = (Ok (jwt_encode E c (SECRET_KEY E)), with_ticks (S (S (ticks s))) s)
    /\ c_user_id c = uid /\ c_username c = uname /\ c_role c = urole
    /\ c_exp c = seconds (utcnow E (ticks s)
                          + JWT_EXPIRY_HOURS E * 3600 * 1000000)
    /\ c_iat c = seconds (utcnow E (S (ticks s))).
Proof.
  eexists. split; [reflexivity|]. cbn. repeat split.
Qed.

(** What a successful login has done. *)
Lemma login_run body h s tok u s1 :
  login E body h s = (Ok (RLogin tok u), s1) ->
  exists user c,
    find_first (login_match (PyStr.strip (lr_username body))) (users s)
    = Some user
    /\ check_password_hash E (u_password_hash user) (lr_password body) = true
    /\ tok = jwt_encode E c (SECRET_KEY E)
    /\ c_user_id c = u_id user /\ c_username c = u_username user
    /\ c_role c = u_role user
    /\ lu_id u = u_id user /\ lu_username u = u_username user
    /\ lu_role u = u_role user.
Proof.
  unfold login.
  destruct (negb (PyStr.truthy (PyStr.strip (lr_username body)))
            || negb (PyStr.truthy (lr_password body))); [discriminate|].
  unfold bind at 1, gets at 1.
  destruct (find_first (login_match (PyStr.strip (lr_username body))) (users s))
    as [user|] eqn:Hfind; [|discriminate].
  destruct (check_password_hash E (u_password_hash user) (lr_password body))
    eqn:Hpw; cbn [negb]; [|discriminate].
  unfold bind, now_iso, tick, modify, generate_token, log_activity, _auto_id,
    ret, gets. cbn -[jwt_encode pretty].
  intros [= <- <- _].
  eexists user, _. split; [reflexivity|]. split; [exact Hpw|].
  split; [reflexivity|]. cbn. repeat split.
Qed.

(** C8: the token [generate_token] produces carries the user id, the
    username and the role it was given and, decoded with the same secret
    within its validity (not before its issue, before its expiry), yields
    exactly these three; hence the token of a successful login is
    accepted by [get_current_user] and maps back to the identity of the
    user who logged in. *)
Theorem token_round_trip :
  (forall uid uname urole s,
     exists tok s1,
       generate_token E uid uname urole s = (Ok tok, s1)
       /\ forall s2,
            valid_at tok (utcnow E (ticks s2)) ->
            fst (_decode_token E tok s2)
            = Ok {| user_id := uid; username := uname; role := urole |})
  /\ (forall body h s tok u s1,
        login E body h s = (Ok (RLogin tok u), s1) ->
        (exists user,
           find_first (login_match (PyStr.strip (lr_username body))) (users s)
           = Some user
           /\ identity_of u
              = {| user_id := u_id user; username := u_username user;
                   role := u_role user |})
        /\ forall cookie s2,
             valid_at tok (utcnow E (ticks s2)) ->
             fst (get_current_user E (Some tok) cookie s2)
             = Ok (identity_of u)).
Proof.
  split.
  - intros uid uname urole s.
    destruct (generate_token_run uid uname urole s)
      as (c & Hrun & Hid & Hname & Hrole & _).
    eexists _, _. split; [exact Hrun|].
    intros s2 Hv. rewrite (decode_token_valid c s2 Hv).
    rewrite Hid, Hname, Hrole. reflexivity.
  - intros body h s tok u s1 Hlogin.
    destruct (login_run body h s tok u s1 Hlogin)
      as (user & c & Hfind & _ & -> & Hid & Hname & Hrole & Hlid & Hlname
          & Hlrole).
    split.
    + exists user. split; [exact Hfind|].
      unfold identity_of. rewrite Hlid, Hlname, Hlrole. reflexivity.
    + intros cookie s2 Hv. rewrite (get_current_user_valid c cookie s2 Hv).
      unfold identity_of. rewrite Hid, Hname, Hrole, Hlid, Hlname, Hlrole.
      reflexivity.
Qed.

End Tokens.

Lemma admin_login_runs :
  login demo_env admin_login "127.0.0.1" (init demo_env) = admin_login_outcome.
Proof. vm_compute. reflexivity. Qed.

Lemma token_round_trip_witness :
  exists tok u s1,
    login demo_env admin_login "127.0.0.1" (init demo_env)
    = (Ok (RLogin tok u), s1)
    /\ fst (get_current_user demo_env (Some tok) None s1)
       = Ok {| user_id := 1; username := "admin"; role := "admin" |}.
Proof.
  pose proof admin_login_runs as H. unfold admin_login_outcome in H.
  eexists _, _, _. split; [exact H|].
  refine (proj2 (proj2 (token_round_trip demo_env) _ _ _ _ _ _ H) None _ _).
  unfold valid_at. cbn. lia.
Defined.

(** ** Templates and the button URL *)

(** *** Handlers that leave the templates alone *)

Section KeepsTemplates.
Variable E : Env.
Variable Q : list Template -> Prop.
Let I (s : Store) : Prop := Q (templates s).

Lemma login_keeps_templates b h : keeps I (login E b h).
Proof. unfold login. keeps_auto. Qed.

Lemma logout_keeps_templates h cu : keeps I (logout E h cu).
Proof. unfold logout. keeps_auto. Qed.

Lemma change_password_keeps_templates b h cu :
  keeps I (change_password E b h cu).
Proof. unfold change_password. keeps_auto. Qed.

Lemma create_user_keeps_templates b h cu : keeps I (create_user E b h cu).
Proof. unfold create_user. keeps_auto. Qed.

Lemma update_user_keeps_templates i b h cu : keeps I (update_user E i b h cu).
Proof. unfold update_user. keeps_auto. Qed.

Lemma delete_user_keeps_templates i h cu : keeps I (delete_user E i h cu).
Proof. unfold delete_user. keeps_auto. Qed.

Lemma send_single_keeps_templates b h cu :
  keeps I (send_single_message E b h cu).
Proof. unfold send_single_message, record_single. keeps_auto. Qed.

Lemma bulk_loop_keeps_templates tmpl tid cu recs a b c :
  keeps I (bulk_loop E tmpl tid cu recs a b c).
Proof.
  intros s Hs.
  destruct (bulk_loop_run E tmpl tid cu recs a b c s)
    as (news & items & s' & Hrun & _ & _ & _ & _ & _ & _ & Ht & _).
  rewrite Hrun. unfold I in *. rewrite Ht. exact Hs.
Qed.

Lemma send_bulk_keeps_templates f h cu : keeps I (send_bulk_message E f h cu).
Proof.
  unfold send_bulk_message.
  repeat first [ apply bulk_loop_keeps_templates | keeps_step ].
Qed.

Lemma get_campaign_detail_keeps_templates i cu :
  keeps I (get_campaign_detail i cu).
Proof. unfold get_campaign_detail. keeps_auto. Qed.

Lemma process_status_update_keeps_templates su :
  keeps I (process_status_update E su).
Proof.
  unfold process_status_update, get_or_raise, first_item, mutate_log.
  keeps_auto.
Qed.

Lemma receive_webhook_keeps_templates body : keeps I (receive_webhook E body).
Proof.
  apply receive_webhook_keeps. intros data su _ _.
  apply process_status_update_keeps_templates.
Qed.

End KeepsTemplates.

Lemma or_none_set s : or_none s <> Some EmptyString.
Proof. unfold or_none. destruct s; simpl; discriminate. Qed.

Lemma set_opt_set new old :
  old <> Some EmptyString -> set_opt new old <> Some EmptyString.
Proof. intros H. destruct new; simpl; [apply or_none_set|exact H]. Qed.

Lemma Forall_remove_first {A} (P : A -> Prop) p (l : list A) :
  Forall P l -> Forall P (remove_first p l).
Proof.
  induction 1 as [|x l Hx Hl IH]; simpl; [constructor|].
  destruct (p x); [exact Hl|constructor; assumption].
Qed.

Lemma init_templates E :
  templates (init E)
  = zip_with (fun mk i => mk i)
      (samples (isoformat E (utcnow E 2))) [1; 2; 3; 4].
Proof. reflexivity. Qed.

Section ButtonUrl.
Variable E : Env.
Let I (s : Store) : Prop := Forall url_set_or_none (templates s).

Lemma create_template_keeps_urls b h cu : keeps I (create_template E b h cu).
Proof.
  unfold create_template. keeps_auto.
  apply keeps_modify. intros s Hs. unfold I in *. simpl.
  apply Forall_app. split; [exact Hs|].
  constructor; [apply or_none_set|constructor].
Qed.

Lemma update_template_keeps_urls i b h cu :
  keeps I (update_template E i b h cu).
Proof.
  unfold update_template. keeps_auto.
  apply keeps_modify. intros s Hs. unfold I in *. simpl.
  apply Forall_update_first; [|exact Hs].
  intros x Hx. apply set_opt_set. exact Hx.
Qed.

Lemma delete_template_keeps_urls i h cu :
  keeps I (delete_template E i h cu).
Proof.
  unfold delete_template. keeps_auto.
  apply keeps_modify. intros s Hs. unfold I in *. simpl.
  apply Forall_remove_first. exact Hs.
Qed.

Lemma approve_template_keeps_urls i h cu :
  keeps I (approve_template E i h cu).
Proof.
  unfold approve_template. keeps_auto.
  apply keeps_modify. intros s Hs. unfold I in *. simpl.
  apply Forall_update_first; [|exact Hs].
  intros x Hx. exact Hx.
Qed.

Lemma handle_keeps_urls r : keeps I (handle E r).
Proof.
  unfold handle, authenticated, admin_only.
  destruct (target r).
  all: try (apply keeps_bind;
            [apply keeps_get_current_user; keeps_side|intros cu]).
  all: try (apply keeps_bind; [apply keeps_get_admin_user|intros adm]).
  - apply (login_keeps_templates E (Forall url_set_or_none)).
  - apply (logout_keeps_templates E (Forall url_set_or_none)).
  - apply (change_password_keeps_templates E (Forall url_set_or_none)).
  - apply (create_user_keeps_templates E (Forall url_set_or_none)).
  - apply (update_user_keeps_templates E (Forall url_set_or_none)).
  - apply (delete_user_keeps_templates E (Forall url_set_or_none)).
  - apply create_template_keeps_urls.
  - apply update_template_keeps_urls.
  - apply delete_template_keeps_urls.
  - apply approve_template_keeps_urls.
  - apply (send_single_keeps_templates E (Forall url_set_or_none)).
  - apply (send_bulk_keeps_templates E (Forall url_set_or_none)).
  - apply (get_campaign_detail_keeps_templates (Forall url_set_or_none)).
  - apply (receive_webhook_keeps_templates E (Forall url_set_or_none)).
Qed.

(** In every reachable store a button URL is absent or non-empty. *)
Lemma reachable_urls s : reachable E s -> Forall url_set_or_none (templates s).
Proof.
  induction 1 as [|r s Hs IH].
  - rewrite init_templates. unfold samples. cbn [zip_with].
    repeat (constructor; [unfold url_set_or_none; simpl; discriminate|]).
    constructor.
  - apply handle_keeps_urls. exact IH.
Qed.

End ButtonUrl.

(** *** The payloads of single and bulk sends *)

Lemma bulk_payload_has_no_button E tmpl rec :
  has_url_button (bulk_payload E tmpl rec) = false.
Proof.
  unfold bulk_payload, has_url_button, build_components.
  destruct (default [] (item_texts E rec)); reflexivity.
Qed.

Lemma single_payload_has_button E tmpl body u :
  t_button_url tmpl = Some u -> u <> EmptyString ->
  has_url_button (single_payload E tmpl body) = true.
Proof.
  intros Hu Hne. unfold single_payload, has_url_button, build_components.
  rewrite Hu. destruct u as [|c u]; [congruence|]. cbn [PyStr.truthy].
  rewrite existsb_app. cbn. apply orb_true_r.
Qed.

(** What a single template send that passes its checks hands to the
    gateway. *)
Lemma send_single_template_run E body h cu s tid tmpl :
  PyStr.truthy (PyStr.strip (sm_phone body)) = true ->
  Phone.validate_phone (PyStr.strip (sm_phone body)) = true ->
  sm_type body = "template" ->
  sm_template_id body = Some tid ->
  tid <> 0 ->
  find_first (tmpl_has_id tid) (templates s) = Some tmpl ->
  exists resp s',
    send_single_message E body h cu s = (Ok resp, s')
    /\ posted s' = posted s ++ [single_payload E tmpl body].
Proof.
  intros Htr Hval Hty Hid Hnz Hfind.
  unfold send_single_message. rewrite Htr, Hval, Hty, Hid.
  apply Z.eqb_neq in Hnz. cbn [negb String.eqb Ascii.eqb Bool.eqb
                                id_truthy andb default from_option id].
  rewrite Hnz. cbn [negb andb].
  unfold bind at 1, gets at 1. cbv beta. rewrite Hfind.
  unfold bind at 1.
  destruct (send_template_run E (PyStr.strip (sm_phone body))
              (t_name tmpl) (sm_variables body) (t_language tmpl)
              (t_button_url tmpl) s) as [res ->].
  unfold record_single, bind, now_iso, tick, _auto_id, modify, log_activity,
    ret. cbn -[pretty].
  eexists _, _. split; reflexivity.
Qed.

(** Whatever the form, a bulk send hands only payloads without a URL
    button to the gateway. *)
Lemma bulk_loop_posts_no_button E tmpl tid cu recs a b c s0 :
  keeps (fun s => exists new,
           posted s = posted s0 ++ new
           /\ Forall (fun p => has_url_button p = false) new)
        (bulk_loop E tmpl tid cu recs a b c).
Proof.
  intros s (new & Hs & Hnew).
  destruct (bulk_loop_run E tmpl tid cu recs a b c s)
    as (news & items & s' & -> & _ & _ & _ & _ & Hpost & _).
  exists (new ++ map (bulk_payload E tmpl)
                     (List.filter phone_ok (readable E recs))).
  split; [rewrite Hpost, Hs, app_assoc; reflexivity|].
  apply Forall_app. split; [exact Hnew|].
  apply List.Forall_forall. intros p Hp.
  apply in_map_iff in Hp as (rec & <- & _).
  apply bulk_payload_has_no_button.
Qed.

Lemma send_bulk_posts_no_button E form h cu s0 :
  keeps (fun s => exists new,
           posted s = posted s0 ++ new
           /\ Forall (fun p => has_url_button p = false) new)
        (send_bulk_message E form h cu).
Proof.
  unfold send_bulk_message.
  repeat first [ apply bulk_loop_posts_no_button | keeps_step ].
Qed.

(** C9: a bulk send never forwards the template's button URL: every
    payload it hands to the gateway is without a URL-button component,
    even when the template has a button URL, whereas a single send of
    the same template attaches it; so whenever the button URL is set,
    the payloads of a single and of a bulk send of that template
    differ, whatever the recipient and the variables. *)
Theorem bulk_send_omits_button_url E s form h cu recs tid tmpl u :
  reachable E s ->
  resolve_recipients form = Some (JArr recs) ->
  recs <> [] ->
  bk_template_id form = Some tid ->
  tid <> 0 ->
  find_first (tmpl_has_id tid) (templates s) = Some tmpl ->
  t_button_url tmpl = Some u ->
  (exists s',
     snd (send_bulk_message E form h cu s) = s'
     /\ posted s'
        = posted s ++ map (bulk_payload E tmpl)
                          (List.filter phone_ok (readable E recs))
     /\ Forall (fun p => has_url_button p = false)
               (map (bulk_payload E tmpl)
                    (List.filter phone_ok (readable E recs)))
     /\ (forallb (well_formed E) recs = true ->
         readable E recs = recs
         /\ exists resp, fst (send_bulk_message E form h cu s) = Ok resp))
  /\ (forall form',
        exists new,
          posted (snd (send_bulk_message E form' h cu s)) = posted s ++ new
          /\ Forall (fun p => has_url_button p = false) new)
  /\ (forall body,
        PyStr.truthy (PyStr.strip (sm_phone body)) = true ->
        Phone.validate_phone (PyStr.strip (sm_phone body)) = true ->
        sm_type body = "template" ->
        sm_template_id body = Some tid ->
        (exists resp s',
           send_single_message E body h cu s = (Ok resp, s')
           /\ posted s' = posted s ++ [single_payload E tmpl body])
        /\ has_url_button (single_payload E tmpl body) = true
        /\ forall rec, bulk_payload E tmpl rec <> single_payload E tmpl body).
Proof.
  intros Hreach Hres Hne Htid Hnz Hfind Hu.
  assert (Hset : u <> EmptyString).
  { pose proof (reachable_urls E s Hreach) as Hall.
    rewrite List.Forall_forall in Hall.
    apply find_some in Hfind as [Hin _].
    specialize (Hall tmpl Hin). unfold url_set_or_none in Hall.
    intros ->. apply Hall. exact Hu. }
  split; [|split].
  - destruct (send_bulk_message_run E form h cu s recs tid tmpl
                Hres Hne Htid Hnz Hfind)
      as (news & items & s' & Hrun & _ & _ & _ & _ & Hpost & _ & _ & Hokr
          & _).
    exists s'. split; [exact Hrun|]. split; [exact Hpost|]. split.
    + apply List.Forall_forall. intros p Hp.
      apply in_map_iff in Hp as (rec & <- & _).
      apply bulk_payload_has_no_button.
    + intros Hall. split; [apply readable_all, Hall|].
      destruct (Hokr Hall) as (sent & failed & ts & Hfst & _). eauto.
  - intros form'. apply (send_bulk_posts_no_button E form' h cu s).
    exists []. rewrite app_nil_r. split; [reflexivity|constructor].
  - intros body Htr Hval Hty Hid.
    split; [exact (send_single_template_run E body h cu s tid tmpl
                     Htr Hval Hty Hid Hnz Hfind)|].
    pose proof (single_payload_has_button E tmpl body u Hu Hset) as Hb.
    split; [exact Hb|].
    intros rec Heq. pose proof (bulk_payload_has_no_button E tmpl rec) as Hn.
    rewrite Heq, Hb in Hn. discriminate Hn.
Qed.

Lemma bulk_send_omits_button_url_witness :
  (exists resp s',
     send_bulk_message demo_env three_recipients "127.0.0.1" admin_identity
       (init demo_env) = (Ok resp, s')
     /\ posted s'
        = posted (init demo_env)
          ++ map (bulk_payload demo_env group_invite)
               [rcpt "+91 98765-43210" "Asha"; rcpt "9876543211" "Chitra"]
     /\ Forall (fun p => has_url_button p = false)
               (map (bulk_payload demo_env group_invite)
                  [rcpt "+91 98765-43210" "Asha"; rcpt "9876543211" "Chitra"]))
  /\ has_url_button
       (single_payload demo_env group_invite
                       (invite "+91 98765-43210" "Asha")) = true
  /\ bulk_payload demo_env group_invite (rcpt "+91 98765-43210" "Asha")
     <> single_payload demo_env group_invite
                       (invite "+91 98765-43210" "Asha").
Proof.
  destruct (bulk_send_omits_button_url demo_env (init demo_env)
              three_recipients "127.0.0.1" admin_identity
              [ rcpt "+91 98765-43210" "Asha"; rcpt "not-a-phone" "Bela";
                rcpt "9876543211" "Chitra" ]
              2 group_invite "https://chat.whatsapp.com/example")
    as ((s' & Hs' & Hpost & Hnb & Hok) & _ & Hsingle);
    [constructor | reflexivity | discriminate | reflexivity | lia
    | reflexivity | reflexivity |].
  split.
  { destruct (Hok eq_refl) as (_ & resp & Hfst).
    exists resp, s'. split; [|split; [exact Hpost|exact Hnb]].
    rewrite (surjective_pairing
               (send_bulk_message demo_env three_recipients "127.0.0.1"
                                  admin_identity (init demo_env))),
      Hfst, Hs'. reflexivity. }
  destruct (Hsingle (invite "+91 98765-43210" "Asha"))
    as (_ & Hb & Hd); [reflexivity | reflexivity | reflexivity | reflexivity|].
  split; [exact Hb|apply Hd].
Defined.

(** ** The campaign detail *)












Lemma mixed_store_reached :
  run demo_env mixed_trace (init demo_env) = mixed_store.
Proof. vm_compute. reflexivity. Qed.


(** ** Usernames stay unique *)

(** *** Handlers that leave the users alone *)

Section KeepsUsers.
Variable E : Env.
Variable Q : list User -> Prop.
Let I (s : Store) : Prop := Q (users s).

Lemma logout_keeps_users h cu : keeps I (logout E h cu).
Proof. unfold logout. keeps_auto. Qed.

Lemma create_template_keeps_users b h cu : keeps I (create_template E b h cu).
Proof. unfold create_template. keeps_auto. Qed.

Lemma update_template_keeps_users i b h cu :
  keeps I (update_template E i b h cu).
Proof. unfold update_template. keeps_auto. Qed.

Lemma delete_template_keeps_users i h cu : keeps I (delete_template E i h cu).
Proof. unfold delete_template. keeps_auto. Qed.

Lemma approve_template_keeps_users i h cu :
  keeps I (approve_template E i h cu).
Proof. unfold approve_template. keeps_auto. Qed.

Lemma send_single_keeps_users b h cu : keeps I (send_single_message E b h cu).
Proof. unfold send_single_message, record_single. keeps_auto. Qed.

Lemma bulk_loop_keeps_users tmpl tid cu recs a b c :
  keeps I (bulk_loop E tmpl tid cu recs a b c).
Proof.
  intros s Hs.
  destruct (bulk_loop_run E tmpl tid cu recs a b c s)
    as (news & items & s' & Hrun & _ & _ & _ & _ & _ & Hu & _).
  rewrite Hrun. unfold I in *. rewrite Hu. exact Hs.
Qed.

Lemma send_bulk_keeps_users f h cu : keeps I (send_bulk_message E f h cu).
Proof.
  unfold send_bulk_message.
  repeat first [ apply bulk_loop_keeps_users | keeps_step ].
Qed.

Lemma get_campaign_detail_keeps_users i cu : keeps I (get_campaign_detail i cu).
Proof. unfold get_campaign_detail. keeps_auto. Qed.

Lemma receive_webhook_keeps_users body : keeps I (receive_webhook E body).
Proof.
  apply receive_webhook_keeps. intros data su _ _.
  unfold process_status_update, get_or_raise, first_item, mutate_log.
  keeps_auto.
Qed.

End KeepsUsers.

Lemma map_update_first {A B} (g : A -> B) p f (l : list A) :
  (forall x, g (f x) = g x) -> map g (update_first p f l) = map g l.
Proof.
  intros Hf. induction l as [|x l IH]; simpl; [reflexivity|].
  destruct (p x); simpl; [rewrite Hf|rewrite IH]; reflexivity.
Qed.

Lemma existsb_username_false uname us :
  existsb (fun u => String.eqb (u_username u) uname) us = false ->
  ~ In uname (map u_username us).
Proof.
  induction us as [|u us IH]; simpl; [tauto|].
  intros H. apply orb_false_iff in H as [Hu Hus].
  apply String.eqb_neq in Hu. intros [Heq | Hin]; [congruence|].
  exact (IH Hus Hin).
Qed.

Section Usernames.
Variable E : Env.

Lemma update_first_keeps_usernames p f :
  (forall u, u_username (f u) = u_username u) ->
  keeps usernames_unique
        (modify (fun s => with_users (update_first p f (users s)) s)).
Proof.
  intros Hf. apply keeps_modify. intros s Hs.
  unfold usernames_unique in *. simpl.
  rewrite map_update_first; assumption.
Qed.

Lemma login_keeps_usernames b h : keeps usernames_unique (login E b h).
Proof.
  unfold login.
  repeat first [ apply update_first_keeps_usernames; reflexivity | keeps_step ].
Qed.

Lemma change_password_keeps_usernames b h cu :
  keeps usernames_unique (change_password E b h cu).
Proof.
  unfold change_password.
  repeat first [ apply update_first_keeps_usernames; reflexivity | keeps_step ].
Qed.

Lemma update_user_keeps_usernames i b h cu :
  keeps usernames_unique (update_user E i b h cu).
Proof.
  unfold update_user.
  repeat first [ apply update_first_keeps_usernames; reflexivity | keeps_step ].
Qed.

Lemma delete_user_keeps_usernames i h cu :
  keeps usernames_unique (delete_user E i h cu).
Proof.
  unfold delete_user.
  repeat first [ apply update_first_keeps_usernames; reflexivity | keeps_step ].
Qed.

Lemma create_user_keeps_usernames b h cu :
  keeps usernames_unique (create_user E b h cu).
Proof.
  intros s Hs. unfold create_user. cbv zeta.
  repeat match goal with
         | |- context [if ?c then raise _ _ else _] =>
             lazymatch c with
             | (MAX_USERS <=? _)%nat => fail
             | existsb _ _ => fail
             | _ => destruct c; [exact Hs|]
             end
         end.
  unfold bind at 1, gets at 1. cbv beta iota.
  destruct (MAX_USERS <=? active_count (users s))%nat; [exact Hs|].
  destruct (existsb (fun u => String.eqb (u_username u)
                                (PyStr.lower (PyStr.strip (cu_username b))))
                    (users s)) eqn:Hname; [exact Hs|].
  destruct (existsb (fun u => String.eqb (u_email u) _) (users s));
    [exact Hs|].
  unfold bind, now_iso, tick, _auto_id, modify, log_activity, ret.
  cbn -[pretty]. unfold usernames_unique in *. cbn -[pretty].
  rewrite map_app. cbn [map].
  apply NoDup_app. split; [exact Hs|]. split.
  - intros x Hx Hk. apply list_elem_of_In in Hx. apply list_elem_of_In in Hk.
    destruct Hk as [Hk | []]. subst x.
    exact (existsb_username_false _ _ Hname Hx).
  - apply NoDup_singleton.
Qed.

Lemma handle_keeps_usernames r : keeps usernames_unique (handle E r).
Proof.
  unfold handle, authenticated, admin_only.
  destruct (target r).
  all: try (apply keeps_bind;
            [apply keeps_get_current_user; keeps_side|intros cu]).
  all: try (apply keeps_bind; [apply keeps_get_admin_user|intros adm]).
  - apply login_keeps_usernames.
  - apply (logout_keeps_users E (fun us => NoDup (map u_username us))).
  - apply change_password_keeps_usernames.
  - apply create_user_keeps_usernames.
  - apply update_user_keeps_usernames.
  - apply delete_user_keeps_usernames.
  - apply (create_template_keeps_users E (fun us => NoDup (map u_username us))).
  - apply (update_template_keeps_users E (fun us => NoDup (map u_username us))).
  - apply (delete_template_keeps_users E (fun us => NoDup (map u_username us))).
  - apply (approve_template_keeps_users E (fun us => NoDup (map u_username us))).
  - apply (send_single_keeps_users E (fun us => NoDup (map u_username us))).
  - apply (send_bulk_keeps_users E (fun us => NoDup (map u_username us))).
  - apply (get_campaign_detail_keeps_users (fun us => NoDup (map u_username us))).
  - apply (receive_webhook_keeps_users E (fun us => NoDup (map u_username us))).
Qed.

(** The username half of the uniqueness invariant holds: in every
    reachable store no two users share a username. *)
Lemma reachable_usernames_unique s : reachable E s -> usernames_unique s.
Proof.
  induction 1 as [|r s Hs IH].
  - unfold usernames_unique. cbn. apply NoDup_singleton.
  - apply handle_keeps_usernames. exact IH.
Qed.

End Usernames.


(** * Further properties of the code *)

(** ** Phones *)

Lemma digit_not_space c : PyStr.is_digit c = true -> PyStr.is_space c = false.
Proof.
  destruct c as [[] [] [] [] [] [] [] []]; vm_compute; congruence.
Qed.

Lemma digit_not_separator c :
  PyStr.is_digit c = true ->
  Ascii.eqb " " c = false /\ Ascii.eqb "-" c = false /\ Ascii.eqb "+" c = false.
Proof.
  destruct c as [[] [] [] [] [] [] [] []]; vm_compute; intuition congruence.
Qed.

Lemma rstrip_no_space s :
  PyStr.all_chars (fun c => negb (PyStr.is_space c)) s = true ->
  PyStr.rstrip s = s.
Proof.
  induction s as [|c s IH]; simpl; [reflexivity|].
  intros H. apply andb_true_iff in H as [Hc Hs]. rewrite (IH Hs).
  destruct s; [|reflexivity].
  apply negb_true_iff in Hc. rewrite Hc. reflexivity.
Qed.

Lemma all_chars_impl (p q : ascii -> bool) s :
  (forall c, p c = true -> q c = true) ->
  PyStr.all_chars p s = true -> PyStr.all_chars q s = true.
Proof.
  intros Hpq. induction s as [|c s IH]; simpl; [reflexivity|].
  intros H. apply andb_true_iff in H as [Hc Hs].
  rewrite (Hpq c Hc), (IH Hs). reflexivity.
Qed.

Lemma strip_digits s :
  PyStr.all_chars PyStr.is_digit s = true -> PyStr.strip s = s.
Proof.
  intros H. unfold PyStr.strip.
  assert (Hl : PyStr.lstrip s = s).
  { destruct s as [|c s]; [reflexivity|]. simpl in *.
    apply andb_true_iff in H as [Hc _].
    rewrite (digit_not_space c Hc). reflexivity. }
  rewrite Hl. apply rstrip_no_space.
  apply (all_chars_impl PyStr.is_digit); [|exact H].
  intros c Hc. rewrite (digit_not_space c Hc). reflexivity.
Qed.

Lemma remove_char_absent c s :
  PyStr.all_chars (fun d => negb (Ascii.eqb c d)) s = true ->
  PyStr.remove_char c s = s.
Proof.
  induction s as [|d s IH]; simpl; [reflexivity|].
  intros H. apply andb_true_iff in H as [Hd Hs].
  apply negb_true_iff in Hd. rewrite Hd, (IH Hs). reflexivity.
Qed.

Lemma cleaned_digits s :
  PyStr.all_chars PyStr.is_digit s = true -> Phone.cleaned s = s.
Proof.
  intros H. unfold Phone.cleaned. rewrite (strip_digits s H).
  assert (Hsep : forall c, PyStr.is_digit c = true ->
                           negb (Ascii.eqb " " c) = true
                           /\ negb (Ascii.eqb "-" c) = true
                           /\ negb (Ascii.eqb "+" c) = true).
  { intros c Hc. destruct (digit_not_separator c Hc) as (H1 & H2 & H3).
    rewrite H1, H2, H3. auto. }
  rewrite (remove_char_absent " " s).
  2:{ apply (all_chars_impl PyStr.is_digit); [|exact H].
      intros c Hc. apply (Hsep c Hc). }
  rewrite (remove_char_absent "-" s).
  2:{ apply (all_chars_impl PyStr.is_digit); [|exact H].
      intros c Hc. apply (Hsep c Hc). }
  apply remove_char_absent.
  apply (all_chars_impl PyStr.is_digit); [|exact H].
  intros c Hc. apply (Hsep c Hc).
Qed.

Lemma isdigit_all_chars s :
  PyStr.isdigit s = true -> PyStr.all_chars PyStr.is_digit s = true.
Proof. destruct s; [discriminate|]. auto. Qed.

Lemma validate_phone_digits p :
  Phone.validate_phone p = true ->
  PyStr.all_chars PyStr.is_digit (Phone.cleaned p) = true
  /\ (7 <= String.length (Phone.cleaned p) <= 15)%nat.
Proof.
  unfold Phone.validate_phone. intros H.
  apply andb_true_iff in H as [H Hmax].
  apply andb_true_iff in H as [Hd Hmin].
  apply Nat.leb_le in Hmax, Hmin.
  split; [apply isdigit_all_chars, Hd|lia].
Qed.

(** X1: the number handed to the provider for a phone that passes
    validation consists of digits only and has 7 to 15 of them;
    normalising it again changes nothing, and it passes validation
    itself. *)
Theorem valid_phone_normalizes_to_digits (p : string) :
  Phone.validate_phone p = true ->
  let n := Phone._normalize_phone p in
  PyStr.isdigit n = true
  /\ (7 <= String.length n <= 15)%nat
  /\ Phone._normalize_phone n = n
  /\ Phone.validate_phone n = true.
Proof.
  intros Hv n. destruct (validate_phone_digits p Hv) as [Hd Hlen].
  assert (Hn : PyStr.all_chars PyStr.is_digit n = true
               /\ (7 <= String.length n <= 15)%nat
               /\ (String.length n = 10%nat -> PyStr.startswith n "91" = true)).
  { unfold n, Phone._normalize_phone.
    destruct (PyStr.startswith (Phone.cleaned p) "91") eqn:Hpre;
      cbn [negb andb].
    - repeat split; try lia; auto.
    - destruct (String.length (Phone.cleaned p) =? 10)%nat eqn:Hten.
      + apply Nat.eqb_eq in Hten.
        change ("91" +:+ Phone.cleaned p)
          with (String "9" (String "1" (Phone.cleaned p))).
        split; [simpl; rewrite Hd; reflexivity|].
        cbn [String.length]. split; [lia|]. intros Heq. lia.
      + apply Nat.eqb_neq in Hten. repeat split; try lia; auto. }
  destruct Hn as (Hnd & Hnlen & Hn10).
  assert (Hnz : n <> EmptyString).
  { intros Heq. rewrite Heq in Hnlen. simpl in Hnlen. lia. }
  assert (Hisd : PyStr.isdigit n = true).
  { unfold PyStr.isdigit. destruct n; [congruence|exact Hnd]. }
  split; [exact Hisd|]. split; [exact Hnlen|].
  split.
  - unfold Phone._normalize_phone. rewrite (cleaned_digits n Hnd).
    destruct (String.length n =? 10)%nat eqn:Hten.
    + apply Nat.eqb_eq in Hten. rewrite (Hn10 Hten). reflexivity.
    + rewrite andb_false_r. reflexivity.
  - unfold Phone.validate_phone. rewrite (cleaned_digits n Hnd), Hisd.
    cbn [andb]. apply andb_true_iff. split; apply Nat.leb_le; lia.
Qed.

Lemma valid_phone_normalizes_to_digits_witness :
  PyStr.isdigit (Phone._normalize_phone "+98765 43210") = true
  /\ (7 <= String.length (Phone._normalize_phone "+98765 43210") <= 15)%nat
  /\ Phone._normalize_phone (Phone._normalize_phone "+98765 43210")
     = Phone._normalize_phone "+98765 43210"
  /\ Phone.validate_phone (Phone._normalize_phone "+98765 43210") = true.
Proof.
  apply (valid_phone_normalizes_to_digits "+98765 43210"). reflexivity.
Defined.

(** ** The gateway client *)

(** How [_post] reads the message id out of a reply. *)
Lemma reply_message_id_cases :
  (forall f, Json.lookup_field "messages" f = None ->
             reply_message_id (JObj f) = inl (JStr "unknown"))
  /\ (forall f g rest,
        Json.lookup_field "messages" f = Some (JArr (JObj g :: rest)) ->
        reply_message_id (JObj f)
        = inl (default (JStr "unknown") (Json.lookup_field "id" g)))
  /\ (forall f, Json.lookup_field "messages" f = Some (JArr []) ->
                reply_message_id (JObj f) = inr IndexError)
  /\ (forall body, (forall f, body <> JObj f) ->
                   reply_message_id body = inr (AttributeError body "get")).
Proof.
  unfold reply_message_id, attr_get. repeat split.
  - intros f Hf. cbn. rewrite Hf. reflexivity.
  - intros f g rest Hf. cbn. rewrite Hf. reflexivity.
  - intros f Hf. cbn. rewrite Hf. reflexivity.
  - intros body Hb. destruct body; try reflexivity.
    exfalso. exact (Hb _ eq_refl).
Qed.

(** X2: [_post] always answers with a result, never an exception,
    whatever the provider does: a success carries no error and a failure
    no message id.  Without provider credentials the answer is a
    simulated success whose id starts with "wamid.".  With credentials
    it is never simulated; it is a success exactly when the provider
    answered 200 with a body out of which the message id can be read
    (the id is then what [messages[0].id] holds, "unknown" when the body
    has no [messages] or its first message no [id]); a 200 answer whose
    body is not a dict or has an empty [messages] list, and every
    answer with another status code, is a failure, the latter with
    the error message of the reply. *)
Theorem post_result_shape (E : Env) (p : payload) (s : Store) :
  exists res s',
    _post E p s = (Ok res, s')
    /\ (success res = true -> error res = JNull)
    /\ (success res = false -> message_id res = JNull)
    /\ (live E = false ->
        success res = true /\ simulated res = true
        /\ exists tail, message_id res = JStr ("wamid." +:+ tail))
    /\ (live E = true ->
        simulated res = false
        /\ (success res = true <->
            exists body,
              httpx_post E (ticks s) p = HttpReply 200 body
              /\ reply_message_id body = inl (message_id res))
        /\ (forall f,
              httpx_post E (ticks s) p = HttpReply 200 (JObj f) ->
              Json.lookup_field "messages" f = None ->
              success res = true /\ message_id res = JStr "unknown")
        /\ (forall f g rest,
              httpx_post E (ticks s) p = HttpReply 200 (JObj f) ->
              Json.lookup_field "messages" f = Some (JArr (JObj g :: rest)) ->
              success res = true
              /\ message_id res
                 = default (JStr "unknown") (Json.lookup_field "id" g))
        /\ (forall body,
              httpx_post E (ticks s) p = HttpReply 200 body ->
              (forall f, body <> JObj f)
              \/ (exists f, body = JObj f
                            /\ Json.lookup_field "messages" f = Some (JArr [])) ->
              success res = false /\ exists e, error res = JStr e)
        /\ (forall code body,
              httpx_post E (ticks s) p = HttpReply code body ->
              code <> 200 ->
              success res = false
              /\ forall e, reply_error body = inl e -> error res = e)).
Proof.
  destruct reply_message_id_cases as (Hnone & Hfirst & Hempty & Hother).
  unfold _post, _simulate_response, bind, modify, tick, ret, live.
  destruct (PyStr.truthy (WHATSAPP_PHONE_ID E)),
           (PyStr.truthy (WHATSAPP_TOKEN E));
    cbn [negb orb andb fst snd ticks with_posted].
  2-4: eexists _, _; (split; [reflexivity|]); cbn;
       repeat split; try discriminate; eauto.
  eexists _, _. split; [reflexivity|].
  destruct (httpx_post E (ticks s) p) as [code body| | |e] eqn:Hp;
    cbn [success message_id error simulated failure].
  2-4: repeat split; try discriminate; try congruence;
       try (intros (b & Hb & _); discriminate Hb).
  unfold read_reply.
  destruct (Z.eqb_spec code 200) as [-> | Hcode].
  - destruct (reply_message_id body) as [i|err] eqn:Hid;
      cbn [success message_id error simulated failure accepted].
    + split; [reflexivity|]. split; [discriminate|]. split; [discriminate|].
      intros _. split; [reflexivity|]. split.
      { split; [intros _; exists body; split; [reflexivity|exact Hid]
               |reflexivity]. }
      split.
      { intros f [= ->] Hf. rewrite (Hnone f Hf) in Hid.
        injection Hid as <-. split; reflexivity. }
      split.
      { intros f g rest [= ->] Hf. rewrite (Hfirst f g rest Hf) in Hid.
        injection Hid as <-. split; reflexivity. }
      split.
      { intros b [= <-] [Hb | (f & -> & Hf)].
        - rewrite (Hother body Hb) in Hid. discriminate Hid.
        - rewrite (Hempty f Hf) in Hid. discriminate Hid. }
      intros code b [= Hc _] Hne. congruence.
    + split; [discriminate|]. split; [reflexivity|]. split; [discriminate|].
      intros _. split; [reflexivity|]. split.
      { split; [discriminate|].
        intros (b & [= <-] & Hb). rewrite Hid in Hb. discriminate Hb. }
      split.
      { intros f [= ->] Hf. rewrite (Hnone f Hf) in Hid. discriminate Hid. }
      split.
      { intros f g rest [= ->] Hf. rewrite (Hfirst f g rest Hf) in Hid.
        discriminate Hid. }
      split; [intros b _ _; split; [reflexivity|eauto]|].
      intros code b [= Hc _] Hne. congruence.
  - destruct (reply_error body) as [e0|err] eqn:Herr;
      cbn [success message_id error simulated failure accepted].
    + split; [discriminate|]. split; [reflexivity|]. split; [discriminate|].
      intros _. split; [reflexivity|]. split.
      { split; [discriminate|]. intros (b & [= Hc _] & _). congruence. }
      split; [intros f [= Hc _]; congruence|].
      split; [intros f g rest [= Hc _]; congruence|].
      split; [intros b [= Hc _]; congruence|].
      intros c b [= <- <-] _. split; [reflexivity|].
      intros e He. rewrite Herr in He. injection He as <-. reflexivity.
    + split; [discriminate|]. split; [reflexivity|]. split; [discriminate|].
      intros _. split; [reflexivity|]. split.
      { split; [discriminate|]. intros (b & [= Hc _] & _). congruence. }
      split; [intros f [= Hc _]; congruence|].
      split; [intros f g rest [= Hc _]; congruence|].
      split; [intros b [= Hc _]; congruence|].
      intros c b [= <- <-] _. split; [reflexivity|].
      intros e He. rewrite Herr in He. discriminate He.
Qed.

Lemma post_result_shape_witness :
  exists res s',
    _post demo_env (TextPayload "919876543210" "hello") (init demo_env)
    = (Ok res, s')
    /\ success res = true /\ simulated res = true
    /\ exists tail, message_id res = JStr ("wamid." +:+ tail).
Proof.
  destruct (post_result_shape demo_env (TextPayload "919876543210" "hello")
              (init demo_env))
    as (res & s' & Hrun & _ & _ & Hdemo & _).
  exists res, s'. split; [exact Hrun|]. apply Hdemo. reflexivity.
Defined.

(** ** Authentication and authorization *)

Section Guards.
Variable E : Env.

Lemma get_current_user_rejects r s :
  rejected E (presented r) (utcnow E (ticks s)) ->
  exists d s',
    get_current_user E (credentials r) (cookie r) s = (HTTPException 401 d, s')
    /\ same_data s s'.
Proof.
  unfold rejected, presented, get_current_user.
  destruct (match credentials r with
            | Some t => if token_truthy t then Some t else cookie r
            | None => cookie r
            end) as [[c sig|g]|].
  - intros Hbad. cbn [token_truthy].
    unfold _decode_token, bind, tick, jwt_decode. cbn [fst snd].
    destruct (String.eqb_spec sig (hs256 E (SECRET_KEY E) c)) as [Heq|Hne];
      cbn [negb].
    + destruct (Z.ltb_spec (utcnow E (ticks s)) (c_iat c * 1000000)).
      * eexists _, _. split; reflexivity.
      * destruct (Z.leb_spec (c_exp c * 1000000) (utcnow E (ticks s))).
        -- eexists _, _. split; reflexivity.
        -- exfalso. destruct Hbad as [Hb | [Hb | Hb]]; [congruence|lia|lia].
    + eexists _, _. split; reflexivity.
  - intros _. cbn [token_truthy].
    destruct (PyStr.truthy g); [|eexists _, _; split; reflexivity].
    unfold _decode_token, bind, tick, jwt_decode. cbn.
    eexists _, _. split; reflexivity.
  - intros _. eexists _, _. split; reflexivity.
Qed.

(** X3: a request to any route other than login and the webhook whose
    token is missing, empty, not a JWT, tampered with or signed with
    another key, not yet valid or expired is answered 401, and no
    collection of the store changes. *)
Theorem bad_token_rejected_everywhere (r : request) (s : Store) :
  needs_token (target r) = true ->
  rejected E (presented r) (utcnow E (ticks s)) ->
  exists d s',
    handle E r s = (HTTPException 401 d, s') /\ same_data s s'.
Proof.
  intros Hneeds Hbad.
  destruct (get_current_user_rejects r s Hbad) as (d & s' & Hrun & Hsame).
  exists d, s'. split; [|exact Hsame].
  unfold handle, authenticated, admin_only.
  destruct (target r); try discriminate Hneeds;
    unfold bind at 1; rewrite Hrun; reflexivity.
Qed.

(** X4: a request to an admin-only route (creating, updating or
    deactivating a user, deleting or approving a template) with a valid
    token whose role is not admin is answered 403, and no collection of
    the store changes. *)
Theorem non_admin_forbidden (r : request) (s s1 : Store) (cu : identity) :
  needs_admin (target r) = true ->
  get_current_user E (credentials r) (cookie r) s = (Ok cu, s1) ->
  role cu <> "admin" ->
  handle E r s = (HTTPException 403 "Admin access required", s1)
  /\ same_data s s1.
Proof.
  intros Hneeds Hrun Hrole. split.
  - apply String.eqb_neq in Hrole.
    unfold handle, admin_only.
    destruct (target r); try discriminate Hneeds;
      unfold bind at 1; rewrite Hrun; unfold bind at 1, get_admin_user;
      rewrite Hrole; reflexivity.
  - pose proof (keeps_get_current_user E (same_data s)) as Hk.
    specialize (Hk (fun s0 n H => H) (credentials r) (cookie r) s eq_refl).
    rewrite Hrun in Hk. exact Hk.
Qed.

End Guards.

Lemma bad_token_rejected_everywhere_witness :
  exists d s',
    handle demo_env forged_logout (init demo_env) = (HTTPException 401 d, s')
    /\ same_data (init demo_env) s'.
Proof.
  apply (bad_token_rejected_everywhere demo_env forged_logout (init demo_env)).
  - reflexivity.
  - left. discriminate.
Defined.

Lemma operator_delete_authenticates :
  get_current_user demo_env (credentials operator_delete)
    (cookie operator_delete) (init demo_env) = operator_delete_auth.
Proof. vm_compute. reflexivity. Qed.

Lemma non_admin_forbidden_witness :
  exists s1,
    handle demo_env operator_delete (init demo_env)
    = (HTTPException 403 "Admin access required", s1)
    /\ same_data (init demo_env) s1.
Proof.
  pose proof operator_delete_authenticates as H.
  unfold operator_delete_auth in H.
  eexists.
  refine (non_admin_forbidden demo_env operator_delete (init demo_env) _ _
            _ H _); [reflexivity|discriminate].
Defined.

(** ** Identifiers are never handed out twice *)

Lemma leads_bind {A B} (P R Q : Store -> Prop) (m : M A) (k : A -> M B) :
  leads P m R -> (forall s, R s -> Q s) -> (forall a, leads R (k a) Q) ->
  leads P (bind m k) Q.
Proof.
  intros Hm HRQ Hk s Hs. unfold bind. specialize (Hm s Hs).
  destruct (m s) as [[a|c d] s1]; simpl in *; [apply Hk, Hm|apply HRQ, Hm].
Qed.

Lemma leads_keeps {A} (I : Store -> Prop) (m : M A) :
  keeps I m -> leads I m I.
Proof. intros H. exact H. Qed.

Lemma next_of_auto_id_same c s :
  next_of c (snd (_auto_id c s)) = next_of c s + 1.
Proof.
  unfold _auto_id, next_of. cbn.
  rewrite lookup_insert_eq. cbn.
  destruct (_next_id s !! c) eqn:Hl; cbn.
  - rewrite Hl. reflexivity.
  - rewrite lookup_insert_eq. reflexivity.
Qed.

Lemma next_of_auto_id_other c c' s :
  c <> c' -> next_of c (snd (_auto_id c' s)) = next_of c s.
Proof.
  intros Hne. unfold _auto_id, next_of. cbn.
  rewrite lookup_insert_ne by congruence.
  destruct (_next_id s !! c'); [reflexivity|].
  rewrite lookup_insert_ne by congruence. reflexivity.
Qed.

Lemma auto_id_value c s : fst (_auto_id c s) = Ok (next_of c s).
Proof.
  unfold _auto_id, next_of. cbn.
  destruct (_next_id s !! c) eqn:Hl; cbn.
  - rewrite Hl. reflexivity.
  - rewrite lookup_insert_eq. reflexivity.
Qed.

Lemma next_of_auto_id_le c c' s :
  next_of c s <= next_of c (snd (_auto_id c' s)).
Proof.
  destruct (String.eqb_spec c c') as [<- | Hne].
  - rewrite next_of_auto_id_same. lia.
  - rewrite next_of_auto_id_other by exact Hne. lia.
Qed.

Section Fresh.
Variable E : Env.
Variable c : string.
Variable ids : Store -> list Z.
Hypothesis ids_ticks : forall s n, ids (with_ticks n s) = ids s.
Hypothesis ids_next_id : forall s m, ids (with_next_id m s) = ids s.
Hypothesis ids_activity : forall s a, ids (with_activity_logs a s) = ids s.
Hypothesis ids_posted : forall s p, ids (with_posted p s) = ids s.

Lemma fresh_weaken s s' :
  ids s' = ids s -> next_of c s <= next_of c s' -> fresh c ids s ->
  fresh c ids s'.
Proof.
  intros Hids Hnext (Hnd & Hall & Hpos). unfold fresh. rewrite Hids.
  split; [exact Hnd|]. split; [|lia].
  eapply Forall_impl; [exact Hall|]. intros i Hi. cbv beta in *. lia.
Qed.

Lemma reserved_weaken v s s' :
  ids s' = ids s -> next_of c s <= next_of c s' -> reserved c ids v s ->
  reserved c ids v s'.
Proof.
  intros Hids Hnext (Hnd & Hall & Hpos). unfold reserved. rewrite Hids.
  split; [exact Hnd|]. split; [exact Hall|lia].
Qed.

Lemma reserved_fresh v s : reserved c ids v s -> fresh c ids s.
Proof.
  intros (Hnd & Hall & Hpos). split; [exact Hnd|]. split; [|lia].
  eapply Forall_impl; [exact Hall|]. intros i Hi. cbv beta in *. lia.
Qed.

(** Storing the reserved id. *)
Lemma reserved_append v s s' :
  ids s' = ids s ++ [v] -> next_of c s' = next_of c s ->
  reserved c ids v s -> fresh c ids s'.
Proof.
  intros Hids Hnext (Hnd & Hall & Hpos). unfold fresh. rewrite Hids, Hnext.
  split; [|split; [|lia]].
  - apply NoDup_app. split; [exact Hnd|]. split; [|apply NoDup_singleton].
    intros x Hx Hv. apply list_elem_of_In in Hv. destruct Hv as [<- | []].
    rewrite Forall_forall in Hall. specialize (Hall _ Hx). cbv beta in Hall.
    lia.
  - apply Forall_app. split.
    + eapply Forall_impl; [exact Hall|]. intros i Hi. cbv beta in *. lia.
    + constructor; [lia|constructor].
Qed.

Lemma fresh_tick : keeps (fresh c ids) tick.
Proof.
  intros s H. apply (fresh_weaken s); [apply ids_ticks|reflexivity|exact H].
Qed.

Lemma fresh_now_iso : keeps (fresh c ids) (now_iso E).
Proof.
  intros s H. apply (fresh_weaken s); [apply ids_ticks|reflexivity|exact H].
Qed.

Lemma fresh_auto_id c' : keeps (fresh c ids) (_auto_id c').
Proof.
  intros s H. apply (fresh_weaken s);
    [apply ids_next_id|apply next_of_auto_id_le|exact H].
Qed.

Lemma fresh_log_activity u n a d ip :
  keeps (fresh c ids) (log_activity E u n a d ip).
Proof.
  unfold log_activity.
  apply keeps_bind; [apply fresh_auto_id|intros i].
  apply keeps_bind; [apply fresh_now_iso|intros ts].
  apply keeps_modify. intros s H.
  apply (fresh_weaken s); [apply ids_activity|reflexivity|exact H].
Qed.

Lemma fresh_post p : keeps (fresh c ids) (_post E p).
Proof.
  intros s H. destruct (_post_run E p s) as [res ->].
  apply (fresh_weaken s); [|reflexivity|exact H].
  cbn [snd]. rewrite ids_ticks, ids_posted. reflexivity.
Qed.

Lemma fresh_send_template a b d e f :
  keeps (fresh c ids) (send_template_with_variables E a b d e f).
Proof.
  unfold send_template_with_variables.
  apply keeps_bind; [apply keeps_variable_texts|intros texts].
  apply fresh_post.
Qed.

Lemma fresh_send_text a b : keeps (fresh c ids) (send_text_message E a b).
Proof. apply fresh_post. Qed.

Lemma fresh_generate_token u n r :
  keeps (fresh c ids) (generate_token E u n r).
Proof.
  unfold generate_token.
  apply keeps_bind; [apply fresh_tick|intros n1].
  apply keeps_bind; [apply fresh_tick|intros n2].
  apply keeps_ret.
Qed.

Lemma fresh_get_current_user cr k :
  keeps (fresh c ids) (get_current_user E cr k).
Proof.
  apply keeps_get_current_user. intros s n H.
  apply (fresh_weaken s); [apply ids_ticks|reflexivity|exact H].
Qed.

(** Reserving the next id of the collection. *)
Lemma reserve {B} (k : Z -> M B) :
  (forall v, leads (reserved c ids v) (k v) (fresh c ids)) ->
  keeps (fresh c ids) (bind (_auto_id c) k).
Proof.
  intros Hk s (Hnd & Hall & Hpos). unfold bind.
  pose proof (auto_id_value c s) as Hv.
  pose proof (next_of_auto_id_same c s) as Hn.
  destruct (_auto_id c s) as [[v|? ?] s1] eqn:Hrun; cbn in Hv, Hn;
    [|discriminate Hv].
  injection Hv as ->. apply Hk.
  assert (Hids : ids s1 = ids s).
  { unfold _auto_id in Hrun. injection Hrun as _ <-. apply ids_next_id. }
  unfold reserved. rewrite Hids, Hn. repeat split; try assumption; lia.
Qed.

Lemma reserved_tick v : leads (reserved c ids v) tick (reserved c ids v).
Proof.
  intros s H. apply (reserved_weaken v s);
    [apply ids_ticks|reflexivity|exact H].
Qed.

Lemma reserved_now_iso v :
  leads (reserved c ids v) (now_iso E) (reserved c ids v).
Proof.
  intros s H. apply (reserved_weaken v s);
    [apply ids_ticks|reflexivity|exact H].
Qed.

Lemma reserved_gets {B} v (f : Store -> B) :
  leads (reserved c ids v) (gets f) (reserved c ids v).
Proof. intros s H. exact H. Qed.

End Fresh.

Lemma leads_modify (P Q : Store -> Prop) (g : Store -> Store) :
  (forall s, P s -> Q (g s)) -> leads P (modify g) Q.
Proof. intros H s Hs. apply H, Hs. Qed.

Ltac fresh_side := intros; reflexivity.

Ltac fresh_step :=
  cbv beta;
  lazymatch goal with
  | |- keeps _ (ret _) => apply keeps_ret
  | |- keeps _ (raise _ _) => apply keeps_raise
  | |- keeps _ (py_raise _) => apply keeps_py_raise
  | |- keeps _ (gets _) => apply keeps_gets
  | |- keeps _ (get_or_raise _ _ _) => apply keeps_get_or_raise
  | |- keeps _ (iter_or_raise _) => apply keeps_iter_or_raise
  | |- keeps _ (strip_or_raise _) => apply keeps_strip_or_raise
  | |- keeps _ (len_or_raise _) => apply keeps_len_or_raise
  | |- keeps _ (variable_texts _ _) => apply keeps_variable_texts
  | |- keeps _ tick => apply fresh_tick; fresh_side
  | |- keeps _ (now_iso _) => apply fresh_now_iso; fresh_side
  | |- keeps _ (_auto_id _) => apply fresh_auto_id; fresh_side
  | |- keeps _ (log_activity _ _ _ _ _ _) =>
      apply fresh_log_activity; fresh_side
  | |- keeps _ (send_template_with_variables _ _ _ _ _ _) =>
      apply fresh_send_template; fresh_side
  | |- keeps _ (send_text_message _ _ _) => apply fresh_send_text; fresh_side
  | |- keeps _ (generate_token _ _ _ _) =>
      apply fresh_generate_token; fresh_side
  | |- keeps _ (get_current_user _ _ _) =>
      apply fresh_get_current_user; fresh_side
  | |- keeps _ (get_admin_user _) => apply keeps_get_admin_user
  | |- keeps _ (bind _ _) => apply keeps_bind; [|intros ?]
  | |- keeps _ (modify _) => apply keeps_modify; intros ? ?; assumption
  | |- keeps _ (if ?b then _ else _) => destruct b
  | |- keeps _ (match ?x with _ => _ end) => destruct x
  end.

Ltac fresh_auto := repeat fresh_step.

(** The loop of a bulk send reserves ids for message logs only. *)
Lemma bulk_loop_fresh_other E c ids tmpl tid cu recs :
  (forall s n, ids (with_ticks n s) = ids s) ->
  (forall s m, ids (with_next_id m s) = ids s) ->
  (forall s p, ids (with_posted p s) = ids s) ->
  (forall s l, ids (with_message_logs l s) = ids s) ->
  (forall s l, next_of c (with_message_logs l s) = next_of c s) ->
  forall a b d, keeps (fresh c ids) (bulk_loop E tmpl tid cu recs a b d).
Proof.
  intros H1 H2 H3 H4 H5.
  induction recs as [|rec rest IH]; intros a b d; cbn [bulk_loop].
  - apply keeps_ret.
  - loop_head. destruct (negb _ || negb _); [apply IH|].
    apply keeps_bind; [apply fresh_send_template; assumption|intros res].
    apply keeps_bind; [apply fresh_auto_id; assumption|intros i].
    apply keeps_bind; [apply fresh_now_iso; assumption|intros ts].
    apply keeps_bind; [|intros _; apply IH].
    apply keeps_modify. intros s Hs.
    apply (fresh_weaken c ids s); [apply H4|rewrite H5; reflexivity|exact Hs].
Qed.

Lemma init_counters E :
  next_of "users" (init E) = 2 /\ next_of "templates" (init E) = 5
  /\ next_of "message_logs" (init E) = 1 /\ next_of "campaigns" (init E) = 1.
Proof. repeat split; vm_compute; reflexivity. Qed.

Section UserIds.
Variable E : Env.
Let I : Store -> Prop := fresh "users" user_ids.

Lemma update_first_users_fresh p f :
  (forall u, u_id (f u) = u_id u) ->
  keeps I (modify (fun s => with_users (update_first p f (users s)) s)).
Proof.
  intros Hf. apply keeps_modify. intros s Hs.
  apply (fresh_weaken "users" user_ids s); [|reflexivity|exact Hs].
  unfold user_ids. cbn. apply map_update_first. exact Hf.
Qed.

Lemma create_user_fresh b h cu : keeps I (create_user E b h cu).
Proof.
  unfold create_user. cbv zeta.
  repeat match goal with
         | |- keeps _ (if ?c then raise _ _ else _) =>
             destruct c; [apply keeps_raise|]
         end.
  apply keeps_bind; [apply keeps_gets|intros us].
  repeat match goal with
         | |- keeps _ (if ?c then raise _ _ else _) =>
             destruct c; [apply keeps_raise|]
         end.
  apply keeps_bind; [apply fresh_now_iso; fresh_side|intros now].
  apply reserve; [fresh_side|intros v].
  apply (leads_bind _ (reserved "users" user_ids v));
    [apply reserved_tick; fresh_side|apply reserved_fresh|intros n].
  apply (leads_bind _ I); [|auto|intros _; apply leads_keeps; fresh_auto].
  apply leads_modify. intros s Hs.
  apply (reserved_append "users" user_ids v s); [|reflexivity|exact Hs].
  unfold user_ids. cbn. rewrite map_app. reflexivity.
Qed.

Lemma handle_fresh_users r : keeps I (handle E r).
Proof.
  unfold handle, authenticated, admin_only.
  destruct (target r).
  all: try (apply keeps_bind;
            [apply fresh_get_current_user; fresh_side|intros cu]).
  all: try (apply keeps_bind; [apply keeps_get_admin_user|intros adm]).
  - unfold login.
    repeat first [ fresh_step | apply update_first_users_fresh; reflexivity ].
  - unfold logout. fresh_auto.
  - unfold change_password.
    repeat first [ fresh_step | apply update_first_users_fresh; reflexivity ].
  - apply create_user_fresh.
  - unfold update_user.
    repeat first [ fresh_step | apply update_first_users_fresh; reflexivity ].
  - unfold delete_user.
    repeat first [ fresh_step | apply update_first_users_fresh; reflexivity ].
  - unfold create_template. fresh_auto.
  - unfold update_template. fresh_auto.
  - unfold delete_template. fresh_auto.
  - unfold approve_template. fresh_auto.
  - unfold send_single_message, record_single. fresh_auto.
  - unfold send_bulk_message.
    repeat first [ fresh_step | apply bulk_loop_fresh_other; fresh_side ].
  - unfold get_campaign_detail. fresh_auto.
  - apply receive_webhook_keeps. intros data su _ _.
    unfold process_status_update, get_or_raise, first_item, mutate_log.
    fresh_auto.
Qed.

Lemma reachable_fresh_users s : reachable E s -> I s.
Proof.
  induction 1 as [|r s Hs IH].
  - unfold I, fresh. rewrite (proj1 (init_counters E)).
    change (user_ids (init E)) with [1].
    split; [apply NoDup_singleton|]. split; [|lia].
    constructor; [lia|constructor].
  - apply handle_fresh_users. exact IH.
Qed.

End UserIds.

Lemma in_remove_first {A} p (l : list A) x : In x (remove_first p l) -> In x l.
Proof.
  induction l as [|y l IH]; simpl; [tauto|].
  destruct (p y); simpl; [auto|]. intros [H | H]; auto.
Qed.

Lemma NoDup_map_remove_first {A B} (g : A -> B) p (l : list A) :
  NoDup (map g l) -> NoDup (map g (remove_first p l)).
Proof.
  induction l as [|y l IH]; simpl; [auto|].
  intros H. apply NoDup_cons in H as [Hy Hl].
  destruct (p y); [exact Hl|]. simpl. apply NoDup_cons. split; [|auto].
  intros Hin. apply Hy. apply list_elem_of_In in Hin.
  apply list_elem_of_In. apply in_map_iff in Hin as (x & Hx & Hin).
  apply in_map_iff. exists x. split; [exact Hx|].
  eapply in_remove_first. exact Hin.
Qed.

Lemma Forall_map_remove_first {A B} (P : B -> Prop) (g : A -> B) p (l : list A) :
  Forall P (map g l) -> Forall P (map g (remove_first p l)).
Proof.
  induction l as [|y l IH]; simpl; [auto|].
  intros H. apply Forall_cons in H as [Hy Hl].
  destruct (p y); [exact Hl|]. simpl. constructor; auto.
Qed.

Lemma map_alter_same {A B} (g : A -> B) (f : A -> A) i (l : list A) :
  (forall x, g (f x) = g x) -> map g (alter f i l) = map g l.
Proof.
  intros Hf. revert i. induction l as [|x l IH]; intros i; [reflexivity|].
  destruct i; cbn; [rewrite Hf|rewrite IH]; reflexivity.
Qed.

Section TemplateIds.
Variable E : Env.
Let I : Store -> Prop := fresh "templates" template_ids.

Lemma update_first_templates_fresh p f :
  (forall t, t_id (f t) = t_id t) ->
  keeps I (modify (fun s => with_templates (update_first p f (templates s)) s)).
Proof.
  intros Hf. apply keeps_modify. intros s Hs.
  apply (fresh_weaken "templates" template_ids s); [|reflexivity|exact Hs].
  unfold template_ids. cbn. apply map_update_first. exact Hf.
Qed.

Lemma remove_first_templates_fresh p :
  keeps I (modify (fun s => with_templates (remove_first p (templates s)) s)).
Proof.
  apply keeps_modify. intros s (Hnd & Hall & Hpos).
  unfold I, fresh, template_ids in *. cbn.
  split; [apply NoDup_map_remove_first, Hnd|].
  split; [apply Forall_map_remove_first, Hall|exact Hpos].
Qed.

Lemma create_template_fresh b h cu : keeps I (create_template E b h cu).
Proof.
  unfold create_template. cbv zeta.
  repeat match goal with
         | |- keeps _ (if ?c then raise _ _ else _) =>
             destruct c; [apply keeps_raise|]
         end.
  apply keeps_bind; [apply keeps_gets|intros ts].
  destruct (existsb _ ts); [apply keeps_raise|].
  apply keeps_bind; [apply fresh_now_iso; fresh_side|intros now].
  apply reserve; [fresh_side|intros v].
  apply (leads_bind _ I); [|auto|intros _; apply leads_keeps; fresh_auto].
  apply leads_modify. intros s Hs.
  apply (reserved_append "templates" template_ids v s);
    [|reflexivity|exact Hs].
  unfold template_ids. cbn. rewrite map_app. reflexivity.
Qed.

Lemma handle_fresh_templates r : keeps I (handle E r).
Proof.
  unfold handle, authenticated, admin_only.
  destruct (target r).
  all: try (apply keeps_bind;
            [apply fresh_get_current_user; fresh_side|intros cu]).
  all: try (apply keeps_bind; [apply keeps_get_admin_user|intros adm]).
  - unfold login. fresh_auto.
  - unfold logout. fresh_auto.
  - unfold change_password. fresh_auto.
  - unfold create_user. fresh_auto.
  - unfold update_user. fresh_auto.
  - unfold delete_user. fresh_auto.
  - apply create_template_fresh.
  - unfold update_template.
    repeat first [ fresh_step
                 | apply update_first_templates_fresh; reflexivity ].
  - unfold delete_template.
    repeat first [ fresh_step | apply remove_first_templates_fresh ].
  - unfold approve_template.
    repeat first [ fresh_step
                 | apply update_first_templates_fresh; reflexivity ].
  - unfold send_single_message, record_single. fresh_auto.
  - unfold send_bulk_message.
    repeat first [ fresh_step | apply bulk_loop_fresh_other; fresh_side ].
  - unfold get_campaign_detail. fresh_auto.
  - apply receive_webhook_keeps. intros data su _ _.
    unfold process_status_update, get_or_raise, first_item, mutate_log.
    fresh_auto.
Qed.

Lemma reachable_fresh_templates s : reachable E s -> I s.
Proof.
  induction 1 as [|r s Hs IH].
  - unfold I, fresh. rewrite (proj1 (proj2 (init_counters E))).
    change (template_ids (init E)) with [1; 2; 3; 4].
    split; [|split; [|lia]].
    + repeat (apply NoDup_cons; split;
              [intros Hin%list_elem_of_In; cbn in Hin; intuition discriminate|]).
      apply NoDup_nil_2.
    + repeat (constructor; [lia|]). constructor.
  - apply handle_fresh_templates. exact IH.
Qed.

End TemplateIds.

Section LogIds.
Variable E : Env.
Let I : Store -> Prop := fresh "message_logs" log_ids.

Lemma append_log_fresh v l :
  l_id l = v ->
  leads (reserved "message_logs" log_ids v)
        (modify (fun s => with_message_logs (message_logs s ++ [l]) s)) I.
Proof.
  intros Hl. apply leads_modify. intros s Hs.
  apply (reserved_append "message_logs" log_ids v s); [|reflexivity|exact Hs].
  unfold log_ids. cbn. rewrite map_app, <- Hl. reflexivity.
Qed.

Lemma mutate_log_fresh msg_id f :
  (forall l, l_id (f l) = l_id l) -> keeps I (mutate_log msg_id f).
Proof.
  intros Hf. apply keeps_modify. intros s Hs.
  apply (fresh_weaken "message_logs" log_ids s); [|reflexivity|exact Hs].
  unfold log_ids. cbn. apply map_update_first. exact Hf.
Qed.

Lemma record_single_fresh a b c d e f res h cu :
  keeps I (record_single E a b c d e f res h cu).
Proof.
  unfold record_single.
  apply keeps_bind; [apply fresh_now_iso; fresh_side|intros now].
  apply reserve; [fresh_side|intros v].
  apply (leads_bind _ I);
    [apply append_log_fresh; reflexivity|auto|intros _; apply leads_keeps; fresh_auto].
Qed.

Lemma bulk_loop_fresh_logs tmpl tid cu recs :
  forall a b d, keeps I (bulk_loop E tmpl tid cu recs a b d).
Proof.
  induction recs as [|rec rest IH]; intros a b d; cbn [bulk_loop].
  - apply keeps_ret.
  - loop_head. destruct (negb _ || negb _); [apply IH|].
    apply keeps_bind; [apply fresh_send_template; fresh_side|intros res].
    apply reserve; [fresh_side|intros v].
    apply (leads_bind _ (reserved "message_logs" log_ids v));
      [apply reserved_now_iso; fresh_side|apply reserved_fresh|intros ts].
    apply (leads_bind _ I);
      [apply append_log_fresh; reflexivity|auto|intros _; apply IH].
Qed.

Lemma handle_fresh_logs r : keeps I (handle E r).
Proof.
  unfold handle, authenticated, admin_only.
  destruct (target r).
  all: try (apply keeps_bind;
            [apply fresh_get_current_user; fresh_side|intros cu]).
  all: try (apply keeps_bind; [apply keeps_get_admin_user|intros adm]).
  - unfold login. fresh_auto.
  - unfold logout. fresh_auto.
  - unfold change_password. fresh_auto.
  - unfold create_user. fresh_auto.
  - unfold update_user. fresh_auto.
  - unfold delete_user. fresh_auto.
  - unfold create_template. fresh_auto.
  - unfold update_template. fresh_auto.
  - unfold delete_template. fresh_auto.
  - unfold approve_template. fresh_auto.
  - unfold send_single_message.
    repeat first [ fresh_step | apply record_single_fresh ].
  - unfold send_bulk_message.
    repeat first [ fresh_step | apply bulk_loop_fresh_logs ].
  - unfold get_campaign_detail. fresh_auto.
  - apply receive_webhook_keeps. intros data su _ _.
    unfold process_status_update, get_or_raise, first_item.
    repeat first [ fresh_step | apply mutate_log_fresh; reflexivity ].
Qed.

Lemma reachable_fresh_logs s : reachable E s -> I s.
Proof.
  induction 1 as [|r s Hs IH].
  - unfold I, fresh.
    rewrite (proj1 (proj2 (proj2 (init_counters E)))).
    change (log_ids (init E)) with (@nil Z).
    split; [apply NoDup_nil_2|]. split; [constructor|lia].
  - apply handle_fresh_logs. exact IH.
Qed.

End LogIds.

Section CampaignIds.
Variable E : Env.
Let I : Store -> Prop := fresh "campaigns" campaign_ids.

Lemma send_bulk_fresh_campaigns f h cu : keeps I (send_bulk_message E f h cu).
Proof.
  unfold send_bulk_message. cbv zeta.
  destruct (resolve_recipients f) as [recs|]; [|apply keeps_raise].
  destruct (negb (Json.truthy recs)); [apply keeps_raise|].
  destruct (negb _); [apply keeps_raise|].
  apply keeps_bind; [apply keeps_gets|intros [tmpl|]]; [|apply keeps_raise].
  apply keeps_bind; [apply fresh_now_iso; fresh_side|intros now].
  apply reserve; [fresh_side|intros v].
  apply (leads_bind _ (reserved "campaigns" campaign_ids v));
    [|apply reserved_fresh|intros total].
  { intros s Hs. unfold len_or_raise. destruct (Json.len recs); exact Hs. }
  apply (leads_bind _ (reserved "campaigns" campaign_ids v));
    [apply reserved_gets|apply reserved_fresh|intros idx].
  apply (leads_bind _ I); [|auto|intros _].
  { apply leads_modify. intros s Hs.
    apply (reserved_append "campaigns" campaign_ids v s);
      [|reflexivity|exact Hs].
    unfold campaign_ids. cbn. rewrite map_app. reflexivity. }
  apply keeps_bind; [apply keeps_iter_or_raise|intros items].
  apply keeps_bind; [apply bulk_loop_fresh_other; fresh_side|].
  intros [[sent failed] results].
  apply keeps_bind; [apply fresh_now_iso; fresh_side|intros ts].
  apply keeps_bind; [|intros _; apply leads_keeps; fresh_auto].
  apply keeps_modify. intros s Hs.
  apply (fresh_weaken "campaigns" campaign_ids s); [|reflexivity|exact Hs].
  unfold campaign_ids. cbn. apply map_alter_same. reflexivity.
Qed.

Lemma handle_fresh_campaigns r : keeps I (handle E r).
Proof.
  unfold handle, authenticated, admin_only.
  destruct (target r).
  all: try (apply keeps_bind;
            [apply fresh_get_current_user; fresh_side|intros cu]).
  all: try (apply keeps_bind; [apply keeps_get_admin_user|intros adm]).
  - unfold login. fresh_auto.
  - unfold logout. fresh_auto.
  - unfold change_password. fresh_auto.
  - unfold create_user. fresh_auto.
  - unfold update_user. fresh_auto.
  - unfold delete_user. fresh_auto.
  - unfold create_template. fresh_auto.
  - unfold update_template. fresh_auto.
  - unfold delete_template. fresh_auto.
  - unfold approve_template. fresh_auto.
  - unfold send_single_message, record_single. fresh_auto.
  - apply send_bulk_fresh_campaigns.
  - unfold get_campaign_detail. fresh_auto.
  - apply receive_webhook_keeps. intros data su _ _.
    unfold process_status_update, get_or_raise, first_item, mutate_log.
    fresh_auto.
Qed.

Lemma reachable_fresh_campaigns s : reachable E s -> I s.
Proof.
  induction 1 as [|r s Hs IH].
  - unfold I, fresh.
    rewrite (proj2 (proj2 (proj2 (init_counters E)))).
    change (campaign_ids (init E)) with (@nil Z).
    split; [apply NoDup_nil_2|]. split; [constructor|lia].
  - apply handle_fresh_campaigns. exact IH.
Qed.

End CampaignIds.

(** X5: in every store reached from the seeded one, the ids of the
    users, of the templates, of the message logs and of the campaigns
    are pairwise distinct, positive and below the id [_auto_id] hands
    out next for that collection: an id in use is never handed out
    again. *)
Theorem ids_distinct_and_below_counter (E : Env) (s : Store) :
  reachable E s ->
  fresh "users" user_ids s
  /\ fresh "templates" template_ids s
  /\ fresh "message_logs" log_ids s
  /\ fresh "campaigns" campaign_ids s.
Proof.
  intros H. split; [apply (reachable_fresh_users E s H)|].
  split; [apply (reachable_fresh_templates E s H)|].
  split; [apply (reachable_fresh_logs E s H)|].
  apply (reachable_fresh_campaigns E s H).
Qed.

Lemma ids_distinct_and_below_counter_witness :
  fresh "users" user_ids mixed_store
  /\ fresh "templates" template_ids mixed_store
  /\ fresh "message_logs" log_ids mixed_store
  /\ fresh "campaigns" campaign_ids mixed_store.
Proof.
  rewrite <- mixed_store_reached.
  apply (ids_distinct_and_below_counter demo_env).
  apply run_reachable. constructor.
Defined.

(** ** Counters only count up *)

Section Counters.
Variable E : Env.
Variable c : string.
Variable v : Z.

Lemma at_least_auto_id c' : keeps (at_least c v) (_auto_id c').
Proof.
  intros s H. unfold at_least in *.
  pose proof (next_of_auto_id_le c c' s). lia.
Qed.

Lemma at_least_log_activity u n a d ip :
  keeps (at_least c v) (log_activity E u n a d ip).
Proof.
  unfold log_activity.
  apply keeps_bind; [apply at_least_auto_id|intros i].
  apply keeps_bind; [apply keeps_now_iso; keeps_side|intros ts].
  apply keeps_modify. keeps_side.
Qed.

Lemma at_least_bulk_loop tmpl tid cu recs :
  forall a b d, keeps (at_least c v) (bulk_loop E tmpl tid cu recs a b d).
Proof.
  induction recs as [|rec rest IH]; intros a b d; cbn [bulk_loop].
  - apply keeps_ret.
  - loop_head. destruct (negb _ || negb _); [apply IH|].
    apply keeps_bind; [apply keeps_send_template; keeps_side|intros res].
    apply keeps_bind; [apply at_least_auto_id|intros i].
    apply keeps_bind; [apply keeps_now_iso; keeps_side|intros ts].
    apply keeps_bind; [apply keeps_modify; keeps_side|intros _; apply IH].
Qed.

Ltac at_least_step :=
  cbv beta;
  lazymatch goal with
  | |- keeps _ (ret _) => apply keeps_ret
  | |- keeps _ (raise _ _) => apply keeps_raise
  | |- keeps _ (py_raise _) => apply keeps_py_raise
  | |- keeps _ (gets _) => apply keeps_gets
  | |- keeps _ (get_or_raise _ _ _) => apply keeps_get_or_raise
  | |- keeps _ (iter_or_raise _) => apply keeps_iter_or_raise
  | |- keeps _ (strip_or_raise _) => apply keeps_strip_or_raise
  | |- keeps _ (len_or_raise _) => apply keeps_len_or_raise
  | |- keeps _ (variable_texts _ _) => apply keeps_variable_texts
  | |- keeps _ tick => apply keeps_tick; intros; assumption
  | |- keeps _ (now_iso _) => apply keeps_now_iso; intros; assumption
  | |- keeps _ (_auto_id _) => apply at_least_auto_id
  | |- keeps _ (log_activity _ _ _ _ _ _) => apply at_least_log_activity
  | |- keeps _ (bulk_loop _ _ _ _ _ _ _ _) => apply at_least_bulk_loop
  | |- keeps _ (send_template_with_variables _ _ _ _ _ _) =>
      apply keeps_send_template; intros; assumption
  | |- keeps _ (send_text_message _ _ _) =>
      apply keeps_send_text; intros; assumption
  | |- keeps _ (generate_token _ _ _ _) =>
      apply keeps_generate_token; intros; assumption
  | |- keeps _ (bind _ _) => apply keeps_bind; [|intros ?]
  | |- keeps _ (modify _) => apply keeps_modify; intros ? ?; assumption
  | |- keeps _ (if ?b then _ else _) => destruct b
  | |- keeps _ (match ?x with _ => _ end) => destruct x
  end.

Ltac at_least_auto := repeat at_least_step.

Lemma handle_at_least r : keeps (at_least c v) (handle E r).
Proof.
  unfold handle, authenticated, admin_only.
  destruct (target r).
  all: try (apply keeps_bind;
            [apply keeps_get_current_user; keeps_side|intros cu]).
  all: try (apply keeps_bind; [apply keeps_get_admin_user|intros adm]).
  - unfold login. at_least_auto.
  - unfold logout. at_least_auto.
  - unfold change_password. at_least_auto.
  - unfold create_user. at_least_auto.
  - unfold update_user. at_least_auto.
  - unfold delete_user. at_least_auto.
  - unfold create_template. at_least_auto.
  - unfold update_template. at_least_auto.
  - unfold delete_template. at_least_auto.
  - unfold approve_template. at_least_auto.
  - unfold send_single_message, record_single. at_least_auto.
  - unfold send_bulk_message. at_least_auto.
  - unfold get_campaign_detail. at_least_auto.
  - apply receive_webhook_keeps. intros data su _ _.
    unfold process_status_update, get_or_raise, first_item, mutate_log.
    keeps_auto.
Qed.

End Counters.

(** X6: [_auto_id] returns the collection's counter (1 for a collection
    never used) and advances it by exactly one, leaving the counters of
    the other collections alone; and no request ever makes a counter go
    back, so ids grow along every run. *)
Theorem auto_id_counts_up (E : Env) (c : string) :
  (forall s,
     fst (_auto_id c s) = Ok (next_of c s)
     /\ next_of c (snd (_auto_id c s)) = next_of c s + 1
     /\ forall c', c' <> c ->
                   next_of c' (snd (_auto_id c s)) = next_of c' s)
  /\ (forall s, _next_id s !! c = None -> fst (_auto_id c s) = Ok 1)
  /\ (forall rs s, next_of c s <= next_of c (run E rs s)).
Proof.
  split; [|split].
  - intros s. split; [apply auto_id_value|].
    split; [apply next_of_auto_id_same|].
    intros c' Hne. apply next_of_auto_id_other. exact Hne.
  - intros s Hnone. rewrite auto_id_value. unfold next_of. rewrite Hnone.
    reflexivity.
  - intros rs. induction rs as [|r rs IH]; intros s; simpl; [lia|].
    etransitivity; [|apply IH].
    apply (handle_at_least E c (next_of c s) r s). unfold at_least. lia.
Qed.

Lemma auto_id_counts_up_witness :
  fst (_auto_id "campaigns" (init demo_env)) = Ok 1
  /\ next_of "users" (snd (_auto_id "campaigns" (init demo_env)))
     = next_of "users" (init demo_env).
Proof.
  pose proof (auto_id_counts_up demo_env "campaigns") as (Hstep & Hfirst & _).
  split.
  - apply Hfirst. reflexivity.
  - apply (Hstep (init demo_env)). discriminate.
Defined.

(** ** Template names *)

Lemma existsb_template_name_false name ts :
  existsb (fun t => String.eqb (t_name t) name) ts = false ->
  ~ In name (map t_name ts).
Proof.
  induction ts as [|t ts IH]; simpl; [tauto|].
  intros H. apply orb_false_iff in H as [Ht Hts].
  apply String.eqb_neq in Ht. intros [Heq | Hin]; [congruence|].
  exact (IH Hts Hin).
Qed.

Lemma existsb_template_name_true name ts :
  In name (map t_name ts) ->
  existsb (fun t => String.eqb (t_name t) name) ts = true.
Proof.
  intros Hin. apply in_map_iff in Hin as (t & Hname & Hin).
  apply existsb_exists. exists t. split; [exact Hin|].
  apply String.eqb_eq. exact Hname.
Qed.

Section TemplateNames.
Variable E : Env.

Lemma create_template_keeps_names b h cu :
  keeps template_names_unique (create_template E b h cu).
Proof.
  intros s Hs. unfold create_template. cbv zeta.
  repeat match goal with
         | |- context [if ?c then raise _ _ else _] =>
             lazymatch c with
             | existsb _ _ => fail
             | _ => destruct c; [exact Hs|]
             end
         end.
  unfold bind at 1, gets at 1. cbv beta iota.
  destruct (existsb (fun t => String.eqb (t_name t) _) (templates s))
    eqn:Hname; [exact Hs|].
  unfold bind, now_iso, tick, _auto_id, modify, log_activity, ret.
  cbn -[pretty]. unfold template_names_unique in *. cbn -[pretty].
  rewrite map_app. cbn [map].
  apply NoDup_app. split; [exact Hs|]. split; [|apply NoDup_singleton].
  intros x Hx Hk. apply list_elem_of_In in Hx. apply list_elem_of_In in Hk.
  destruct Hk as [Hk | []]. subst x.
  exact (existsb_template_name_false _ _ Hname Hx).
Qed.

Lemma update_first_keeps_names p f :
  (forall t, t_name (f t) = t_name t) ->
  keeps template_names_unique
        (modify (fun s => with_templates (update_first p f (templates s)) s)).
Proof.
  intros Hf. apply keeps_modify. intros s Hs.
  unfold template_names_unique in *. simpl.
  rewrite map_update_first; assumption.
Qed.

Lemma handle_keeps_names r : keeps template_names_unique (handle E r).
Proof.
  unfold handle, authenticated, admin_only.
  destruct (target r).
  all: try (apply keeps_bind;
            [apply keeps_get_current_user; keeps_side|intros cu]).
  all: try (apply keeps_bind; [apply keeps_get_admin_user|intros adm]).
  - apply (login_keeps_templates E (fun ts => NoDup (map t_name ts))).
  - apply (logout_keeps_templates E (fun ts => NoDup (map t_name ts))).
  - apply (change_password_keeps_templates E (fun ts => NoDup (map t_name ts))).
  - apply (create_user_keeps_templates E (fun ts => NoDup (map t_name ts))).
  - apply (update_user_keeps_templates E (fun ts => NoDup (map t_name ts))).
  - apply (delete_user_keeps_templates E (fun ts => NoDup (map t_name ts))).
  - apply create_template_keeps_names.
  - unfold update_template.
    repeat first [ apply update_first_keeps_names; reflexivity | keeps_step ].
  - unfold delete_template. keeps_auto.
    apply keeps_modify. intros s Hs. unfold template_names_unique in *.
    simpl. apply NoDup_map_remove_first. exact Hs.
  - unfold approve_template.
    repeat first [ apply update_first_keeps_names; reflexivity | keeps_step ].
  - apply (send_single_keeps_templates E (fun ts => NoDup (map t_name ts))).
  - apply (send_bulk_keeps_templates E (fun ts => NoDup (map t_name ts))).
  - apply (get_campaign_detail_keeps_templates
             (fun ts => NoDup (map t_name ts))).
  - apply (receive_webhook_keeps_templates E (fun ts => NoDup (map t_name ts))).
Qed.

Lemma reachable_names_unique s : reachable E s -> template_names_unique s.
Proof.
  induction 1 as [|r s Hs IH].
  - unfold template_names_unique. rewrite init_templates. cbn.
    repeat (apply NoDup_cons; split;
            [intros Hin%list_elem_of_In; cbn in Hin; intuition discriminate|]).
    apply NoDup_nil_2.
  - apply handle_keeps_names. exact IH.
Qed.

(** What [create_template] does when the normalised name is taken. *)
Lemma create_template_taken b h cu s :
  PyStr.truthy (normal_name (ct_name b)) = true ->
  PyStr.truthy (PyStr.strip (ct_body b)) = true ->
  valid_category (PyStr.upper (ct_category b)) = true ->
  In (normal_name (ct_name b)) (map t_name (templates s)) ->
  exists d, create_template E b h cu s = (HTTPException 409 d, s).
Proof.
  intros Hname Hbody Hcat Hin. unfold create_template. cbv zeta.
  fold (normal_name (ct_name b)). rewrite Hname, Hbody. cbn [negb orb].
  unfold valid_category in Hcat. rewrite Hcat. cbn [negb].
  unfold bind at 1, gets at 1. cbv beta iota.
  rewrite (existsb_template_name_true _ _ Hin).
  eexists. reflexivity.
Qed.

(** X7: template names stay pairwise distinct in every reachable store:
    a creation request that is valid otherwise, but whose name, once
    stripped, lower-cased and with spaces replaced by underscores, is
    the name of an existing template, is refused with 409 and changes
    nothing. *)
Theorem template_names_stay_unique (s : Store) :
  reachable E s ->
  template_names_unique s
  /\ forall b h cu,
       PyStr.truthy (normal_name (ct_name b)) = true ->
       PyStr.truthy (PyStr.strip (ct_body b)) = true ->
       valid_category (PyStr.upper (ct_category b)) = true ->
       In (normal_name (ct_name b)) (map t_name (templates s)) ->
       exists d, create_template E b h cu s = (HTTPException 409 d, s).
Proof.
  intros H. split; [apply reachable_names_unique, H|].
  intros b h cu. apply create_template_taken.
Qed.

End TemplateNames.

Lemma template_names_stay_unique_witness :
  template_names_unique (init demo_env)
  /\ exists d,
       create_template demo_env invite_again "127.0.0.1" admin_identity
         (init demo_env) = (HTTPException 409 d, init demo_env).
Proof.
  destruct (template_names_stay_unique demo_env (init demo_env))
    as [Huniq Hdup]; [constructor|].
  split; [exact Huniq|].
  apply Hdup; [reflexivity|reflexivity|reflexivity|].
  rewrite init_templates. cbn. right. left. reflexivity.
Defined.

(** ** Users are deactivated, never removed *)

Lemma NoDup_map_in_inj {A B} (g : A -> B) (l : list A) x y :
  NoDup (map g l) -> In x l -> In y l -> g x = g y -> x = y.
Proof.
  induction l as [|z l IH]; simpl; [tauto|].
  intros Hnd. apply NoDup_cons in Hnd as [Hz Hl].
  intros [-> | Hx] [-> | Hy] Hg; auto.
  - exfalso. apply Hz. apply list_elem_of_In. rewrite Hg.
    apply in_map. exact Hy.
  - exfalso. apply Hz. apply list_elem_of_In. rewrite <- Hg.
    apply in_map. exact Hx.
Qed.

(** With distinct keys, [update_first] on a key changes the record with
    that key and no other. *)
Lemma in_update_first_key {A} (g : A -> Z) (f : A -> A) (l : list A) u x :
  NoDup (map g l) -> In u l ->
  In x (update_first (fun y => g y =? g u) f l) ->
  x = f u \/ (In x l /\ g x <> g u).
Proof.
  induction l as [|z l IH]; simpl; [tauto|].
  intros Hnd Hu. pose proof Hnd as Hnd'.
  apply NoDup_cons in Hnd' as [Hz Hl].
  destruct (Z.eqb_spec (g z) (g u)) as [Heq | Hne]; simpl.
  - assert (z = u) as ->.
    { apply (NoDup_map_in_inj g (z :: l)); simpl; auto. }
    intros [<- | Hx]; [left; reflexivity|].
    right. split; [auto|]. intros Hgx. apply Hz. apply list_elem_of_In.
    rewrite <- Hgx. apply in_map. exact Hx.
  - destruct Hu as [-> | Hu]; [congruence|].
    intros [<- | Hx]; [right; auto|].
    destruct (IH Hl Hu Hx) as [-> | [Hin Hg]]; [left; reflexivity|].
    right. auto.
Qed.

Lemma find_first_exists {A} (p : A -> bool) (l : list A) x :
  In x l -> p x = true -> exists y, find_first p l = Some y.
Proof.
  induction l as [|z l IH]; simpl; [tauto|].
  intros Hin Hp. destruct (p z) eqn:Hz; [eauto|].
  destruct Hin as [-> | Hin]; [congruence|]. apply IH; assumption.
Qed.

Section SwitchedOff.
Variable E : Env.
Variable uid : Z.
Variable uname : string.

Lemma Forall_update_first_where {A} (P : A -> Prop) p f (l : list A) :
  (forall x, p x = true -> P x -> P (f x)) ->
  Forall P l -> Forall P (update_first p f l).
Proof.
  intros Hf. induction 1 as [|x l Hx Hl IH]; cbn [update_first];
    [constructor|].
  destruct (p x) eqn:Hp; constructor; auto.
Qed.

Lemma switched_off_update_first p f :
  (forall v, u_username (f v) = u_username v /\ u_id (f v) = u_id v) ->
  (forall v, p v = true -> u_id v = uid -> u_is_active v = false ->
             u_is_active (f v) = false) ->
  keeps (switched_off uid uname)
        (modify (fun s => with_users (update_first p f (users s)) s)).
Proof.
  intros Hkey Hoff. apply keeps_modify. intros s [Hin Hall].
  split; cbn [users with_users].
  - rewrite map_update_first; [exact Hin|]. intros v. apply Hkey.
  - apply Forall_update_first_where; [|exact Hall].
    intros v Hp Hv Hname. destruct (Hkey v) as [Hn Hi].
    rewrite Hn in Hname. destruct (Hv Hname) as [Hid Hact].
    split; [congruence|]. apply Hoff; assumption.
Qed.

Lemma create_user_switched_off b h cu :
  keeps (switched_off uid uname) (create_user E b h cu).
Proof.
  unfold create_user. cbv zeta.
  destruct (negb _); [apply keeps_raise|].
  destruct (_ <? _)%nat; [apply keeps_raise|].
  destruct (negb _); [apply keeps_raise|].
  intros s Hs. unfold bind at 1, gets at 1. cbv beta iota.
  destruct (MAX_USERS <=? active_count (users s))%nat; [exact Hs|].
  destruct (existsb (fun u => String.eqb (u_username u)
              (PyStr.lower (PyStr.strip (cu_username b)))) (users s))
    eqn:Hex; [exact Hs|].
  destruct (existsb (fun u => String.eqb (u_email u)
              (PyStr.lower (PyStr.strip (cu_email b)))) (users s));
    [exact Hs|].
  unfold bind, now_iso, tick, _auto_id, modify, log_activity, ret.
  unfold switched_off in *. cbn -[pretty]. destruct Hs as [Hin Hall]. split.
  - rewrite map_app. apply in_or_app. left. exact Hin.
  - apply Forall_app. split; [exact Hall|].
    constructor; [|constructor]. cbn. intros Hname. exfalso.
    apply in_map_iff in Hin as (v & Hv & Hvin).
    assert (Hc : existsb (fun u => String.eqb (u_username u)
                   (PyStr.lower (PyStr.strip (cu_username b)))) (users s)
                 = true).
    { apply existsb_exists. exists v. split; [exact Hvin|].
      rewrite Hv, Hname. apply String.eqb_refl. }
    congruence.
Qed.

Lemma handle_switched_off r :
  reactivates uid (target r) = false ->
  keeps (switched_off uid uname) (handle E r).
Proof.
  unfold handle, authenticated, admin_only, reactivates.
  destruct (target r) as [| | | |id body| | | | | | | | |]; intros Hr.
  all: try (apply keeps_bind;
            [apply keeps_get_current_user; keeps_side|intros cu]).
  all: try (apply keeps_bind; [apply keeps_get_admin_user|intros adm]).
  - unfold login.
    repeat first [ apply switched_off_update_first;
                   [intros; split; reflexivity|intros; assumption]
                 | keeps_step ].
  - apply (logout_keeps_users E
             (fun us => In uname (map u_username us)
                /\ Forall (fun v => u_username v = uname ->
                             u_id v = uid /\ u_is_active v = false) us)).
  - unfold change_password.
    repeat first [ apply switched_off_update_first;
                   [intros; split; reflexivity|intros; assumption]
                 | keeps_step ].
  - apply create_user_switched_off.
  - unfold update_user.
    repeat first [ apply switched_off_update_first;
                   [intros; split; reflexivity|]
                 | keeps_step ].
    intros v Hp Hid Hact. cbn [apply_user_update u_is_active].
    unfold has_id in Hp. apply Z.eqb_eq in Hp.
    rewrite <- Hp, Hid, Z.eqb_refl in Hr. cbn [andb] in Hr.
    destruct (uu_is_active body) as [[|]|]; cbn in *;
      [discriminate|reflexivity|exact Hact].
  - unfold delete_user.
    repeat first [ apply switched_off_update_first;
                   [intros; split; reflexivity|intros; reflexivity]
                 | keeps_step ].
  - apply (create_template_keeps_users E
             (fun us => In uname (map u_username us)
                /\ Forall (fun v => u_username v = uname ->
                             u_id v = uid /\ u_is_active v = false) us)).
  - apply (update_template_keeps_users E
             (fun us => In uname (map u_username us)
                /\ Forall (fun v => u_username v = uname ->
                             u_id v = uid /\ u_is_active v = false) us)).
  - apply (delete_template_keeps_users E
             (fun us => In uname (map u_username us)
                /\ Forall (fun v => u_username v = uname ->
                             u_id v = uid /\ u_is_active v = false) us)).
  - apply (approve_template_keeps_users E
             (fun us => In uname (map u_username us)
                /\ Forall (fun v => u_username v = uname ->
                             u_id v = uid /\ u_is_active v = false) us)).
  - apply (send_single_keeps_users E
             (fun us => In uname (map u_username us)
                /\ Forall (fun v => u_username v = uname ->
                             u_id v = uid /\ u_is_active v = false) us)).
  - apply (send_bulk_keeps_users E
             (fun us => In uname (map u_username us)
                /\ Forall (fun v => u_username v = uname ->
                             u_id v = uid /\ u_is_active v = false) us)).
  - apply (get_campaign_detail_keeps_users
             (fun us => In uname (map u_username us)
                /\ Forall (fun v => u_username v = uname ->
                             u_id v = uid /\ u_is_active v = false) us)).
  - apply (receive_webhook_keeps_users E
             (fun us => In uname (map u_username us)
                /\ Forall (fun v => u_username v = uname ->
                             u_id v = uid /\ u_is_active v = false) us)).
Qed.

Lemma run_switched_off rs :
  Forall (fun r => reactivates uid (target r) = false) rs ->
  forall s, switched_off uid uname s -> switched_off uid uname (run E rs s).
Proof.
  induction 1 as [|r rs Hr Hrs IH]; intros s H; simpl; [exact H|].
  apply IH. apply handle_switched_off; assumption.
Qed.

Lemma login_refused_when_off body h s :
  switched_off uid uname s ->
  PyStr.strip (lr_username body) = uname ->
  exists code d,
    login E body h s = (HTTPException code d, s)
    /\ (code = 400 \/ code = 401).
Proof.
  intros [_ Hall] Hname. unfold login. cbv zeta.
  destruct (negb (PyStr.truthy (PyStr.strip (lr_username body)))
            || negb (PyStr.truthy (lr_password body))).
  { eexists _, _. split; [reflexivity|auto]. }
  unfold bind at 1, gets at 1. cbv beta iota.
  rewrite (find_first_none (login_match (PyStr.strip (lr_username body)))).
  { eexists _, _. split; [reflexivity|auto]. }
  intros x Hx. unfold login_match. rewrite Hname.
  rewrite List.Forall_forall in Hall. specialize (Hall x Hx).
  destruct (String.eqb_spec (u_username x) uname) as [Heq|]; [|reflexivity].
  destruct (Hall Heq) as [_ ->]. reflexivity.
Qed.

End SwitchedOff.

Lemma find_first_update_first {A} (p : A -> bool) (f : A -> A) (l : list A) u :
  (forall x, p (f x) = p x) ->
  find_first p l = Some u ->
  find_first p (update_first p f l) = Some (f u).
Proof.
  intros Hf. induction l as [|x l IH]; simpl; [discriminate|].
  destruct (p x) eqn:Hx.
  - intros [= ->]. simpl. rewrite Hf, Hx. reflexivity.
  - intros H. simpl. rewrite Hx. apply IH, H.
Qed.

Section Deactivation.
Variable E : Env.

Lemma delete_user_switches_off (s : Store) (u : User) :
  NoDup (map u_id (users s)) ->
  NoDup (map u_username (users s)) ->
  In u (users s) ->
  find_first (has_id (u_id u)) (users s) = Some u
  /\ switched_off (u_id u) (u_username u)
       (with_users (update_first (has_id (u_id u)) deactivate (users s)) s).
Proof.
  intros Hids Hnames Hin. split.
  - destruct (find_first_exists (has_id (u_id u)) (users s) u Hin) as [y Hy].
    { unfold has_id. apply Z.eqb_refl. }
    rewrite Hy. f_equal. unfold find_first in Hy.
    apply find_some in Hy as [Hyin Hyid].
    unfold has_id in Hyid. apply Z.eqb_eq in Hyid.
    apply (NoDup_map_in_inj u_id (users s)); assumption.
  - split; cbn [users with_users].
    + rewrite map_update_first by reflexivity. apply in_map. exact Hin.
    + apply List.Forall_forall. intros x Hx Hname.
      destruct (in_update_first_key u_id deactivate (users s) u x Hids Hin Hx)
        as [-> | [Hxin Hxid]]; [split; reflexivity|].
      exfalso. apply Hxid. f_equal.
      apply (NoDup_map_in_inj u_username (users s)); assumption.
Qed.

(** X8: deleting a user only switches the account off: the call
    succeeds and every user record stays in place with its id and
    username.  From then on, through any sequence of requests in which
    no update of that user sets [is_active] to true, no login under
    that username succeeds, whatever the password (401, or 400 when a
    field is empty): no other request switches the account on, and the
    username cannot be taken by a new account.  An update of that user
    with [is_active] true succeeds and switches the account on again:
    a login then finds the account. *)
Theorem deactivated_user_cannot_login (s : Store) (u : User) h cu :
  reachable E s ->
  In u (users s) ->
  u_id u <> user_id cu ->
  exists s',
    delete_user E (u_id u) h cu s = (Ok (RMessage "User deactivated"), s')
    /\ users s' = update_first (has_id (u_id u)) deactivate (users s)
    /\ map user_key (users s') = map user_key (users s)
    /\ (forall rs body h',
          Forall (fun r => reactivates (u_id u) (target r) = false) rs ->
          PyStr.strip (lr_username body) = u_username u ->
          exists code d,
            login E body h' (run E rs s')
            = (HTTPException code d, run E rs s')
            /\ (code = 400 \/ code = 401))
    /\ (forall body h' cu',
          uu_is_active body = Some true ->
          exists s1,
            update_user E (u_id u) body h' cu' s'
            = (Ok (RMessage "User updated"), s1)
            /\ find_first (login_match (u_username u)) (users s1) <> None).
Proof.
  intros Hreach Hin Hself.
  destruct (reachable_fresh_users E s Hreach) as (Hids & _).
  pose proof (reachable_usernames_unique E s Hreach) as Hnames.
  unfold user_ids in Hids. unfold usernames_unique in Hnames.
  destruct (delete_user_switches_off s u Hids Hnames Hin) as [Hfind Hoff].
  assert (Hdel : exists s',
             delete_user E (u_id u) h cu s
             = (Ok (RMessage "User deactivated"), s')
             /\ users s'
                = update_first (has_id (u_id u)) deactivate (users s)).
  { unfold delete_user. apply Z.eqb_neq in Hself. rewrite Hself.
    unfold bind at 1, gets at 1. cbv beta iota. rewrite Hfind.
    unfold bind, modify, log_activity, _auto_id, now_iso, tick, ret.
    cbn -[pretty update_first]. eexists. split; reflexivity. }
  destruct Hdel as (s' & Hdel & Hus). exists s'.
  split; [exact Hdel|]. split; [exact Hus|].
  split; [rewrite Hus; apply map_update_first; reflexivity|].
  assert (Hoff' : switched_off (u_id u) (u_username u) s').
  { unfold switched_off in *. rewrite Hus. exact Hoff. }
  split.
  - intros rs body h' Hrs Hname.
    apply (login_refused_when_off E (u_id u) (u_username u));
      [|exact Hname].
    apply run_switched_off; assumption.
  - intros body h' cu' Hact.
    pose proof (find_first_update_first (has_id (u_id u)) deactivate
                  (users s) u ltac:(reflexivity) Hfind) as Hfind'.
    rewrite <- Hus in Hfind'.
    pose proof (find_first_update_first (has_id (u_id u))
                  (apply_user_update body) _ _ ltac:(reflexivity) Hfind')
      as Hfind''.
    unfold update_user. unfold bind at 1, gets at 1. cbv beta iota.
    rewrite Hfind'.
    unfold bind, modify, log_activity, _auto_id, now_iso, tick, ret.
    cbn -[pretty update_first].
    eexists. split; [reflexivity|]. cbn -[pretty update_first find_first].
    unfold find_first in Hfind''. apply find_some in Hfind'' as [Hin'' _].
    destruct (find_first_exists (login_match (u_username u)) _ _ Hin'')
      as [y Hy]; [|rewrite Hy; discriminate].
    unfold login_match. cbn. rewrite Hact, String.eqb_refl. reflexivity.
Qed.

End Deactivation.

Lemma bob_store_reached :
  run demo_env [as_admin (new_user "bob")] (init demo_env) = bob_store.
Proof. vm_compute. reflexivity. Qed.

Lemma bob_store_reachable : reachable demo_env bob_store.
Proof. rewrite <- bob_store_reached. apply run_reachable. constructor. Qed.

Lemma deactivated_user_cannot_login_witness :
  exists s',
    delete_user demo_env 2 "127.0.0.1" admin_identity bob_store
    = (Ok (RMessage "User deactivated"), s')
    /\ (exists code d,
          login demo_env bob_login "127.0.0.1"
            (run demo_env [as_admin (new_user "carol")] s')
          = (HTTPException code d,
             run demo_env [as_admin (new_user "carol")] s')
          /\ (code = 400 \/ code = 401))
    /\ (exists s1,
          update_user demo_env 2 (only_active true) "127.0.0.1"
            admin_identity s'
          = (Ok (RMessage "User updated"), s1)
          /\ find_first (login_match "bob") (users s1) <> None).
Proof.
  destruct (deactivated_user_cannot_login demo_env bob_store bob_user
              "127.0.0.1" admin_identity)
    as (s' & Hrun & _ & _ & Hlogin & Hback);
    [apply bob_store_reachable | right; left; reflexivity | discriminate |].
  exists s'. split; [exact Hrun|]. split.
  - apply (Hlogin [as_admin (new_user "carol")] bob_login "127.0.0.1");
      [repeat constructor|reflexivity].
  - apply (Hback (only_active true) "127.0.0.1" admin_identity). reflexivity.
Defined.

Section UsersKept.
Variable E : Env.
Variable s0 : Store.

Lemma users_kept_update_first p f :
  (forall u, user_key (f u) = user_key u) ->
  keeps (users_kept s0)
        (modify (fun s => with_users (update_first p f (users s)) s)).
Proof.
  intros Hf. apply keeps_modify. intros s (more & Hs).
  exists more. cbn. rewrite map_update_first; assumption.
Qed.

Lemma create_user_users_kept b h cu : keeps (users_kept s0) (create_user E b h cu).
Proof.
  unfold create_user. keeps_auto.
  apply keeps_modify. intros s (more & Hs).
  eexists. cbn. rewrite map_app, Hs, <- app_assoc. reflexivity.
Qed.

Lemma handle_users_kept r : keeps (users_kept s0) (handle E r).
Proof.
  unfold handle, authenticated, admin_only.
  destruct (target r).
  all: try (apply keeps_bind;
            [apply keeps_get_current_user; keeps_side|intros cu]).
  all: try (apply keeps_bind; [apply keeps_get_admin_user|intros adm]).
  - unfold login.
    repeat first [ apply users_kept_update_first; reflexivity | keeps_step ].
  - apply (logout_keeps_users E
             (fun us => exists more,
                map user_key us = map user_key (users s0) ++ more)).
  - unfold change_password.
    repeat first [ apply users_kept_update_first; reflexivity | keeps_step ].
  - apply create_user_users_kept.
  - unfold update_user.
    repeat first [ apply users_kept_update_first; reflexivity | keeps_step ].
  - unfold delete_user.
    repeat first [ apply users_kept_update_first; reflexivity | keeps_step ].
  - apply (create_template_keeps_users E
             (fun us => exists more,
                map user_key us = map user_key (users s0) ++ more)).
  - apply (update_template_keeps_users E
             (fun us => exists more,
                map user_key us = map user_key (users s0) ++ more)).
  - apply (delete_template_keeps_users E
             (fun us => exists more,
                map user_key us = map user_key (users s0) ++ more)).
  - apply (approve_template_keeps_users E
             (fun us => exists more,
                map user_key us = map user_key (users s0) ++ more)).
  - apply (send_single_keeps_users E
             (fun us => exists more,
                map user_key us = map user_key (users s0) ++ more)).
  - apply (send_bulk_keeps_users E
             (fun us => exists more,
                map user_key us = map user_key (users s0) ++ more)).
  - apply (get_campaign_detail_keeps_users
             (fun us => exists more,
                map user_key us = map user_key (users s0) ++ more)).
  - apply (receive_webhook_keeps_users E
             (fun us => exists more,
                map user_key us = map user_key (users s0) ++ more)).
Qed.

End UsersKept.

Lemma run_users_kept E s0 rs :
  forall s, users_kept s0 s -> users_kept s0 (run E rs s).
Proof.
  induction rs as [|r rs IH]; intros s H; simpl; [exact H|].
  apply IH. apply handle_users_kept. exact H.
Qed.

(** X9: no sequence of requests removes a user record or changes its id
    or its username: the users of a store are still there, in order,
    after any run, followed by the users created since. *)
Theorem users_are_never_removed (E : Env) (rs : list request) (s : Store) :
  users_kept s (run E rs s)
  /\ (List.length (users s) <= List.length (users (run E rs s)))%nat.
Proof.
  assert (H : users_kept s (run E rs s)).
  { apply run_users_kept. exists []. rewrite app_nil_r. reflexivity. }
  split; [exact H|].
  destruct H as (more & Hm).
  apply (f_equal (@List.length _)) in Hm.
  rewrite length_app, !length_map in Hm. lia.
Qed.

(** ** Changing a password *)

(** X10: [change_password] either fails with 400 and changes nothing
    (a field is empty, the new password has fewer than 6 characters,
    the caller is unknown or the current password is wrong), or it
    succeeds: then the current password was accepted, and the record of
    the caller, same id, username and active flag, now holds a hash that
    accepts the new password. *)
Theorem change_password_outcome (E : Env) body h cu (s : Store) :
  hash_contract E ->
  (exists d, change_password E body h cu s = (HTTPException 400 d, s))
  \/ (exists u s',
        change_password E body h cu s
        = (Ok (RMessage "Password changed successfully"), s')
        /\ find_first (has_id (user_id cu)) (users s) = Some u
        /\ check_password_hash E (u_password_hash u)
                               (cp_current_password body) = true
        /\ (6 <= String.length (cp_new_password body))%nat
        /\ exists u',
             find_first (has_id (user_id cu)) (users s') = Some u'
             /\ check_password_hash E (u_password_hash u')
                                    (cp_new_password body) = true
             /\ user_key u' = user_key u
             /\ u_is_active u' = u_is_active u).
Proof.
  intros Hhash.
  remember (change_password E body h cu s) as out eqn:Hout.
  unfold change_password in Hout.
  destruct (negb (PyStr.truthy (cp_current_password body))
            || negb (PyStr.truthy (cp_new_password body)));
    [left; eexists; exact Hout|].
  destruct (Nat.ltb_spec (String.length (cp_new_password body)) 6)
    as [Hshort | Hlong]; [left; eexists; exact Hout|].
  unfold bind at 1, gets at 1 in Hout. cbv beta iota in Hout.
  destruct (find_first (has_id (user_id cu)) (users s)) as [u|] eqn:Hfind;
    [|left; eexists; exact Hout].
  destruct (check_password_hash E (u_password_hash u)
                                (cp_current_password body)) eqn:Hpw;
    cbn [negb] in Hout; [|left; eexists; exact Hout].
  right. exists u.
  unfold bind, tick, modify, log_activity, _auto_id, now_iso, ret in Hout.
  cbn -[pretty update_first] in Hout.
  eexists. split; [exact Hout|]. cbn -[pretty update_first].
  split; [reflexivity|]. split; [exact Hpw|]. split; [exact Hlong|].
  eexists. split.
  { apply find_first_update_first; [reflexivity|exact Hfind]. }
  cbn. split; [apply Hhash|]. split; reflexivity.
Qed.

Lemma demo_hash_contract : hash_contract demo_env.
Proof. intros n pw. cbn. apply String.eqb_refl. Qed.

Lemma change_password_outcome_witness :
  exists u s',
    change_password demo_env bob_password "127.0.0.1" bob_identity bob_store
    = (Ok (RMessage "Password changed successfully"), s')
    /\ find_first (has_id 2) (users s') = Some u
    /\ check_password_hash demo_env (u_password_hash u) "secret22" = true.
Proof.
  destruct (change_password_outcome demo_env bob_password "127.0.0.1"
              bob_identity bob_store demo_hash_contract)
    as [(d & Hfail) | (u & s' & Hrun & _ & _ & _ & u' & Hfind & Hpw & _)].
  - exfalso.
    assert (Hok : exists r s1,
               change_password demo_env bob_password "127.0.0.1" bob_identity
                 bob_store = (Ok r, s1))
      by (vm_compute; eauto).
    destruct Hok as (r & s1 & Hok). rewrite Hok in Hfail. discriminate Hfail.
  - exists u', s'. split; [exact Hrun|]. split; [exact Hfind|exact Hpw].
Defined.

(** ** What the webhook handler changes *)

Section WebhookFrame.
Variable E : Env.
Variable s0 : Store.

Lemma mutate_log_touches msg_id f :
  (forall l, log_core (f l) = log_core l) ->
  keeps (logs_touched_only s0) (mutate_log msg_id f).
Proof.
  intros Hf. apply keeps_modify. intros s [Hrest Hcore]. split.
  - exact Hrest.
  - cbn. rewrite map_update_first; assumption.
Qed.

Lemma process_status_update_touches su :
  keeps (logs_touched_only s0) (process_status_update E su).
Proof.
  unfold process_status_update, get_or_raise, first_item.
  repeat first [ apply mutate_log_touches; reflexivity | keeps_step ].
Qed.

End WebhookFrame.

(** X11: whatever the body, the webhook handler answers
    [{status: "ok"}], never adds or removes a message log, and changes
    of a log at most the status, the error message and the delivered
    and read timestamps; users, templates, campaigns, the activity log,
    the id counters and the gateway are left alone. *)
Theorem webhook_touches_status_fields_only (E : Env) (body : option json)
        (s : Store) :
  let '(resp, s') := receive_webhook E body s in
  resp = Ok (RWebhook "ok")
  /\ map log_core (message_logs s') = map log_core (message_logs s)
  /\ users s' = users s /\ templates s' = templates s
  /\ campaigns s' = campaigns s /\ activity_logs s' = activity_logs s
  /\ _next_id s' = _next_id s /\ posted s' = posted s.
Proof.
  pose proof (receive_webhook_ok E body s) as Hok.
  assert (Hs : logs_touched_only s s) by (split; reflexivity).
  apply (receive_webhook_keeps E (logs_touched_only s) body) in Hs.
  2:{ intros data su _ _. apply process_status_update_touches. }
  destruct (receive_webhook E body s) as [resp s']. simpl in *.
  destruct Hs as [Hrest Hcore].
  split; [exact Hok|]. split; [exact Hcore|].
  repeat split.
  - exact (f_equal users Hrest).
  - exact (f_equal templates Hrest).
  - exact (f_equal campaigns Hrest).
  - exact (f_equal activity_logs Hrest).
  - exact (f_equal _next_id Hrest).
  - exact (f_equal posted Hrest).
Qed.

Lemma update_first_twice {A} (p : A -> bool) (f g : A -> A) (l : list A) :
  (forall x, p (f x) = p x) ->
  update_first p g (update_first p f l) = update_first p (fun x => g (f x)) l.
Proof.
  intros Hf. induction l as [|x l IH]; simpl; [reflexivity|].
  destruct (p x) eqn:Hx; simpl.
  - rewrite Hf, Hx. reflexivity.
  - rewrite Hx, IH. reflexivity.
Qed.

(** X12: a well-formed status update for a message id that a log
    carries changes the first log with that id and no other: its status
    becomes the reported one, "delivered" also sets [delivered_at] and
    "read" sets [read_at] to the time of the call, and "failed" without
    error details records "Unknown error"; any other non-empty status is
    stored as it is. *)
Theorem webhook_reports_on_first_match (E : Env) (s : Store)
        (m status : string) (l : MessageLog) :
  find_first (has_message_id (JStr m)) (message_logs s) = Some l ->
  m <> EmptyString -> status <> EmptyString ->
  let '(resp, s') :=
    receive_webhook E (Some (status_event m (JStr status))) s in
  let ts := isoformat E (utcnow E (ticks s)) in
  resp = Ok (RWebhook "ok")
  /\ message_logs s'
     = update_first (has_message_id (JStr m)) (reported status ts)
                    (message_logs s)
  /\ find_first (has_message_id (JStr m)) (message_logs s')
     = Some (reported status ts l).
Proof.
  intros Hfind Hm Hst.
  assert (Hlogs :
    message_logs (snd (receive_webhook E
                         (Some (status_event m (JStr status))) s))
    = update_first (has_message_id (JStr m))
        (reported status (isoformat E (utcnow E (ticks s))))
        (message_logs s)).
  { unfold receive_webhook, status_event. cbn [Json.truthy negb].
    unfold try_except, bind, get_or_raise, iter_or_raise. cbn [Json.get
      Json.lookup_field String.eqb Ascii.eqb Bool.eqb default from_option id
      Json.iter for_each ret snd fst].
    unfold process_entry, process_change, process_status_update, bind,
      get_or_raise, iter_or_raise, now_iso, tick, gets, ret.
    cbn [Json.get Json.lookup_field String.eqb Ascii.eqb Bool.eqb default
      from_option id Json.iter for_each ret snd fst bind].
    unfold bind, ret.
    cbn -[has_message_id update_first reported isoformat utcnow].
    destruct m as [|c0 m0]; [congruence|].
    destruct status as [|c1 st1]; [congruence|].
    cbn -[has_message_id update_first reported isoformat utcnow String.eqb].
    change (find (has_message_id (JStr (String c0 m0))) (message_logs s))
      with (find_first (has_message_id (JStr (String c0 m0))) (message_logs s)).
    rewrite Hfind.
    unfold mutate_log, modify, bind, reported, Json.eq_str.
    cbn -[has_message_id update_first isoformat utcnow String.eqb].
    destruct (String.eqb (String c1 st1) "delivered") eqn:Hd.
    { cbn -[has_message_id update_first isoformat utcnow String.eqb].
      apply update_first_twice. reflexivity. }
    destruct (String.eqb (String c1 st1) "read") eqn:Hr.
    { cbn -[has_message_id update_first isoformat utcnow String.eqb].
      apply update_first_twice. reflexivity. }
    destruct (String.eqb (String c1 st1) "failed") eqn:Hf.
    { cbn -[has_message_id update_first isoformat utcnow String.eqb].
      apply update_first_twice. reflexivity. }
    reflexivity. }
  pose proof (receive_webhook_ok E (Some (status_event m (JStr status))) s)
    as Hok.
  destruct (receive_webhook E (Some (status_event m (JStr status))) s)
    as [resp s']. cbn [fst snd] in *.
  split; [exact Hok|]. split; [exact Hlogs|].
  rewrite Hlogs. apply find_first_update_first; [|exact Hfind].
  intros x. unfold reported, has_message_id.
  destruct (String.eqb status "delivered"); [reflexivity|].
  destruct (String.eqb status "read"); [reflexivity|].
  destruct (String.eqb status "failed"); reflexivity.
Qed.

Lemma webhook_reports_on_first_match_witness :
  let '(resp, s') :=
    receive_webhook demo_env
      (Some (status_event "wamid.4" (JStr "delivered"))) sent_store in
  let ts := isoformat demo_env (utcnow demo_env (ticks sent_store)) in
  resp = Ok (RWebhook "ok")
  /\ message_logs s'
     = update_first (has_message_id (JStr "wamid.4")) (reported "delivered" ts)
                    (message_logs sent_store)
  /\ find_first (has_message_id (JStr "wamid.4")) (message_logs s')
     = Some (reported "delivered" ts sent_log).
Proof.
  apply (webhook_reports_on_first_match demo_env sent_store "wamid.4"
           "delivered" sent_log);
    [reflexivity | discriminate | discriminate].
Defined.

(** ** A single send *)

Lemma record_single_run E phone name mtype tid tname preview res h cu s :
  exists l s',
    record_single E phone name mtype tid tname preview res h cu s
    = (Ok (RSend (success res) (message_id res) (status_of res)
                 (simulated res) (note res)), s')
    /\ message_logs s' = message_logs s ++ [l]
    /\ posted s' = posted s
    /\ l_status l = JStr (status_of res)
    /\ l_message_id l = message_id res
    /\ l_error_message l = error res
    /\ l_recipient_phone l = phone
    /\ l_body_preview l = preview
    /\ l_sent_by l = user_id cu
    /\ l_delivered_at l = None /\ l_read_at l = None
    /\ List.length (activity_logs s') = S (List.length (activity_logs s))
    /\ users s' = users s /\ templates s' = templates s
    /\ campaigns s' = campaigns s.
Proof.
  unfold record_single, bind, now_iso, tick, _auto_id, modify, log_activity,
    ret. cbn -[pretty].
  eexists _, _. split; [reflexivity|]. cbn -[pretty].
  repeat split. rewrite length_app. cbn. lia.
Qed.

Lemma take_length n s : (String.length (PyStr.take n s) <= n)%nat.
Proof.
  unfold PyStr.take. revert s. induction n as [|n IH]; intros s.
  - destruct s; simpl; lia.
  - destruct s as [|c s]; simpl; [lia|]. specialize (IH s). lia.
Qed.

Lemma send_single_cases (E : Env) body h cu (s : Store) :
  (exists code d,
     send_single_message E body h cu s = (HTTPException code d, s)
     /\ (code = 400 \/ code = 404))
  \/ (exists res l p s',
        send_single_message E body h cu s
        = (Ok (RSend (success res) (message_id res) (status_of res)
                     (simulated res) (note res)), s')
        /\ message_logs s' = message_logs s ++ [l]
        /\ posted s' = posted s ++ [p]
        /\ l_status l = JStr (status_of res)
        /\ l_message_id l = message_id res
        /\ l_error_message l = error res
        /\ l_recipient_phone l = PyStr.strip (sm_phone body)
        /\ Phone.validate_phone (l_recipient_phone l) = true
        /\ l_sent_by l = user_id cu
        /\ l_delivered_at l = None /\ l_read_at l = None
        /\ List.length (activity_logs s') = S (List.length (activity_logs s))
        /\ users s' = users s /\ templates s' = templates s
        /\ campaigns s' = campaigns s
        /\ (String.length (l_body_preview l) <= 100)%nat).
Proof.
  remember (send_single_message E body h cu s) as out eqn:Hout.
  unfold send_single_message in Hout. cbv zeta in Hout.
  destruct (negb (PyStr.truthy (PyStr.strip (sm_phone body))));
    [left; eexists _, _; split; [exact Hout|auto]|].
  destruct (Phone.validate_phone (PyStr.strip (sm_phone body))) eqn:Hval;
    cbn [negb] in Hout; [|left; eexists _, _; split; [exact Hout|auto]].
  destruct (String.eqb (sm_type body) "template"
            && id_truthy (sm_template_id body)).
  - unfold bind at 1, gets at 1 in Hout. cbv beta iota in Hout.
    destruct (find_first _ (templates s)) as [tmpl|];
      [|left; eexists _, _; split; [exact Hout|auto]].
    unfold bind at 1 in Hout.
    destruct (send_template_run E (PyStr.strip (sm_phone body))
                (t_name tmpl) (sm_variables body) (t_language tmpl)
                (t_button_url tmpl) s) as [res Hres].
    rewrite Hres in Hout.
    match type of Hout with
    | _ = record_single E ?a ?b ?c ?d ?e ?f ?g ?i ?j ?k =>
        destruct (record_single_run E a b c d e f g i j k)
          as (l & s' & Hrun & Hlogs & Hposted & Hstatus & Hmid & Herr
              & Hphone & Hprev & Hby & Hdel & Hread & Hact & Hu & Ht & Hc)
    end.
    rewrite Hrun in Hout. right. exists res, l. eexists _, s'.
    split; [exact Hout|]. split; [exact Hlogs|].
    split; [rewrite Hposted; reflexivity|].
    rewrite Hphone, Hprev. repeat split; try assumption.
    all: try apply take_length.
    all: destruct (PyStr.truthy (sm_text body));
      [apply take_length|simpl; lia].
  - destruct (String.eqb (sm_type body) "text" && PyStr.truthy (sm_text body));
      [|left; eexists _, _; split; [exact Hout|auto]].
    unfold bind at 1 in Hout.
    destruct (send_text_message_run E (PyStr.strip (sm_phone body))
                (sm_text body) s) as [res Hres].
    rewrite Hres in Hout.
    match type of Hout with
    | _ = record_single E ?a ?b ?c ?d ?e ?f ?g ?i ?j ?k =>
        destruct (record_single_run E a b c d e f g i j k)
          as (l & s' & Hrun & Hlogs & Hposted & Hstatus & Hmid & Herr
              & Hphone & Hprev & Hby & Hdel & Hread & Hact & Hu & Ht & Hc)
    end.
    rewrite Hrun in Hout. right. exists res, l. eexists _, s'.
    split; [exact Hout|]. split; [exact Hlogs|].
    split; [rewrite Hposted; reflexivity|].
    rewrite Hphone, Hprev. repeat split; try assumption.
    all: try apply take_length.
    all: destruct (PyStr.truthy (sm_text body));
      [apply take_length|simpl; lia].
Qed.


(** ** Message logs are well formed *)

Section WellFormed.
Variable E : Env.
Let I (s : Store) : Prop := Forall log_well_formed (message_logs s).

Lemma mutate_log_well_formed msg_id f :
  (forall l, l_recipient_phone (f l) = l_recipient_phone l) ->
  (forall l, l_body_preview (f l) = l_body_preview l) ->
  keeps I (mutate_log msg_id f).
Proof.
  intros Hp Hb. apply keeps_modify. intros s Hs. unfold I in *. simpl.
  apply Forall_update_first; [|exact Hs].
  intros l [H1 H2]. split; [rewrite Hp|rewrite Hb]; assumption.
Qed.

Lemma send_single_well_formed b h cu : keeps I (send_single_message E b h cu).
Proof.
  intros s Hs.
  destruct (send_single_cases E b h cu s)
    as [(code & d & -> & _)
       | (res & l & p & s' & -> & Hlogs & _ & _ & _ & _ & _ & Hval & _ & _
          & _ & _ & _ & _ & _ & Hprev)]; [exact Hs|].
  unfold I. simpl. rewrite Hlogs. apply Forall_app. split; [exact Hs|].
  constructor; [split; assumption|constructor].
Qed.

Lemma bulk_loop_well_formed tmpl tid cu recs :
  forall a b d, keeps I (bulk_loop E tmpl tid cu recs a b d).
Proof.
  induction recs as [|rec rest IH]; intros a b d; cbn [bulk_loop].
  - apply keeps_ret.
  - apply keeps_bind; [apply keeps_get_or_raise|intros phone_field].
    apply keeps_bind; [apply keeps_strip_or_raise|intros phone].
    apply keeps_bind; [apply keeps_get_or_raise|intros r_name].
    apply keeps_bind; [apply keeps_get_or_raise|intros r_vars].
    destruct (PyStr.truthy phone); cbn [negb orb]; [|apply IH].
    destruct (Phone.validate_phone phone) eqn:Hval;
      cbn [negb]; [|apply IH].
    apply keeps_bind; [apply keeps_send_template; keeps_side|intros res].
    apply keeps_bind; [apply keeps_auto_id; keeps_side|intros i].
    apply keeps_bind; [apply keeps_now_iso; keeps_side|intros ts].
    apply keeps_bind; [|intros _; apply IH].
    apply keeps_modify. intros s Hs. unfold I in *. simpl.
    apply Forall_app. split; [exact Hs|].
    constructor; [|constructor].
    split; [exact Hval|apply take_length].
Qed.

Lemma handle_well_formed r : keeps I (handle E r).
Proof.
  unfold handle, authenticated, admin_only.
  destruct (target r).
  all: try (apply keeps_bind;
            [apply keeps_get_current_user; keeps_side|intros cu]).
  all: try (apply keeps_bind; [apply keeps_get_admin_user|intros adm]).
  - apply (login_keeps_logs E (Forall log_well_formed)).
  - apply (logout_keeps_logs E (Forall log_well_formed)).
  - apply (change_password_keeps_logs E (Forall log_well_formed)).
  - apply (create_user_keeps_logs E (Forall log_well_formed)).
  - apply (update_user_keeps_logs E (Forall log_well_formed)).
  - apply (delete_user_keeps_logs E (Forall log_well_formed)).
  - apply (create_template_keeps_logs E (Forall log_well_formed)).
  - apply (update_template_keeps_logs E (Forall log_well_formed)).
  - apply (delete_template_keeps_logs E (Forall log_well_formed)).
  - apply (approve_template_keeps_logs E (Forall log_well_formed)).
  - apply send_single_well_formed.
  - unfold send_bulk_message.
    repeat first [ apply bulk_loop_well_formed | keeps_step ].
  - apply (get_campaign_detail_keeps_logs (Forall log_well_formed)).
  - apply receive_webhook_keeps. intros data su _ _.
    unfold process_status_update, get_or_raise, first_item.
    repeat first [ apply mutate_log_well_formed; reflexivity | keeps_step ].
Qed.

(** X14: in every reachable store, each message log is for a phone
    that passes validation and has a body preview of at most 100
    characters: the send handlers log nothing for an invalid phone, cut
    the preview to 100 characters, and the webhook handler changes
    neither field. *)
Theorem logs_are_well_formed (s : Store) (l : MessageLog) :
  reachable E s -> In l (message_logs s) -> log_well_formed l.
Proof.
  intros Hreach. revert l. apply List.Forall_forall.
  induction Hreach as [|r s Hs IH].
  - rewrite init_has_no_logs. constructor.
  - apply handle_well_formed. exact IH.
Qed.

End WellFormed.

Lemma logs_are_well_formed_witness : log_well_formed sent_log.
Proof.
  apply (logs_are_well_formed demo_env (run demo_env one_send (init demo_env))).
  - apply run_reachable. constructor.
  - rewrite one_send_logs. left. reflexivity.
Defined.

(** ** The response of a bulk send *)

Section BulkResponse.
Variable E : Env.

(** X15: when every element of the recipients list can be read (it is
    a dict, its phone is a string and, for a valid phone, its variables
    can be iterated), the response of a bulk send lists every recipient,
    in the order of the request, under its stripped phone; the entry of
    a recipient with an invalid phone is "failed" with the error
    "Invalid phone", no name and no message id; the entry of a recipient
    with a valid phone is "sent" or "failed" with a name and a message
    id and no error; [sent] and [failed] of the response are the numbers
    of entries with these statuses, and the campaign id is the one the
    counter stood at.  When some element cannot be read, the request
    ends with an uncaught exception (a 500 answer) and there is no such
    response. *)
Theorem bulk_response_lists_every_recipient form h cu s recs tid tmpl :
  resolve_recipients form = Some (JArr recs) ->
  recs <> [] ->
  bk_template_id form = Some tid ->
  tid <> 0 ->
  find_first (tmpl_has_id tid) (templates s) = Some tmpl ->
  (forallb (well_formed E) recs = true ->
   exists sent failed results s',
     send_bulk_message E form h cu s
     = (Ok (RBulk (next_of "campaigns" s) (List.length recs) sent failed
                  results), s')
     /\ map b_phone results = map phone_of recs
     /\ sent = count_status "sent" results
     /\ failed = count_status "failed" results
     /\ Forall2 (fun r it => phone_ok r = false -> refused_item it)
                recs results
     /\ Forall2 (fun r it => phone_ok r = true -> attempted_item it)
                recs results)
  /\ (forallb (well_formed E) recs = false ->
      exists d s',
        send_bulk_message E form h cu s = (HTTPException 500 d, s')).
Proof.
  intros Hres Hne Htid Hnz Hfind.
  destruct (send_bulk_message_run E form h cu s recs tid tmpl
              Hres Hne Htid Hnz Hfind)
    as (news & items & s' & Hs' & _ & _ & _ & _ & _ & _ & _ & Hok & Hbad).
  split.
  - intros Hwf.
    destruct (Hok Hwf)
      as (sent & failed & ts & Hfst & _ & Hs & Hf & _ & _ & Hph & Hrefused
          & Hattempted & _).
    exists sent, failed, items, s'.
    split; [|repeat split; assumption].
    rewrite (surjective_pairing (send_bulk_message E form h cu s)).
    rewrite Hfst, Hs'. reflexivity.
  - intros Hwf. destruct (Hbad Hwf) as (d & Hfst & _).
    exists d, s'.
    rewrite (surjective_pairing (send_bulk_message E form h cu s)).
    rewrite Hfst, Hs'. reflexivity.
Qed.

End BulkResponse.

Lemma bulk_response_lists_every_recipient_witness :
  exists sent failed results s',
    send_bulk_message demo_env three_recipients "127.0.0.1" admin_identity
      (init demo_env)
    = (Ok (RBulk 1 3 sent failed results), s')
    /\ map b_phone results = ["+91 98765-43210"; "not-a-phone"; "9876543211"]
    /\ sent = count_status "sent" results
    /\ failed = count_status "failed" results.
Proof.
  destruct (bulk_response_lists_every_recipient demo_env three_recipients
              "127.0.0.1" admin_identity (init demo_env)
              [ rcpt "+91 98765-43210" "Asha"; rcpt "not-a-phone" "Bela";
                rcpt "9876543211" "Chitra" ]
              2 group_invite)
    as [Hok _];
    [reflexivity | discriminate | reflexivity | lia | reflexivity |].
  destruct (Hok eq_refl)
    as (sent & failed & results & s' & Hrun & Hph & Hs & Hf & _).
  exists sent, failed, results, s'. repeat split; assumption.
Defined.

(** ** Recipients from a CSV upload *)

Lemma lstrip_head s c t :
  PyStr.lstrip s = String c t -> PyStr.is_space c = false.
Proof.
  induction s as [|d s IH]; simpl; [discriminate|].
  destruct (PyStr.is_space d) eqn:Hd; [exact IH|].
  intros [= <- <-]. exact Hd.
Qed.

Lemma rstrip_idempotent s : PyStr.rstrip (PyStr.rstrip s) = PyStr.rstrip s.
Proof.
  induction s as [|c s IH]; simpl; [reflexivity|].
  destruct (PyStr.rstrip s) as [|d r] eqn:Hr.
  - destruct (PyStr.is_space c) eqn:Hc; simpl; [reflexivity|].
    rewrite Hc. reflexivity.
  - simpl in *. rewrite IH. reflexivity.
Qed.

Lemma rstrip_keeps_head c t :
  PyStr.is_space c = false ->
  exists t', PyStr.rstrip (String c t) = String c t'.
Proof.
  intros Hc. simpl. destruct (PyStr.rstrip t); [rewrite Hc|]; eauto.
Qed.

Lemma strip_idempotent s : PyStr.strip (PyStr.strip s) = PyStr.strip s.
Proof.
  unfold PyStr.strip.
  destruct (PyStr.lstrip s) as [|c t] eqn:Hl; [reflexivity|].
  pose proof (lstrip_head s c t Hl) as Hc.
  destruct (rstrip_keeps_head c t Hc) as [t' Ht']. rewrite Ht'.
  cbn [PyStr.lstrip]. rewrite Hc, <- Ht'. apply rstrip_idempotent.
Qed.

Lemma omap_length_le {A B} (f : A -> option B) (l : list A) :
  (List.length (omap f l) <= List.length l)%nat.
Proof.
  induction l as [|x l IH]; cbn; [lia|]. destruct (f x); cbn; lia.
Qed.

Lemma filter_truthy_vars vs :
  Forall (fun v => PyStr.strip v = v) vs ->
  Forall (fun v => PyStr.truthy v = true /\ PyStr.strip v = v)
         (List.filter PyStr.truthy vs).
Proof.
  induction 1 as [|v vs Hv Hvs IH]; simpl; [constructor|].
  destruct (PyStr.truthy v) eqn:Ht; [constructor; auto|exact IH].
Qed.

Lemma map_omap_guard {A B C} (k : A -> C) (p : C -> bool) (g : A -> B)
      (h : B -> C) (l : list A) :
  (forall x, h (g x) = k x) ->
  map h (omap (fun x => if p (k x) then Some (g x) else None) l)
  = List.filter p (map k l).
Proof.
  intros Hh. induction l as [|x l IH]; cbn; [reflexivity|].
  destruct (p (k x)); cbn; rewrite IH, ?Hh; reflexivity.
Qed.

(** X16: every recipient resolved from a CSV upload has a non-empty
    phone without surrounding whitespace, a stripped name and at most
    three variables, none of them empty; a row is kept exactly when its
    phone column ([phone], else [Phone], else [PHONE]) is not blank, and
    the rows kept stay in order. *)
Theorem csv_recipients_are_clean (rows : list (gmap string string)) :
  Forall csv_recipient (recipients_of_csv rows)
  /\ map r_phone (recipients_of_csv rows)
     = List.filter PyStr.truthy (map row_phone rows)
  /\ (List.length (recipients_of_csv rows) <= List.length rows)%nat.
Proof.
  split; [|split].
  - unfold recipients_of_csv. induction rows as [|row rows IH]; cbn -[first_truthy List.filter].
    + constructor.
    + destruct (PyStr.truthy (PyStr.strip (first_truthy row _))) eqn:Ht;
        cbn -[first_truthy List.filter]; [|exact IH].
      constructor; [|exact IH].
      unfold csv_recipient. cbn -[first_truthy List.filter].
      split; [exact Ht|]. split; [apply strip_idempotent|].
      split; [apply strip_idempotent|].
      split.
      * etransitivity; [apply List.filter_length_le|]. cbn. lia.
      * apply filter_truthy_vars.
        repeat (constructor; [apply strip_idempotent|]). constructor.
  - unfold recipients_of_csv.
    apply (map_omap_guard row_phone PyStr.truthy). reflexivity.
  - apply omap_length_le.
Qed.

(** ** Paging through the message logs *)












(** ** The activity log *)

Section Trail.
Variable E : Env.
Variable L : list ActivityLog.
Variable n : Z.

Lemma trail_tick : keeps (trail_is L n) tick.
Proof. intros s H. exact H. Qed.

Lemma trail_now_iso : keeps (trail_is L n) (now_iso E).
Proof. intros s H. exact H. Qed.

Lemma trail_auto_id c :
  c <> "activity_logs" -> keeps (trail_is L n) (_auto_id c).
Proof.
  intros Hc s [Hl Hn]. split; [exact Hl|].
  rewrite next_of_auto_id_other by congruence. exact Hn.
Qed.

Lemma trail_post p : keeps (trail_is L n) (_post E p).
Proof. intros s H. destruct (_post_run E p s) as [res ->]. exact H. Qed.

Lemma trail_send_template a b c d e :
  keeps (trail_is L n) (send_template_with_variables E a b c d e).
Proof.
  unfold send_template_with_variables.
  apply keeps_bind; [apply keeps_variable_texts|intros texts].
  apply trail_post.
Qed.

Lemma trail_send_text a b : keeps (trail_is L n) (send_text_message E a b).
Proof. apply trail_post. Qed.

Lemma trail_generate_token u nm r :
  keeps (trail_is L n) (generate_token E u nm r).
Proof. intros s H. exact H. Qed.

Lemma trail_get_current_user c k :
  keeps (trail_is L n) (get_current_user E c k).
Proof.
  intros s H. unfold get_current_user, _decode_token, bind, tick.
  repeat match goal with
         | |- context [match ?x with _ => _ end] => destruct x; simpl
         end; exact H.
Qed.

End Trail.

Ltac trail_step :=
  cbv beta zeta;
  lazymatch goal with
  | |- keeps _ (ret _) => apply keeps_ret
  | |- keeps _ (raise _ _) => apply keeps_raise
  | |- keeps _ (py_raise _) => apply keeps_py_raise
  | |- keeps _ (gets _) => apply keeps_gets
  | |- keeps _ (get_or_raise _ _ _) => apply keeps_get_or_raise
  | |- keeps _ (iter_or_raise _) => apply keeps_iter_or_raise
  | |- keeps _ (strip_or_raise _) => apply keeps_strip_or_raise
  | |- keeps _ (len_or_raise _) => apply keeps_len_or_raise
  | |- keeps _ (variable_texts _ _) => apply keeps_variable_texts
  | |- keeps _ tick => apply trail_tick
  | |- keeps _ (now_iso _) => apply trail_now_iso
  | |- keeps _ (_auto_id _) => apply trail_auto_id; discriminate
  | |- keeps _ (send_template_with_variables _ _ _ _ _ _) =>
      apply trail_send_template
  | |- keeps _ (send_text_message _ _ _) => apply trail_send_text
  | |- keeps _ (generate_token _ _ _ _) => apply trail_generate_token
  | |- keeps _ (get_current_user _ _ _) => apply trail_get_current_user
  | |- keeps _ (get_admin_user _) => apply keeps_get_admin_user
  | |- keeps _ (bind _ _) => apply keeps_bind; [|intros ?]
  | |- keeps _ (modify _) => apply keeps_modify; intros ? ?; assumption
  | |- keeps _ (if ?b then _ else _) => destruct b
  | |- keeps _ (match ?x with _ => _ end) => destruct x
  end.

Lemma bulk_loop_trail E L n tmpl tid cu recs :
  forall a b d, keeps (trail_is L n) (bulk_loop E tmpl tid cu recs a b d).
Proof.
  induction recs as [|rec rest IH]; intros a b d; cbn [bulk_loop].
  - apply keeps_ret.
  - repeat first [ apply IH | trail_step ].
Qed.

Section Audit.
Variable E : Env.
Variable ip : string.

Lemma audited_raise act {A} c d : audited ip act (@raise A c d).
Proof. intros s. unfold recorded. cbn. split; reflexivity. Qed.

Lemma audited_quiet {A} (m : M A) :
  (forall L n, keeps (trail_is L n) m) -> audited ip None m.
Proof.
  intros Hm s. unfold recorded.
  assert (H : trail_is (activity_logs s) (next_of "activity_logs" s)
                       (snd (m s))) by (apply Hm; split; reflexivity).
  destruct (fst (m s)); exact H.
Qed.

Lemma audited_bind act {A B} (m : M A) (k : A -> M B) :
  (forall L n, keeps (trail_is L n) m) ->
  (forall a, audited ip act (k a)) ->
  audited ip act (bind m k).
Proof.
  intros Hm Hk s.
  assert (H : trail_is (activity_logs s) (next_of "activity_logs" s)
                       (snd (m s))) by (apply Hm; split; reflexivity).
  unfold bind. destruct (m s) as [[a|c d] s1]; cbn [snd] in H.
  - specialize (Hk a s1). destruct H as [Hl Hn].
    unfold recorded in *. rewrite Hl, Hn in Hk. exact Hk.
  - unfold recorded. cbn. exact H.
Qed.

Lemma audited_log act u nm d {A} (x : A) :
  audited ip (Some act)
          (bind (log_activity E u nm act d (Some ip)) (fun _ => ret x)).
Proof.
  intros s. unfold recorded, log_activity, bind, now_iso, tick, modify, ret.
  pose proof (auto_id_value "activity_logs" s) as Hv.
  pose proof (next_of_auto_id_same "activity_logs" s) as Hn.
  assert (Hl : activity_logs (snd (_auto_id "activity_logs" s))
               = activity_logs s) by reflexivity.
  destruct (_auto_id "activity_logs" s) as [[i|c e] s1]; cbn [fst snd] in *;
    [|discriminate].
  injection Hv as ->. cbn. rewrite Hl.
  eexists. split; [reflexivity|]. cbn.
  repeat split. exact Hn.
Qed.

End Audit.

Ltac audit_step :=
  cbv beta zeta;
  lazymatch goal with
  | |- audited _ _ (raise _ _) => apply audited_raise
  | |- audited _ _ (bind (log_activity _ _ _ _ _ _) _) => apply audited_log
  | |- audited _ _ (bind _ _) =>
      apply audited_bind;
      [intros ? ?; repeat first [ apply bulk_loop_trail | trail_step ]
      |intros ?]
  | |- audited _ _ (if ?b then _ else _) => destruct b
  | |- audited _ _ (match ?x with _ => _ end) => destruct x
  end.

Lemma handle_audited E r :
  audited (host r) (action_of (target r)) (handle E r).
Proof.
  unfold handle. destruct (target r); cbn [action_of];
    unfold authenticated, admin_only.
  - unfold login. repeat audit_step.
  - unfold logout. repeat audit_step.
  - unfold change_password. repeat audit_step.
  - unfold create_user. repeat audit_step.
  - unfold update_user. repeat audit_step.
  - unfold delete_user. repeat audit_step.
  - unfold create_template. repeat audit_step.
  - unfold update_template. repeat audit_step.
  - unfold delete_template. repeat audit_step.
  - unfold approve_template. repeat audit_step.
  - unfold send_single_message, record_single. repeat audit_step.
  - unfold send_bulk_message. repeat audit_step.
  - apply audited_quiet. intros L n.
    unfold get_campaign_detail. repeat trail_step.
  - apply audited_quiet. intros L n.
    apply receive_webhook_keeps. intros data su _ _.
    unfold process_status_update, get_or_raise, first_item, mutate_log.
    repeat trail_step.
Qed.

Lemma handle_appends E r s :
  exists more,
    activity_logs (snd (handle E r s)) = activity_logs s ++ more
    /\ (List.length more <= 1)%nat.
Proof.
  pose proof (handle_audited E r s) as H. unfold recorded in H.
  destruct (fst (handle E r s)), (action_of (target r)).
  - destruct H as (e & -> & _). exists [e]. split; [reflexivity|cbn; lia].
  - destruct H as [-> _]. exists []. rewrite app_nil_r. split; [reflexivity|].
    cbn; lia.
  - destruct H as [-> _]. exists []. rewrite app_nil_r. split; [reflexivity|].
    cbn; lia.
  - destruct H as [-> _]. exists []. rewrite app_nil_r. split; [reflexivity|].
    cbn; lia.
Qed.

Lemma run_appends E rs :
  forall s, exists more,
    activity_logs (run E rs s) = activity_logs s ++ more
    /\ (List.length more <= List.length rs)%nat.
Proof.
  induction rs as [|r rs IH]; intros s; cbn [run fold_left].
  - exists []. rewrite app_nil_r. split; [reflexivity|cbn; lia].
  - destruct (handle_appends E r s) as (m1 & H1 & L1).
    destruct (IH (snd (handle E r s))) as (m2 & H2 & L2).
    exists (m1 ++ m2). unfold run in H2. rewrite H2, H1, <- app_assoc.
    split; [reflexivity|]. rewrite length_app. cbn [List.length]. lia.
Qed.

(** X19. The activity log is an append-only record of the requests that
    succeeded: a request to a route that calls [log_activity] adds, when it
    is answered, exactly one entry at the end of the log, with the next
    activity id, the action of the route and the address of the client; a
    request that is refused, a campaign lookup and a webhook call leave the
    log and its counter as they were.  So over any sequence of requests the
    log only grows at its end, by at most one entry a request. *)
Theorem activity_log_records_each_success (E : Env) (r : request)
        (rs : list request) (s : Store) :
  recorded (host r) (action_of (target r)) s (handle E r s)
  /\ exists more,
       activity_logs (run E rs s) = activity_logs s ++ more
       /\ (List.length more <= List.length rs)%nat.
Proof. split; [apply handle_audited|apply run_appends]. Qed.

Lemma count_to_S n : count_to (S n) = count_to n ++ [Z.of_nat n + 1].
Proof.
  unfold count_to. rewrite seq_S, map_app. cbn [map]. do 2 f_equal. lia.
Qed.

(** X20. In every reachable store the ids of the activity log are
    1, 2, 3, ... in the order of the entries, and the next id to be given
    is the number of entries plus one. *)
Theorem activity_ids_count_up (E : Env) (s : Store) :
  reachable E s ->
  map a_id (activity_logs s) = count_to (List.length (activity_logs s))
  /\ next_of "activity_logs" s = Z.of_nat (List.length (activity_logs s)) + 1.
Proof.
  induction 1 as [|r s Hs [IHids IHnext]].
  - split; vm_compute; reflexivity.
  - pose proof (handle_audited E r s) as H. unfold recorded in H.
    destruct (fst (handle E r s)), (action_of (target r)).
    + destruct H as (e & -> & Hid & _ & _ & ->).
      rewrite map_app, length_app. cbn [map List.length].
      replace (List.length (activity_logs s) + 1)%nat
        with (S (List.length (activity_logs s))) by lia.
      rewrite count_to_S, IHids, Hid, IHnext. split; [reflexivity|lia].
    + destruct H as [-> ->]. split; assumption.
    + destruct H as [-> ->]. split; assumption.
    + destruct H as [-> ->]. split; assumption.
Qed.

Lemma activity_ids_count_up_witness :
  map a_id (activity_logs (run demo_env one_send (init demo_env)))
  = count_to (List.length
                (activity_logs (run demo_env one_send (init demo_env))))
  /\ next_of "activity_logs" (run demo_env one_send (init demo_env))
     = Z.of_nat (List.length
                   (activity_logs (run demo_env one_send (init demo_env))))
       + 1.
Proof.
  apply (activity_ids_count_up demo_env). apply run_reachable. constructor.
Defined.

(** ** Logging in after the creation of a user *)

Lemma is_space_lower c :
  PyStr.is_space (PyStr.lower_char c) = PyStr.is_space c.
Proof. destruct c as [[] [] [] [] [] [] [] []]; vm_compute; reflexivity. Qed.

Lemma lstrip_lower s : PyStr.lstrip (PyStr.lower s) = PyStr.lower (PyStr.lstrip s).
Proof.
  induction s as [|c s IH]; cbn [PyStr.lower PyStr.lstrip]; [reflexivity|].
  rewrite is_space_lower. destruct (PyStr.is_space c); [exact IH|reflexivity].
Qed.

Lemma rstrip_lower s : PyStr.rstrip (PyStr.lower s) = PyStr.lower (PyStr.rstrip s).
Proof.
  induction s as [|c s IH]; cbn [PyStr.lower PyStr.rstrip]; [reflexivity|].
  rewrite IH, is_space_lower.
  destruct (PyStr.rstrip s); cbn [PyStr.lower];
    [destruct (PyStr.is_space c)|]; reflexivity.
Qed.

Lemma strip_lower s : PyStr.strip (PyStr.lower s) = PyStr.lower (PyStr.strip s).
Proof. unfold PyStr.strip. rewrite lstrip_lower, rstrip_lower. reflexivity. Qed.

Lemma truthy_lower s : PyStr.truthy (PyStr.lower s) = PyStr.truthy s.
Proof. destruct s; reflexivity. Qed.

(** What a successful [create_user] has done. *)
Lemma create_user_run E body h cu s uid msg s1 :
  create_user E body h cu s = (Ok (RCreated uid msg), s1) ->
  PyStr.truthy (PyStr.strip (cu_username body)) = true
  /\ PyStr.truthy (cu_password body) = true
  /\ existsb (fun u => String.eqb (u_username u)
                         (PyStr.lower (PyStr.strip (cu_username body))))
             (users s) = false
  /\ exists n now,
       users s1 = users s ++ [created_record E body uid n now].
Proof.
  unfold create_user. cbv zeta.
  destruct (PyStr.truthy (PyStr.strip (cu_name body))) eqn:Hn;
    [|intros; discriminate].
  destruct (PyStr.truthy (PyStr.lower (PyStr.strip (cu_email body)))) eqn:He;
    [|intros; discriminate].
  destruct (PyStr.truthy (PyStr.lower (PyStr.strip (cu_username body))))
    eqn:Hu; [|intros; discriminate].
  destruct (PyStr.truthy (cu_password body)) eqn:Hp; [|intros; discriminate].
  cbn [andb negb].
  destruct (String.length (cu_password body) <? 6)%nat; [intros; discriminate|].
  destruct (negb _); [intros; discriminate|].
  unfold bind at 1, gets at 1.
  destruct (MAX_USERS <=? active_count (users s))%nat; [intros; discriminate|].
  destruct (existsb (fun u => String.eqb (u_username u) _) (users s)) eqn:Hex;
    [intros; discriminate|].
  destruct (existsb (fun u => String.eqb (u_email u) _) (users s));
    [intros; discriminate|].
  unfold bind, now_iso, tick, modify, log_activity, _auto_id, ret.
  cbn -[pretty PyStr.strip PyStr.lower].
  intros [= <- _ <-]. rewrite truthy_lower in Hu.
  repeat split; try assumption.
  eexists _, _. reflexivity.
Qed.

Lemma find_first_last {A} (p : A -> bool) (l : list A) (x : A) :
  existsb p l = false ->
  find_first p (l ++ [x]) = if p x then Some x else None.
Proof.
  unfold find_first. induction l as [|y l IH]; cbn; [reflexivity|].
  intros H. apply orb_false_iff in H as [-> Hl]. exact (IH Hl).
Qed.

Lemma existsb_login_match uname us :
  existsb (fun u => String.eqb (u_username u) uname) us = false ->
  existsb (login_match uname) us = false.
Proof.
  induction us as [|u us IH]; cbn; [reflexivity|].
  intros H. apply orb_false_iff in H as [Hu Hus].
  unfold login_match at 1. rewrite Hu, (IH Hus). reflexivity.
Qed.

(** X21. A user that [create_user] has just stored can log in with the
    password of the request and the username in lower case, whatever the
    case it was typed in (given that the hash check accepts the hash made
    from the same password), and the answer carries the new id and the
    stored name, username, email and role.  With the username as typed,
    when that differs from its lower case, the same login is refused with
    401, unless an older account has exactly that username. *)
Theorem created_user_logs_in_lower_case (E : Env) (body : CreateUserRequest)
        (h h' : string) (cu : identity) (s s1 : Store) (uid : Z)
        (msg : string) :
  hash_contract E ->
  create_user E body h cu s = (Ok (RCreated uid msg), s1) ->
  let stored := PyStr.lower (PyStr.strip (cu_username body)) in
  (exists tok s2,
     login E (credentials_of (PyStr.lower (cu_username body)) body) h' s1
     = (Ok (RLogin tok
              {| lu_id := uid; lu_name := PyStr.strip (cu_name body);
                 lu_username := stored;
                 lu_email := PyStr.lower (PyStr.strip (cu_email body));
                 lu_role := cu_role body |}), s2))
  /\ (PyStr.strip (cu_username body) <> stored ->
      existsb (fun u => String.eqb (u_username u)
                          (PyStr.strip (cu_username body))) (users s) = false ->
      login E (credentials_of (cu_username body) body) h' s1
      = (HTTPException 401 "Invalid credentials", s1)).
Proof.
  intros Hhash Hrun stored.
  destruct (create_user_run _ _ _ _ _ _ _ _ Hrun)
    as (Hu & Hp & Hex & n & now & Husers).
  split.
  - unfold login, credentials_of. cbv zeta. cbn [lr_username lr_password].
    rewrite strip_lower, truthy_lower, Hu, Hp. cbn [negb orb].
    unfold bind at 1, gets at 1. rewrite Husers.
    rewrite find_first_last by (apply existsb_login_match; exact Hex).
    unfold login_match at 1. cbn [created_record u_username u_is_active].
    rewrite String.eqb_refl. cbn [andb]. unfold created_record.
    cbn [u_password_hash u_id u_name u_username u_email u_role].
    rewrite Hhash. cbn [negb].
    unfold bind, now_iso, tick, modify, generate_token, log_activity,
      _auto_id, ret, gets.
    cbn -[jwt_encode pretty PyStr.strip PyStr.lower update_first].
    eexists _, _. reflexivity.
  - intros Hcase Hold.
    unfold login, credentials_of. cbv zeta. cbn [lr_username lr_password].
    rewrite Hu, Hp. cbn [negb orb].
    unfold bind, gets. rewrite Husers.
    rewrite find_first_last by (apply existsb_login_match; exact Hold).
    unfold login_match. cbn [created_record u_username u_is_active].
    destruct (String.eqb_spec (PyStr.lower (PyStr.strip (cu_username body)))
                              (PyStr.strip (cu_username body))) as [Heq|_].
    + exfalso. apply Hcase. symmetry. exact Heq.
    + reflexivity.
Qed.

Lemma carol_created_run :
  create_user demo_env carol_request "127.0.0.1" admin_identity
              (init demo_env)
  = (Ok (RCreated 2 "User created successfully"), carol_created).
Proof. vm_compute. reflexivity. Qed.

Lemma created_user_logs_in_lower_case_witness :
  (exists tok s2,
     login demo_env (credentials_of (PyStr.lower " Carol ") carol_request)
           "10.0.0.7" carol_created
     = (Ok (RLogin tok
              {| lu_id := 2; lu_name := "Carol"; lu_username := "carol";
                 lu_email := "carol@geb.com"; lu_role := "viewer" |}), s2))
  /\ login demo_env (credentials_of " Carol " carol_request) "10.0.0.7"
           carol_created
     = (HTTPException 401 "Invalid credentials", carol_created).
Proof.
  destruct (created_user_logs_in_lower_case demo_env carol_request
              "127.0.0.1" "10.0.0.7" admin_identity (init demo_env)
              carol_created 2 "User created successfully"
              demo_hash_contract carol_created_run) as [Hin Hout].
  split; [exact Hin|].
  apply Hout; [discriminate|reflexivity].
Defined.

(** ** Deleting a template *)

Lemma remove_first_filter (tid : Z) (l : list Template) :
  NoDup (map t_id l) ->
  remove_first (tmpl_has_id tid) l
  = List.filter (fun t => negb (tmpl_has_id tid t)) l.
Proof.
  induction l as [|t l IH]; cbn [map remove_first List.filter];
    [reflexivity|].
  intros Hnd. apply NoDup_cons in Hnd as [Hnot Hnd].
  destruct (tmpl_has_id tid t) eqn:Ht; cbn [negb].
  - symmetry. apply forallb_filter_id. apply forallb_forall.
    intros x Hx. apply negb_true_iff. unfold tmpl_has_id in *.
    apply Z.eqb_eq in Ht. apply Z.eqb_neq. intros Hxt.
    apply Hnot. apply list_elem_of_In. rewrite Ht, <- Hxt.
    apply in_map. exact Hx.
  - rewrite (IH Hnd). reflexivity.
Qed.

Lemma find_first_filter_out {A} (p : A -> bool) (l : list A) :
  find_first p (List.filter (fun x => negb (p x)) l) = None.
Proof.
  apply find_first_none. intros x Hx. apply filter_In in Hx as [_ Hx].
  apply negb_true_iff. exact Hx.
Qed.

Lemma validated_phone_truthy p :
  Phone.validate_phone (PyStr.strip p) = true ->
  PyStr.truthy (PyStr.strip p) = true.
Proof. destruct (PyStr.strip p); [discriminate|reflexivity]. Qed.

(** X22. In a reachable store, a deletion that succeeds removes exactly
    the template with that id and no other, and leaves the message logs
    and campaigns as they were; afterwards no template has the id, so a
    template message or a bulk send that names it is refused with 404 and
    changes nothing. *)
Theorem deleted_template_is_gone (E : Env) (s s1 : Store) (tid : Z)
        (h : string) (cu : identity) (r : response) :
  reachable E s ->
  delete_template E tid h cu s = (Ok r, s1) ->
  templates s1 = List.filter (fun t => negb (tmpl_has_id tid t)) (templates s)
  /\ S (List.length (templates s1)) = List.length (templates s)
  /\ find_first (tmpl_has_id tid) (templates s1) = None
  /\ message_logs s1 = message_logs s /\ campaigns s1 = campaigns s
  /\ (forall body h' cu',
        sm_type body = "template" -> sm_template_id body = Some tid ->
        Phone.validate_phone (PyStr.strip (sm_phone body)) = true ->
        send_single_message E body h' cu' s1
        = (HTTPException 404 "Template not found", s1))
  /\ (forall form recs h' cu',
        bk_template_id form = Some tid ->
        resolve_recipients form = Some recs ->
        Json.truthy recs = true ->
        send_bulk_message E form h' cu' s1
        = (HTTPException 404 "Template not found", s1)).
Proof.
  intros Hreach Hrun.
  destruct (reachable_fresh_templates E s Hreach) as (Hnd & Hall & _).
  unfold template_ids in Hnd, Hall.
  unfold delete_template in Hrun. unfold bind at 1, gets at 1 in Hrun.
  destruct (find_first (tmpl_has_id tid) (templates s)) as [tmpl|] eqn:Hfind;
    [|discriminate].
  unfold bind, modify, log_activity, now_iso, tick, _auto_id, ret in Hrun.
  cbn -[pretty] in Hrun. injection Hrun as _ Hs1.
  assert (Ht : templates s1 = remove_first (tmpl_has_id tid) (templates s))
    by (rewrite <- Hs1; reflexivity).
  assert (Hl : message_logs s1 = message_logs s)
    by (rewrite <- Hs1; reflexivity).
  assert (Hc : campaigns s1 = campaigns s) by (rewrite <- Hs1; reflexivity).
  clear Hs1.
  assert (Hin : In tmpl (templates s) /\ tmpl_has_id tid tmpl = true).
  { unfold find_first in Hfind. apply find_some in Hfind. exact Hfind. }
  destruct Hin as [Hin Hid].
  assert (Hpos : tid <> 0).
  { rewrite List.Forall_forall in Hall.
    specialize (Hall (t_id tmpl) (in_map t_id _ _ Hin)).
    unfold tmpl_has_id in Hid. apply Z.eqb_eq in Hid. lia. }
  assert (Hlen : S (List.length (templates s1)) = List.length (templates s)).
  { rewrite Ht. clear - Hin Hid.
    induction (templates s) as [|t l IH]; [destruct Hin|].
    cbn [remove_first]. destruct (tmpl_has_id tid t) eqn:Htt; [reflexivity|].
    cbn [List.length]. f_equal. apply IH.
    destruct Hin as [-> | Hin]; [congruence|exact Hin]. }
  rewrite (remove_first_filter tid _ Hnd) in Ht.
  pose proof (find_first_filter_out (tmpl_has_id tid) (templates s)) as Hgone.
  rewrite <- Ht in Hgone.
  split; [exact Ht|]. split; [exact Hlen|].
  split; [exact Hgone|]. split; [exact Hl|]. split; [exact Hc|].
  split.
  - intros body h' cu' Htype Htid Hphone.
    unfold send_single_message. cbv zeta.
    rewrite (validated_phone_truthy _ Hphone), Hphone, Htype, Htid.
    cbn [negb String.eqb Ascii.eqb Bool.eqb andb id_truthy].
    destruct (Z.eqb_spec tid 0) as [H0|_]; [contradiction|].
    cbn [negb default from_option id].
    unfold bind, gets. rewrite Hgone. reflexivity.
  - intros form recs h' cu' Htid Hrecs Htruthy.
    unfold send_bulk_message. cbv zeta. rewrite Hrecs, Htruthy, Htid.
    cbn [id_truthy]. destruct (Z.eqb_spec tid 0) as [H0|_]; [contradiction|].
    cbn [negb default from_option id].
    unfold bind, gets. rewrite Hgone. reflexivity.
Qed.

Lemma deleted_store_run :
  delete_template demo_env 1 "127.0.0.1" admin_identity (init demo_env)
  = (Ok (RMessage "Template deleted"), deleted_store).
Proof. vm_compute. reflexivity. Qed.

Lemma deleted_template_is_gone_witness :
  send_single_message demo_env late_invite "127.0.0.1" admin_identity
                      deleted_store
  = (HTTPException 404 "Template not found", deleted_store).
Proof.
  destruct (deleted_template_is_gone demo_env (init demo_env) deleted_store 1
              "127.0.0.1" admin_identity (RMessage "Template deleted")
              (reach_init demo_env) deleted_store_run)
    as (_ & _ & _ & _ & _ & Hsend & _).
  apply Hsend; reflexivity.
Defined.

(** ** Stored password hashes *)

Section SecretsKept.
Variable E : Env.
Variable s0 : Store.

Lemma secrets_kept_update_first p f :
  (forall u, user_secret (f u) = user_secret u) ->
  keeps (secrets_kept s0)
        (modify (fun s => with_users (update_first p f (users s)) s)).
Proof.
  intros Hf. apply keeps_modify. intros s (more & Hs).
  exists more. cbn. rewrite map_update_first; assumption.
Qed.

Lemma create_user_secrets_kept b h cu :
  keeps (secrets_kept s0) (create_user E b h cu).
Proof.
  unfold create_user. keeps_auto.
  apply keeps_modify. intros s (more & Hs).
  eexists. cbn. rewrite map_app, Hs, <- app_assoc. reflexivity.
Qed.

Lemma handle_secrets_kept r :
  sets_password (target r) = false -> keeps (secrets_kept s0) (handle E r).
Proof.
  unfold handle, authenticated, admin_only.
  destruct (target r); intros Hr; try discriminate Hr.
  all: try (apply keeps_bind;
            [apply keeps_get_current_user; keeps_side|intros cu]).
  all: try (apply keeps_bind; [apply keeps_get_admin_user|intros adm]).
  - unfold login.
    repeat first [ apply secrets_kept_update_first; reflexivity | keeps_step ].
  - apply (logout_keeps_users E
             (fun us => exists more,
                map user_secret us = map user_secret (users s0) ++ more)).
  - apply create_user_secrets_kept.
  - unfold update_user.
    repeat first [ apply secrets_kept_update_first; reflexivity | keeps_step ].
  - unfold delete_user.
    repeat first [ apply secrets_kept_update_first; reflexivity | keeps_step ].
  - apply (create_template_keeps_users E
             (fun us => exists more,
                map user_secret us = map user_secret (users s0) ++ more)).
  - apply (update_template_keeps_users E
             (fun us => exists more,
                map user_secret us = map user_secret (users s0) ++ more)).
  - apply (delete_template_keeps_users E
             (fun us => exists more,
                map user_secret us = map user_secret (users s0) ++ more)).
  - apply (approve_template_keeps_users E
             (fun us => exists more,
                map user_secret us = map user_secret (users s0) ++ more)).
  - apply (send_single_keeps_users E
             (fun us => exists more,
                map user_secret us = map user_secret (users s0) ++ more)).
  - apply (send_bulk_keeps_users E
             (fun us => exists more,
                map user_secret us = map user_secret (users s0) ++ more)).
  - apply (get_campaign_detail_keeps_users
             (fun us => exists more,
                map user_secret us = map user_secret (users s0) ++ more)).
  - apply (receive_webhook_keeps_users E
             (fun us => exists more,
                map user_secret us = map user_secret (users s0) ++ more)).
Qed.

End SecretsKept.

Lemma run_secrets_kept E s0 rs :
  Forall (fun r => sets_password (target r) = false) rs ->
  forall s, secrets_kept s0 s -> secrets_kept s0 (run E rs s).
Proof.
  induction 1 as [|r rs Hr Hrs IH]; intros s H; simpl; [exact H|].
  apply IH. apply handle_secrets_kept; assumption.
Qed.

Lemma others_update_first uid f us :
  (forall u, u_id (f u) = u_id u) ->
  others uid (update_first (has_id uid) f us) = others uid us.
Proof.
  intros Hf. unfold others.
  induction us as [|u us IH]; cbn [update_first List.filter]; [reflexivity|].
  destruct (has_id uid u) eqn:Hu; cbn [List.filter negb].
  - unfold has_id in *. rewrite Hf, Hu. reflexivity.
  - rewrite Hu, IH. reflexivity.
Qed.

Lemma change_password_keeps_others E body h cu us :
  keeps (fun s => others (user_id cu) (users s) = us)
        (change_password E body h cu).
Proof.
  unfold change_password.
  repeat first
    [ keeps_step
    | apply keeps_modify; intros s Hs; cbn [users with_users];
      rewrite others_update_first by reflexivity; exact Hs ].
Qed.

(** X23. A stored password hash changes through [change_password] only:
    over any sequence of requests to the other routes (logins, user
    creation, update and deactivation by an admin, templates, sends,
    webhooks) every user keeps its id, username and password hash.  And
    [change_password] itself leaves all accounts but the caller's as they
    were. *)
Theorem password_changes_only_by_owner (E : Env) (rs : list request)
        (s : Store) :
  Forall (fun r => sets_password (target r) = false) rs ->
  secrets_kept s (run E rs s)
  /\ forall body h cu,
       others (user_id cu) (users (snd (change_password E body h cu s)))
       = others (user_id cu) (users s).
Proof.
  intros Hrs. split.
  - apply run_secrets_kept; [exact Hrs|].
    exists []. rewrite app_nil_r. reflexivity.
  - intros body h cu. apply change_password_keeps_others. reflexivity.
Qed.

Lemma password_changes_only_by_owner_witness :
  secrets_kept (init demo_env) (run demo_env admin_edits (init demo_env)).
Proof.
  apply (password_changes_only_by_owner demo_env admin_edits (init demo_env)).
  repeat constructor.
Defined.

(** ** Payloads and message logs *)

Section PostsMatchLogs.
Variable E : Env.

Lemma mutate_log_matches msg_id f :
  (forall l, l_recipient_phone (f l) = l_recipient_phone l) ->
  keeps posts_match_logs (mutate_log msg_id f).
Proof.
  intros Hf. apply keeps_modify. intros s Hs.
  unfold posts_match_logs in *. cbn. rewrite map_update_first; [exact Hs|].
  intros l. unfold log_address. rewrite Hf. reflexivity.
Qed.

Lemma send_single_matches body h cu :
  keeps posts_match_logs (send_single_message E body h cu).
Proof.
  assert (Hrec : forall phone name mtype tid tname preview res p s,
             payload_to p = Phone._normalize_phone phone ->
             posts_match_logs s ->
             posts_match_logs
               (snd (record_single E phone name mtype tid tname preview res
                       h cu
                       (with_ticks (S (ticks s))
                          (with_posted (posted s ++ [p]) s))))).
  { intros phone name mtype tid tname preview res p s Hp Hs.
    destruct (record_single_run E phone name mtype tid tname preview res h cu
                (with_ticks (S (ticks s)) (with_posted (posted s ++ [p]) s)))
      as (l & s' & -> & Hlogs & Hposted & _ & _ & _ & Hphone & _).
    unfold posts_match_logs in *. cbn [snd]. rewrite Hlogs, Hposted.
    cbn [posted message_logs with_ticks with_posted].
    rewrite !map_app, Hs. f_equal. cbn [map]. unfold log_address.
    rewrite Hphone, Hp. reflexivity. }
  unfold send_single_message. cbv zeta.
  destruct (negb (PyStr.truthy (PyStr.strip (sm_phone body))));
    [apply keeps_raise|].
  destruct (negb (Phone.validate_phone (PyStr.strip (sm_phone body))));
    [apply keeps_raise|].
  destruct (String.eqb (sm_type body) "template"
            && id_truthy (sm_template_id body)).
  - apply keeps_bind; [apply keeps_gets|intros found].
    destruct found as [tmpl|]; [|apply keeps_raise].
    intros s Hs. unfold bind at 1.
    destruct (send_template_run E
                (PyStr.strip (sm_phone body)) (t_name tmpl)
                (sm_variables body) (t_language tmpl) (t_button_url tmpl) s)
      as [res ->].
    apply Hrec; [reflexivity|exact Hs].
  - destruct (String.eqb (sm_type body) "text" && PyStr.truthy (sm_text body));
      [|apply keeps_raise].
    intros s Hs. unfold bind at 1.
    destruct (send_text_message_run E (PyStr.strip (sm_phone body))
                (sm_text body) s) as [res ->].
    apply Hrec; [reflexivity|exact Hs].
Qed.

Lemma bulk_loop_matches tmpl tid cu recs a b d :
  keeps posts_match_logs (bulk_loop E tmpl tid cu recs a b d).
Proof.
  intros s Hs.
  destruct (bulk_loop_run E tmpl tid cu recs a b d s)
    as (news & items & s' & -> & Hlogs & Hph & _ & _ & Hposted & _).
  unfold posts_match_logs in *. rewrite Hlogs, Hposted.
  rewrite !map_app, Hs. f_equal.
  change (map log_address news)
    with (map (fun l => Phone._normalize_phone (l_recipient_phone l)) news).
  rewrite <- (map_map l_recipient_phone Phone._normalize_phone), Hph.
  rewrite !map_map. reflexivity.
Qed.

Lemma handle_matches r : keeps posts_match_logs (handle E r).
Proof.
  unfold handle, authenticated, admin_only.
  destruct (target r).
  all: try (apply keeps_bind;
            [apply keeps_get_current_user; keeps_side|intros cu]).
  all: try (apply keeps_bind; [apply keeps_get_admin_user|intros adm]).
  - unfold login. keeps_auto.
  - unfold logout. keeps_auto.
  - unfold change_password. keeps_auto.
  - unfold create_user. keeps_auto.
  - unfold update_user. keeps_auto.
  - unfold delete_user. keeps_auto.
  - unfold create_template. keeps_auto.
  - unfold update_template. keeps_auto.
  - unfold delete_template. keeps_auto.
  - unfold approve_template. keeps_auto.
  - apply send_single_matches.
  - unfold send_bulk_message.
    repeat first [ apply bulk_loop_matches | keeps_step ].
  - unfold get_campaign_detail. keeps_auto.
  - apply receive_webhook_keeps. intros data su _ _.
    unfold process_status_update, get_or_raise, first_item.
    repeat first [ apply mutate_log_matches; reflexivity | keeps_step ].
Qed.

End PostsMatchLogs.

(** X24. In every reachable store the payloads handed to the gateway and
    the message logs go by pairs: there is one log for each payload and
    one payload for each log, in the same order, and each payload is
    addressed to the normalised phone number of its log. *)
Theorem gateway_payloads_match_logs (E : Env) (s : Store) :
  reachable E s ->
  posts_match_logs s
  /\ List.length (posted s) = List.length (message_logs s).
Proof.
  intros Hs.
  assert (H : posts_match_logs s).
  { induction Hs as [|r s Hs IH]; [reflexivity|].
    apply handle_matches. exact IH. }
  split; [exact H|].
  apply (f_equal (@List.length _)) in H. rewrite !length_map in H. exact H.
Qed.

Lemma gateway_payloads_match_logs_witness :
  posts_match_logs (run demo_env one_send (init demo_env))
  /\ List.length (posted (run demo_env one_send (init demo_env)))
     = List.length (message_logs (run demo_env one_send (init demo_env))).
Proof.
  apply (gateway_payloads_match_logs demo_env).
  apply run_reachable. constructor.
Defined.

(** ** Campaign counters *)

Section Campaigns.
Variable E : Env.

Lemma string_length_chars s : String.length s = List.length (Json.chars s).
Proof.
  unfold Json.chars. rewrite length_map.
  induction s as [|c s IH]; cbn; [reflexivity|]. rewrite IH. reflexivity.
Qed.

Lemma len_iter v n l :
  Json.len v = Some n -> Json.iter v = Some l -> n = List.length l.
Proof.
  destruct v; try discriminate; cbn [Json.len Json.iter];
    intros [= <-] [= <-].
  - apply string_length_chars.
  - reflexivity.
  - rewrite length_map. reflexivity.
Qed.

Lemma send_bulk_message_campaign form h cu s :
  (exists code d,
     fst (send_bulk_message E form h cu s) = HTTPException code d
     /\ campaigns (snd (send_bulk_message E form h cu s)) = campaigns s)
  \/ (exists c d,
        fst (send_bulk_message E form h cu s) = HTTPException 500 d
        /\ campaigns (snd (send_bulk_message E form h cu s))
           = campaigns s ++ [c]
        /\ campaign_running c
        /\ c_delivered_count c = 0%nat /\ c_read_count c = 0%nat)
  \/ (exists c resp,
        fst (send_bulk_message E form h cu s) = Ok resp
        /\ campaigns (snd (send_bulk_message E form h cu s))
           = campaigns s ++ [c]
        /\ campaign_completed c
        /\ c_delivered_count c = 0%nat /\ c_read_count c = 0%nat).
Proof.
  remember (send_bulk_message E form h cu s) as out eqn:Hout.
  unfold send_bulk_message in Hout. cbv zeta in Hout.
  destruct (resolve_recipients form) as [recs|];
    [|subst out; left; eexists _, _; split; reflexivity].
  destruct (negb (Json.truthy recs));
    [subst out; left; eexists _, _; split; reflexivity|].
  destruct (negb (id_truthy (bk_template_id form)));
    [subst out; left; eexists _, _; split; reflexivity|].
  unfold bind at 1 in Hout. unfold gets at 1 in Hout. cbv beta in Hout.
  destruct (find_first _ (templates s)) as [tmpl|];
    [|subst out; left; eexists _, _; split; reflexivity].
  set (sA := with_ticks (S (ticks s)) s) in *.
  rewrite (bind_run (now_iso E) _ s (isoformat E (utcnow E (ticks s))) sA)
    in Hout by reflexivity.
  assert (Hid : exists cid s0,
             _auto_id "campaigns" sA = (Ok cid, s0)
             /\ campaigns s0 = campaigns s)
    by (eexists _, _; split; reflexivity).
  destruct Hid as (cid & s0 & Hid & Hc0).
  rewrite (bind_run _ _ sA _ s0 Hid) in Hout. clear Hid.
  unfold len_or_raise in Hout.
  destruct (Json.len recs) as [total|] eqn:Hlen.
  2:{ subst out. left. eexists _, _. split; [reflexivity|exact Hc0]. }
  rewrite bind_ret_l in Hout.
  rewrite (bind_run (gets _) _ s0 (List.length (campaigns s0)) s0)
    in Hout by reflexivity.
  set (c0 := new_campaign _ _ _ _ _ _ _) in Hout.
  set (s1 := with_campaigns (campaigns s0 ++ [c0]) s0).
  rewrite (bind_run (modify _) _ s0 tt s1) in Hout by reflexivity.
  unfold iter_or_raise in Hout.
  destruct (Json.iter recs) as [items|] eqn:Hiter.
  2:{ unfold py_raise in Hout. rewrite bind_raise_l in Hout. subst out.
      right. left. exists c0. eexists. split; [reflexivity|].
      unfold raise. cbn [snd campaigns with_campaigns s1]. rewrite Hc0.
      repeat split. }
  rewrite bind_ret_l in Hout.
  destruct (bulk_loop_run E tmpl (default 0 (bk_template_id form)) cu items
              0 0 [] s1)
    as (news & its & s2 & Hs2 & _ & _ & _ & _ & _ & _ & _ & Hc & _
        & Hokr & Hbad).
  cbn [campaigns with_campaigns s1] in Hc.
  destruct (forallb (well_formed E) items) eqn:Hall.
  - destruct (Hokr eq_refl)
      as (sent & failed & Hfst & _ & _ & Hsum & _).
    clear Hokr Hbad.
    match type of Hout with
    | _ = bind ?m _ _ =>
        assert (Hloop : m s1 = (Ok (sent, failed, its), s2))
          by (rewrite (surjective_pairing (m s1)), Hfst, Hs2; reflexivity)
    end.
    rewrite (bind_run _ _ s1 _ s2 Hloop) in Hout. cbv beta iota in Hout.
    unfold now_iso, bind, tick, ret, modify, log_activity, _auto_id in Hout.
    cbn -[pretty alter complete new_campaign c0] in Hout.
    rewrite Hc, Hc0, alter_last in Hout. subst out.
    right. right. eexists _, _. split; [reflexivity|].
    split; [reflexivity|].
    pose proof (len_iter _ _ _ Hlen Hiter) as Htot.
    unfold campaign_completed. cbn. repeat split; [lia|discriminate].
  - destruct (Hbad eq_refl) as (d & Hfst).
    clear Hokr Hbad.
    match type of Hout with
    | _ = bind ?m _ _ =>
        assert (Hloop : m s1 = (HTTPException 500 d, s2))
          by (rewrite (surjective_pairing (m s1)), Hfst, Hs2; reflexivity)
    end.
    rewrite (bind_fail _ _ s1 _ _ s2 Hloop) in Hout. subst out.
    right. left. exists c0, d. split; [reflexivity|].
    cbn [snd]. rewrite Hc, Hc0. repeat split.
Qed.

Lemma send_bulk_keeps_settled form h cu :
  keeps (fun s => Forall campaign_settled (campaigns s))
        (send_bulk_message E form h cu).
Proof.
  intros s Hs.
  destruct (send_bulk_message_campaign form h cu s)
    as [(code & d & _ & ->)
       | [(c & d & _ & -> & Hrun & Hd & Hr)
         | (c & resp & _ & -> & Hdone & Hd & Hr)]];
    [exact Hs| |].
  all: apply Forall_app; split; [exact Hs|].
  all: constructor; [|constructor].
  all: unfold campaign_settled; auto.
Qed.

Lemma handle_keeps_settled r :
  keeps (fun s => Forall campaign_settled (campaigns s)) (handle E r).
Proof.
  unfold handle, authenticated, admin_only.
  destruct (target r).
  all: try (apply keeps_bind;
            [apply keeps_get_current_user; keeps_side|intros cu]).
  all: try (apply keeps_bind; [apply keeps_get_admin_user|intros adm]).
  - unfold login. keeps_auto.
  - unfold logout. keeps_auto.
  - unfold change_password. keeps_auto.
  - unfold create_user. keeps_auto.
  - unfold update_user. keeps_auto.
  - unfold delete_user. keeps_auto.
  - unfold create_template. keeps_auto.
  - unfold update_template. keeps_auto.
  - unfold delete_template. keeps_auto.
  - unfold approve_template. keeps_auto.
  - unfold send_single_message, record_single. keeps_auto.
  - apply send_bulk_keeps_settled.
  - unfold get_campaign_detail. keeps_auto.
  - apply receive_webhook_keeps. intros data su _ _.
    unfold process_status_update, get_or_raise, first_item, mutate_log.
    keeps_auto.
Qed.

End Campaigns.

(** X25. In every reachable store the delivered and read counters of
    each campaign are zero, and the campaign is either completed, its
    sent and failed counts adding up to its number of recipients, or
    still "running" with both counts at zero and no completion time.
    A bulk send that answers has appended its campaign and completed it
    within the request; one that ends with an error has appended no
    campaign, or, when the error is an uncaught exception while the
    recipients are read (a 500 answer), has left its campaign running.
    No route (the status webhook included) writes to a campaign
    afterwards. *)
Theorem campaigns_are_settled (E : Env) (s : Store) :
  reachable E s ->
  (forall c, In c (campaigns s) -> campaign_settled c)
  /\ (forall form h cu resp s',
        send_bulk_message E form h cu s = (Ok resp, s') ->
        exists c, campaigns s' = campaigns s ++ [c] /\ campaign_completed c)
  /\ (forall form h cu code d s',
        send_bulk_message E form h cu s = (HTTPException code d, s') ->
        campaigns s' = campaigns s
        \/ exists c,
             code = 500 /\ campaigns s' = campaigns s ++ [c]
             /\ campaign_running c).
Proof.
  intros Hs. split; [|split].
  - apply List.Forall_forall.
    induction Hs as [|r s Hs IH]; [constructor|].
    apply handle_keeps_settled. exact IH.
  - intros form h cu resp s' Hrun.
    destruct (send_bulk_message_campaign E form h cu s)
      as [(code & d & Hfst & _)
         | [(c & d & Hfst & _)
           | (c & resp' & _ & Hc & Hdone & _)]];
      rewrite Hrun in *; cbn [fst snd] in *; try discriminate.
    exists c. split; assumption.
  - intros form h cu code d s' Hrun.
    destruct (send_bulk_message_campaign E form h cu s)
      as [(code' & d' & _ & Hc)
         | [(c & d' & Hfst & Hc & Hrunning & _)
           | (c & resp' & Hfst & _)]];
      rewrite Hrun in *; cbn [fst snd] in *; try discriminate.
    + left. exact Hc.
    + right. exists c. injection Hfst as -> _.
      split; [reflexivity|split; assumption].
Qed.

Lemma bulk_store_reached :
  run demo_env [as_admin (PostBulk three_recipients)] (init demo_env)
  = bulk_store.
Proof. vm_compute. reflexivity. Qed.

Lemma crashed_store_reached :
  run demo_env [as_admin (PostBulk broken_recipients)] (init demo_env)
  = crashed_store.
Proof. vm_compute. reflexivity. Qed.

Lemma campaigns_are_settled_witness :
  (exists c, In c (campaigns bulk_store)
             /\ c_status c = "completed" /\ campaign_settled c)
  /\ (exists c, In c (campaigns crashed_store)
                /\ c_status c = "running" /\ campaign_settled c).
Proof.
  split.
  - eexists. split; [left; reflexivity|]. split; [reflexivity|].
    apply (proj1 (campaigns_are_settled demo_env bulk_store
                    ltac:(rewrite <- bulk_store_reached;
                          apply run_reachable; constructor))).
    left. reflexivity.
  - eexists. split; [left; reflexivity|]. split; [reflexivity|].
    apply (proj1 (campaigns_are_settled demo_env crashed_store
                    ltac:(rewrite <- crashed_store_reached;
                          apply run_reachable; constructor))).
    left. reflexivity.
Defined.

